(** * PlantDoc data preparation pipeline: a shallow embedding

    The Python sources under [src/] (loader, validator, feature extractor,
    balancer, YOLO exporter and the three pipelines) are embedded as Rocq
    functions.  A pandas DataFrame is a list of rows in index order, Python
    [str] is [string] (read as ASCII text), Python [int] is [Z], a dict built
    by a comprehension is an association list in insertion order, and the
    output directory is the log of the writes performed on it.  Python
    [float] results are kept as exact rationals; the bounding box conversion
    is also given on IEEE binary64 numbers. *)

From Stdlib Require Import ZArith QArith List String Ascii Bool Arith Lia.
From Stdlib Require Import Sorting.Sorted Sorting.Permutation.
From Stdlib Require Import DecimalString DecimalNat.
From Stdlib Require Import Floats Uint63.
Import ListNotations.

Local Close Scope Q_scope.
Local Open Scope string_scope.
Local Open Scope list_scope.
Local Open Scope nat_scope.

(** ** Python string primitives *)

Module PyStr.

(** [str.isspace] on ASCII: TAB..CR, FS..US and the blank. *)
Definition is_space (c : ascii) : bool :=
  let n := nat_of_ascii c in
  ((9 <=? n) && (n <=? 13)) || ((28 <=? n) && (n <=? 32)).

Definition is_upper (c : ascii) : bool :=
  let n := nat_of_ascii c in (65 <=? n) && (n <=? 90).

Definition is_lower (c : ascii) : bool :=
  let n := nat_of_ascii c in (97 <=? n) && (n <=? 122).

Definition is_digit (c : ascii) : bool :=
  let n := nat_of_ascii c in (48 <=? n) && (n <=? 57).

(** The regex class [\w] on ASCII: letters, digits and the underscore. *)
Definition is_word (c : ascii) : bool :=
  is_upper c || is_lower c || is_digit c || Ascii.eqb c "_".

Definition lower (c : ascii) : ascii :=
  if is_upper c then ascii_of_nat (nat_of_ascii c + 32) else c.

Definition upper (c : ascii) : ascii :=
  if is_lower c then ascii_of_nat (nat_of_ascii c - 32) else c.

Definition head (s : string) : option ascii :=
  match s with EmptyString => None | String c _ => Some c end.

(** [starts_ci pat s]: [s] begins with [pat], letters compared without
    case (the flag [re.IGNORECASE]). *)
Fixpoint starts_ci (pat s : string) : bool :=
  match pat with
  | EmptyString => true
  | String p pat' =>
      match s with
      | EmptyString => false
      | String c s' => Ascii.eqb (lower p) (lower c) && starts_ci pat' s'
      end
  end.

(** [str.lstrip], [str.rstrip] and [str.strip] with no argument. *)
Fixpoint lstrip (s : string) : string :=
  match s with
  | EmptyString => EmptyString
  | String c s' => if is_space c then lstrip s' else s
  end.

Fixpoint rstrip (s : string) : string :=
  match s with
  | EmptyString => EmptyString
  | String c s' =>
      match rstrip s' with
      | EmptyString => if is_space c then EmptyString else String c EmptyString
      | r => String c r
      end
  end.

Definition strip (s : string) : string := rstrip (lstrip s).

(** [str.title]: the first letter of every run of letters is upper-cased,
    the others are lower-cased. *)
Fixpoint title_from (prev_cased : bool) (s : string) : string :=
  match s with
  | EmptyString => EmptyString
  | String c s' =>
      if is_lower c then
        String (if prev_cased then c else upper c) (title_from true s')
      else if is_upper c then
        String (if prev_cased then lower c else c) (title_from true s')
      else String c (title_from false s')
  end.

Definition title (s : string) : string := title_from false s.

(** [re.sub(r'(?i)<pat>', '', s)] for a literal, non-empty [pat]: the
    leftmost non-overlapping occurrences are dropped.  [skip] counts the
    characters of the current occurrence still to be dropped. *)
Fixpoint remove_ci_from (pat : string) (skip : nat) (s : string) : string :=
  match s with
  | EmptyString => EmptyString
  | String c s' =>
      match skip with
      | S k => remove_ci_from pat k s'
      | O =>
          if starts_ci pat s then remove_ci_from pat (String.length pat - 1) s'
          else String c (remove_ci_from pat 0 s')
      end
  end.

Definition remove_ci (pat s : string) : string :=
  match pat with
  | EmptyString => s
  | _ => remove_ci_from pat 0 s
  end.

(** [re.sub(r'\s+', ' ', s)]. *)
Fixpoint collapse_ws_from (in_ws : bool) (s : string) : string :=
  match s with
  | EmptyString => EmptyString
  | String c s' =>
      if is_space c then
        if in_ws then collapse_ws_from true s'
        else String " " (collapse_ws_from true s')
      else String c (collapse_ws_from false s')
  end.

Definition collapse_ws (s : string) : string := collapse_ws_from false s.

(** [re.sub(r'_', ' ', s)]. *)
Fixpoint underscores_to_spaces (s : string) : string :=
  match s with
  | EmptyString => EmptyString
  | String c s' =>
      String (if Ascii.eqb c "_" then " "%char else c) (underscores_to_spaces s')
  end.

(** The assertion [\b] between two neighbouring positions; the outside of
    the text counts as a non-word character. *)
Definition is_word_opt (c : option ascii) : bool :=
  match c with Some a => is_word a | None => false end.

Definition boundary (before after : option ascii) : bool :=
  xorb (is_word_opt before) (is_word_opt after).

Fixpoint nth_char (n : nat) (s : string) {struct s} : option ascii :=
  match s with
  | EmptyString => None
  | String c s' => match n with O => Some c | S k => nth_char k s' end
  end.

(** The character just before offset [n] of [s], [prev] standing for the
    one before [s]. *)
Definition char_before (prev : option ascii) (n : nat) (s : string)
  : option ascii :=
  match n with O => prev | S k => nth_char k s end.

(** [word_match pat prev s]: the regex [\b<pat>\b] with [re.IGNORECASE]
    matches at the start of [s], [prev] being the character before it. *)
Definition word_match (pat : string) (prev : option ascii) (s : string) : bool :=
  let n := String.length pat in
  boundary prev (head s)
  && starts_ci pat s
  && boundary (char_before prev n s) (nth_char n s).

(** [re.search(rf"\b{pat}\b", s, flags=re.IGNORECASE)] is not [None]. *)
Fixpoint re_search_from (pat : string) (prev : option ascii) (s : string) : bool :=
  word_match pat prev s
  || match s with
     | EmptyString => false
     | String c s' => re_search_from pat (Some c) s'
     end.

Definition re_search (pat s : string) : bool := re_search_from pat None s.

(** [re.sub(rf"\b{pat}\b", "", s, flags=re.IGNORECASE)].  An empty [pat]
    only has empty matches, whose replacement leaves the text as it is. *)
Fixpoint re_sub_from (pat : string) (prev : option ascii) (skip : nat)
  (s : string) : string :=
  match s with
  | EmptyString => EmptyString
  | String c s' =>
      match skip with
      | S k => re_sub_from pat (Some c) k s'
      | O =>
          if word_match pat prev s
          then re_sub_from pat (Some c) (String.length pat - 1) s'
          else String c (re_sub_from pat (Some c) 0 s')
      end
  end.

Definition re_sub (pat s : string) : string :=
  match pat with
  | EmptyString => s
  | _ => re_sub_from pat None 0 s
  end.

(** ['_dup' in s], and [s.split('_dup')[0]]: the text before the first
    occurrence of the marker, the whole text when there is none. *)
Definition dup_marker : string := "_dup".

Fixpoint contains (pat s : string) : bool :=
  String.prefix pat s
  || match s with
     | EmptyString => false
     | String _ s' => contains pat s'
     end.

Fixpoint before_first (pat s : string) : string :=
  if String.prefix pat s then EmptyString
  else match s with
       | EmptyString => EmptyString
       | String c s' => String c (before_first pat s')
       end.

(** [str(k)] for a natural number. *)
Definition str_of_nat (k : nat) : string :=
  NilEmpty.string_of_uint (Nat.to_uint k).

End PyStr.

(** ** [pathlib.Path]: final component, stem and suffix *)

Module PyPath.

(** The components of a POSIX path: the pieces between slashes, empty
    pieces and ["."] left out. *)
Fixpoint split_slash (cur : string) (s : string) : list string :=
  match s with
  | EmptyString => [cur]
  | String c s' =>
      if Ascii.eqb c "/" then cur :: split_slash EmptyString s'
      else split_slash (cur ++ String c EmptyString)%string s'
  end.

Definition keep_part (p : string) : bool :=
  negb (String.eqb p "") && negb (String.eqb p ".").

Definition parts (s : string) : list string :=
  filter keep_part (split_slash EmptyString s).

(** [Path(s).name]. *)
Definition name (s : string) : string := last (parts s) EmptyString.

(** [s.rfind('.')]: the offset of the last dot. *)
Fixpoint rfind_dot (s : string) : option nat :=
  match s with
  | EmptyString => None
  | String c s' =>
      match rfind_dot s' with
      | Some i => Some (S i)
      | None => if Ascii.eqb c "." then Some 0 else None
      end
  end.

(** The offset at which the suffix starts: the last dot [i] of the name
    when [0 < i < len(name) - 1]. *)
Definition suffix_start (nm : string) : option nat :=
  match rfind_dot nm with
  | Some i =>
      if (0 <? i)%nat && (i <? String.length nm - 1)%nat then Some i else None
  | None => None
  end.

(** [Path(s).suffix] and [Path(s).stem]. *)
Definition suffix (s : string) : string :=
  let nm := name s in
  match suffix_start nm with
  | Some i => String.substring i (String.length nm - i) nm
  | None => EmptyString
  end.

Definition stem (s : string) : string :=
  let nm := name s in
  match suffix_start nm with
  | Some i => String.substring 0 i nm
  | None => nm
  end.

End PyPath.

(** ** The data frame *)

(** A cell of a label column: a missing value ([None] / [NaN]), an [int]
    or a [str]. *)
Inductive label : Type :=
| LNone
| LInt (z : Z)
| LStr (s : string).

(** One row of the annotation table: the eight CSV columns, then the
    columns the pipeline adds ([None] until they are computed, and for
    [species] also when no species is found). *)
Record row : Type := mkRow {
  filename : string;
  class_ : string;
  xmin : Z;
  xmax : Z;
  ymin : Z;
  ymax : Z;
  width : Z;
  height : Z;
  species : option string;
  disease : option string;
  binary_class : option Z
}.

Definition DataFrame : Type := list row.

Inductive column : Type := ColFilename | ColClass | ColSpecies | ColDisease | ColBinary.

Definition opt_str (o : option string) : label :=
  match o with Some s => LStr s | None => LNone end.

Definition opt_int (o : option Z) : label :=
  match o with Some z => LInt z | None => LNone end.

(** [row[column]]. *)
Definition col_value (c : column) (r : row) : label :=
  match c with
  | ColFilename => LStr (filename r)
  | ColClass => LStr (class_ r)
  | ColSpecies => opt_str (species r)
  | ColDisease => opt_str (disease r)
  | ColBinary => opt_int (binary_class r)
  end.

Definition set_filename (f : string) (r : row) : row :=
  mkRow f (class_ r) (xmin r) (xmax r) (ymin r) (ymax r) (width r) (height r)
        (species r) (disease r) (binary_class r).

Definition set_class (c : string) (r : row) : row :=
  mkRow (filename r) c (xmin r) (xmax r) (ymin r) (ymax r) (width r) (height r)
        (species r) (disease r) (binary_class r).

Definition set_size (w h : Z) (r : row) : row :=
  mkRow (filename r) (class_ r) (xmin r) (xmax r) (ymin r) (ymax r) w h
        (species r) (disease r) (binary_class r).

Definition set_features (sp : option string) (d : string) (r : row) : row :=
  mkRow (filename r) (class_ r) (xmin r) (xmax r) (ymin r) (ymax r)
        (width r) (height r) sp (Some d) (binary_class r).

Definition set_binary (b : Z) (r : row) : row :=
  mkRow (filename r) (class_ r) (xmin r) (xmax r) (ymin r) (ymax r)
        (width r) (height r) (species r) (disease r) (Some b).

Definition label_eqb (a b : label) : bool :=
  match a, b with
  | LNone, LNone => true
  | LInt x, LInt y => Z.eqb x y
  | LStr x, LStr y => String.eqb x y
  | _, _ => false
  end.

(** The order [sorted] and [groupby] put on the values of one column:
    integers by value, strings by code point.  Values of different kinds,
    which Python refuses to compare, are ranked by kind. *)
Definition label_leb (a b : label) : bool :=
  match a, b with
  | LNone, _ => true
  | LInt _, LNone => false
  | LInt x, LInt y => Z.leb x y
  | LInt _, LStr _ => true
  | LStr x, LStr y => String.leb x y
  | LStr _, _ => false
  end.

Definition is_none (a : label) : bool :=
  match a with LNone => true | _ => false end.

Definition is_int (a : label) : bool :=
  match a with LInt _ => true | _ => false end.

Definition is_str (a : label) : bool :=
  match a with LStr _ => true | _ => false end.

(** [Series.unique()]: the distinct values in order of first appearance. *)
Fixpoint unique (l : list label) : list label :=
  match l with
  | [] => []
  | x :: l' => x :: filter (fun y => negb (label_eqb y x)) (unique l')
  end.

(** [sorted]: insertion into an ascending list. *)
Fixpoint insert_sorted (x : label) (l : list label) : list label :=
  match l with
  | [] => [x]
  | y :: l' => if label_leb x y then x :: l else y :: insert_sorted x l'
  end.

Fixpoint sort (l : list label) : list label :=
  match l with
  | [] => []
  | x :: l' => insert_sorted x (sort l')
  end.

(** [sorted(l)] on the distinct cells of a column raises [TypeError] as
    soon as two values of different kinds have to be compared: in a column
    of strings, a string and a missing value ([None], or the [nan] of an
    empty CSV cell).  One value alone is compared with nothing. *)
Definition sortable (l : list label) : bool :=
  match l with
  | [] | [_] => true
  | _ => forallb is_int l || forallb is_str l
  end.

(** [df[column]], the cells of a column; [None] is the [KeyError] of a
    column the frame does not have.  The columns [binary_class] and
    [disease] hold a value in every row from the moment they are added
    ([astype(int)] yields integers, [extract_disease] returns a string), so
    a record without one belongs to a frame that has no such column; a
    column of integers cannot hold a missing value beside them (pandas
    would make it a column of floats, which the records here do not
    have).  The [species] column holds [None] where no species was
    found. *)
Definition column_cells (col : column) (df : DataFrame) : option (list label) :=
  let cells := map (col_value col) df in
  match col with
  | ColBinary | ColDisease => if existsb is_none cells then None else Some cells
  | ColFilename | ColClass | ColSpecies => Some cells
  end.

(** The rows whose [key] is [k], in frame order. *)
Definition rows_with (key : row -> label) (k : label) (df : DataFrame) : DataFrame :=
  filter (fun r => label_eqb (key r) k) df.

(** The group keys of [df.groupby(column)]: distinct, ascending, missing
    values dropped. *)
Definition group_keys (key : row -> label) (df : DataFrame) : list label :=
  sort (unique (filter (fun k => negb (is_none k)) (map key df))).

(** [df.groupby(column)]: the groups in ascending key order, each with its
    rows in frame order. *)
Definition groupby (key : row -> label) (df : DataFrame) : list (label * DataFrame) :=
  map (fun k => (k, rows_with key k df)) (group_keys key df).

(** [len(df[column].unique())] for the file name column. *)
Definition distinct_filenames (df : DataFrame) : nat :=
  List.length (unique (map (col_value ColFilename) df)).

(** ** data/data_loader.py *)

Module DataLoader.

(** The chain of [str.replace] calls of [clean_class_names] on one cell. *)
Definition clean_class_name (s : string) : string :=
  PyStr.strip
    (PyStr.underscores_to_spaces
       (PyStr.collapse_ws (PyStr.remove_ci "leaf" s))).

Definition clean_class_names (df : DataFrame) : DataFrame :=
  map (fun r => set_class (clean_class_name (class_ r)) r) df.

(** [load_and_clean], the two CSV files already read. *)
Definition load_and_clean (train test : DataFrame) : DataFrame * DataFrame :=
  (clean_class_names train, clean_class_names test).

End DataLoader.

(** ** data/feature_extractor.py *)

Module FeatureExtractor.

(** [extract_species] over any matcher: the first entry of the list, in
    list order, that the matcher finds in the text. *)
Section Matcher.
Variable found : string -> string -> bool.

Fixpoint first_match (plant_species : list string) (text : string)
  : option string :=
  match plant_species with
  | [] => None
  | plant :: rest =>
      if found plant text then Some plant else first_match rest text
  end.
End Matcher.

(** Species names are used as literal patterns: they hold no regex
    metacharacter. *)
Definition extract_species (plant_species : list string) (text : string)
  : option string :=
  first_match PyStr.re_search plant_species text.

(** The loop of [extract_disease]: every species is removed in turn and
    the text stripped after each removal. *)
Fixpoint remove_species (plant_species : list string) (text : string) : string :=
  match plant_species with
  | [] => text
  | plant :: rest => remove_species rest (PyStr.strip (PyStr.re_sub plant text))
  end.

Definition extract_disease (plant_species : list string) (text : string) : string :=
  let text' := remove_species plant_species text in
  match text' with
  | EmptyString => "healthy"
  | _ => PyStr.title text'
  end.

Definition add_features (plant_species : list string) (df : DataFrame) : DataFrame :=
  map (fun r =>
         set_features (extract_species plant_species (class_ r))
                      (extract_disease plant_species (class_ r)) r) df.

End FeatureExtractor.

(** ** data/data_validator.py *)

(** What an image folder holds under a file name: nothing, an image that
    [PIL.Image.open] reads with its size, or a file it cannot read. *)
Inductive file : Type :=
| Missing
| Image (w h : Z)
| Unreadable.

Definition folder : Type := string -> file.

Definition exists_in (fs : folder) (f : string) : bool :=
  match fs f with Missing => false | _ => true end.

Module DataValidator.

(** One iteration of the loop of [fix_zero_dimensions]; [None] when
    [Image.open] raises. *)
Definition fix_row (fs : folder) (r : row) : option row :=
  if Z.eqb (width r) 0 || Z.eqb (height r) 0 then
    match fs (filename r) with
    | Missing => Some r
    | Image w h => Some (set_size w h r)
    | Unreadable => None
    end
  else Some r.

Fixpoint fix_zero_dimensions (fs : folder) (df : DataFrame) : option DataFrame :=
  match df with
  | [] => Some []
  | r :: df' =>
      match fix_row fs r with
      | None => None
      | Some r' =>
          match fix_zero_dimensions fs df' with
          | None => None
          | Some out => Some (r' :: out)
          end
      end
  end.

(** [verify_files_exist]; [None] is its [KeyError] on a frame without
    rows: the mask is then the empty list, which [df[existing_mask]] takes
    for a list of column labels, so the result has no column and
    [df_filtered['filename']] fails.  A mask with at least one entry
    selects rows. *)
Definition verify_files_exist (fs : folder) (df : DataFrame) : option DataFrame :=
  match df with
  | [] => None
  | _ :: _ => Some (filter (fun r => exists_in fs (filename r)) df)
  end.

(** [validate_and_fix]; [None] when the repair or the filter raises. *)
Definition validate_and_fix (fs : folder) (df : DataFrame) : option DataFrame :=
  match fix_zero_dimensions fs df with
  | None => None
  | Some fixed => verify_files_exist fs fixed
  end.

End DataValidator.

(** ** processing/balancer.py *)

Module DataBalancer.

(** [f"{stem}_dup{duplicates_added}{suffix}"]. *)
Definition dup_filename (original : string) (k : nat) : string :=
  (PyPath.stem original ++ PyStr.dup_marker ++ PyStr.str_of_nat k
     ++ PyPath.suffix original)%string.

(** One turn of the [while] loop: the sample at [k % n_samples], its file
    name rewritten.  The slice [group.iloc[idx:idx+1]] is empty only for
    an empty group, which [groupby] never yields. *)
Definition duplicate (group : DataFrame) (k : nat) : DataFrame :=
  match nth_error group (k mod List.length group) with
  | Some sample => [set_filename (dup_filename (filename sample) k) sample]
  | None => []
  end.

(** The [while duplicates_added < n_to_add] loop, [todo] turns left. *)
Fixpoint duplicates (group : DataFrame) (duplicates_added todo : nat) : DataFrame :=
  match todo with
  | O => []
  | S todo' =>
      duplicate group duplicates_added
        ++ duplicates group (S duplicates_added) todo'
  end.

(** [group.iloc[:target]], a negative stop counting from the end. *)
Definition iloc_to (target : Z) (group : DataFrame) : DataFrame :=
  if (0 <=? target)%Z then firstn (Z.to_nat target) group
  else firstn (Z.to_nat (Z.of_nat (List.length group) + target)) group.

(** The body of the [for class_value, group] loop: what is appended to
    [balanced_dfs] for one group. *)
Definition balance_group (target : Z) (keep_above_target : bool)
  (group : DataFrame) : DataFrame :=
  let n_samples := Z.of_nat (List.length group) in
  let n_to_add := (target - n_samples)%Z in
  if (0 <? n_to_add)%Z then group ++ duplicates group 0 (Z.to_nat n_to_add)
  else if keep_above_target then group
  else iloc_to target group.

(** [balance_by_column]; [None] is the [ValueError] of [pd.concat] on an
    empty list, raised when the frame has no group. *)
Definition balance_by_column (df : DataFrame) (col : column) (target : Z)
  (keep_above_target : bool) : option DataFrame :=
  match groupby (col_value col) df with
  | [] => None
  | groups =>
      Some (flat_map (fun g => balance_group target keep_above_target (snd g))
                     groups)
  end.

(** [get_class_distribution]: [value_counts().sort_index()], the number of
    rows of every value of the column, by ascending value. *)
Definition get_class_distribution (df : DataFrame) (col : column)
  : list (label * nat) :=
  map (fun k => (k, List.length (rows_with (col_value col) k df)))
      (group_keys (col_value col) df).

End DataBalancer.

(** ** processing/yolo_converter.py *)

(** The exceptions raised inside the [try] block of the export loop. *)
Inductive exn : Type :=
| OSError
| KeyError (k : label)
| ZeroDivisionError.

(** One line of a label file; the values are kept exact, the rendering
    with six decimals is left out. *)
Record label_line : Type := mkLine {
  cls_idx : nat;
  x_c : Q;
  y_c : Q;
  box_w : Q;
  box_h : Q
}.

(** What the export does to the output folders, in order. *)
Inductive event : Type :=
| CopyImage (src dst : string)
| OpenLabel (path : string)
| WriteLine (path : string) (l : label_line).

(** How the loop leaves one file name group. *)
Inductive outcome : Type :=
| Exported
| SourceMissing
| Failed (e : exn).

(** The source folder of an export together with the input and output
    operations that fail on it ([shutil.copy2] to a destination name,
    [open] of a label path). *)
Record export_env : Type := mkEnv {
  source : folder;
  copy_fails : string -> bool;
  open_fails : string -> bool
}.

Definition class_mapping : Type := list (label * nat).

(** [class_mapping[key]]. *)
Fixpoint lookup (key : label) (m : class_mapping) : option nat :=
  match m with
  | [] => None
  | (k, i) :: m' => if label_eqb k key then Some i else lookup key m'
  end.

(** The content of [dataset.yaml]. *)
Record yaml_content : Type := mkYaml {
  yaml_path : string;
  yaml_train : string;
  yaml_val : string;
  yaml_nc : nat;
  yaml_names : list (nat * label)
}.

Module YOLOConverter.

(** [convert_bbox_to_yolo]; the rows carry Python numbers, so a zero
    width or height raises. *)
Definition convert_bbox_to_yolo (r : row) : exn + (Q * Q * Q * Q) :=
  if Z.eqb (width r) 0 || Z.eqb (height r) 0 then inl ZeroDivisionError
  else
    let x_center := (inject_Z (xmin r + xmax r) / 2 / inject_Z (width r))%Q in
    let y_center := (inject_Z (ymin r + ymax r) / 2 / inject_Z (height r))%Q in
    let bbox_width := (inject_Z (xmax r - xmin r) / inject_Z (width r))%Q in
    let bbox_height := (inject_Z (ymax r - ymin r) / inject_Z (height r))%Q in
    inr (x_center, y_center, bbox_width, bbox_height).

(** An [int] operand of a division, as the [float] it is converted to
    (exact below 2^53). *)
Definition float_of_Z (z : Z) : float :=
  if (z <? 0)%Z then PrimFloat.opp (PrimFloat.of_uint63 (Uint63.of_Z (- z)))
  else PrimFloat.of_uint63 (Uint63.of_Z z).

(** [convert_bbox_to_yolo] on binary64 numbers, every division rounded as
    Python rounds it. *)
Definition convert_bbox_to_yolo_f64 (r : row) : exn + (float * float * float * float) :=
  if Z.eqb (width r) 0 || Z.eqb (height r) 0 then inl ZeroDivisionError
  else
    let x_center :=
      PrimFloat.div (PrimFloat.div (float_of_Z (xmin r + xmax r)) (float_of_Z 2))
                    (float_of_Z (width r)) in
    let y_center :=
      PrimFloat.div (PrimFloat.div (float_of_Z (ymin r + ymax r)) (float_of_Z 2))
                    (float_of_Z (height r)) in
    let bbox_width :=
      PrimFloat.div (float_of_Z (xmax r - xmin r)) (float_of_Z (width r)) in
    let bbox_height :=
      PrimFloat.div (float_of_Z (ymax r - ymin r)) (float_of_Z (height r)) in
    inr (x_center, y_center, bbox_width, bbox_height).

(** The body of [for _, row in group.iterrows()] for one row. *)
Definition label_of_row (m : class_mapping) (col : column) (r : row)
  : exn + label_line :=
  match lookup (col_value col r) m with
  | None => inl (KeyError (col_value col r))
  | Some idx =>
      match convert_bbox_to_yolo r with
      | inl e => inl e
      | inr (xc, yc, w, h) => inr (mkLine idx xc yc w h)
      end
  end.

(** The lines written to an open label file, up to the first row that
    raises. *)
Fixpoint write_rows (m : class_mapping) (col : column) (path : string)
  (rows : DataFrame) : list event * option exn :=
  match rows with
  | [] => ([], None)
  | r :: rows' =>
      match label_of_row m col r with
      | inl e => ([], Some e)
      | inr l =>
          let (evs, res) := write_rows m col path rows' in
          (WriteLine path l :: evs, res)
      end
  end.

(** The image a file name is copied from: the original behind a
    duplicate. *)
Definition source_name (f : string) : string :=
  if PyStr.contains PyStr.dup_marker f
  then (PyStr.before_first PyStr.dup_marker f ++ PyPath.suffix f)%string
  else f.

Definition label_path (f : string) : string := (PyPath.stem f ++ ".txt")%string.

(** The [try] block for one group, with what the [except] clause sees. *)
Definition export_group (env : export_env) (m : class_mapping) (col : column)
  (f : string) (group : DataFrame) : list event * outcome :=
  let src := source_name f in
  if negb (exists_in (source env) src) then ([], SourceMissing)
  else if copy_fails env f then ([], Failed OSError)
  else if open_fails env (label_path f) then ([CopyImage src f], Failed OSError)
  else
    let (evs, res) := write_rows m col (label_path f) group in
    (CopyImage src f :: OpenLabel (label_path f) :: evs,
     match res with Some e => Failed e | None => Exported end).

Definition group_name (k : label) : string :=
  match k with LStr s => s | _ => EmptyString end.

(** One turn of the loop over [df.groupby("filename")]: the two counters
    and the log of writes after the group. *)
Definition export_step (env : export_env) (m : class_mapping) (col : column)
  (st : nat * nat * list event) (g : label * DataFrame)
  : nat * nat * list event :=
  let '(exported, skipped, log) := st in
  let (evs, res) := export_group env m col (group_name (fst g)) (snd g) in
  match res with
  | Exported => (S exported, skipped, log ++ evs)
  | SourceMissing | Failed _ => (exported, S skipped, log ++ evs)
  end.

Definition export_to_yolo (df : DataFrame) (env : export_env)
  (m : class_mapping) (col : column) : nat * nat * list event :=
  fold_left (export_step env m col) (groupby (col_value ColFilename) df)
            (0, 0, []).

(** [create_class_mapping]; [None] when it raises: the [KeyError] of a
    column the frame does not have, or the [TypeError] of [sorted]. *)
Definition create_class_mapping (df : DataFrame) (col : column)
  : option class_mapping :=
  match column_cells col df with
  | None => None
  | Some cells =>
      let unique_classes := unique cells in
      if sortable unique_classes then
        let sorted := sort unique_classes in
        Some (combine sorted (seq 0 (List.length sorted)))
      else None
  end.

(** [d[k] = v] on a dict kept in insertion order: the value of an existing
    key is replaced where it stands, a new key goes to the end. *)
Fixpoint dict_set (k : nat) (v : label) (d : list (nat * label))
  : list (nat * label) :=
  match d with
  | [] => [(k, v)]
  | (k', v') :: d' =>
      if Nat.eqb k' k then (k', v) :: d' else (k', v') :: dict_set k v d'
  end.

(** [{idx: name for name, idx in class_mapping.items()}]. *)
Definition names_of (m : class_mapping) : list (nat * label) :=
  fold_left (fun d e => dict_set (snd e) (fst e) d) m [].

(** [create_yaml_config]: the content dumped to [dataset.yaml]; the
    resolved output directory is taken as given, and the mapping, a dict,
    has distinct keys. *)
Definition create_yaml_config (output_dir : string) (m : class_mapping)
  (train_subdir val_subdir : string) : yaml_content :=
  mkYaml output_dir train_subdir val_subdir (List.length m) (names_of m).

End YOLOConverter.

(** ** config/pipeline_config.py *)

Module Config.

(** [value.split(',')]. *)
Fixpoint split_comma (cur : string) (s : string) : list string :=
  match s with
  | EmptyString => [cur]
  | String c s' =>
      if Ascii.eqb c "," then cur :: split_comma EmptyString s'
      else split_comma (cur ++ String c EmptyString)%string s'
  end.

(** [[s.strip() for s in os.getenv('PLANT_SPECIES', '').split(',')]], from
    the value of the variable, empty when it is not set. *)
Definition parse_plant_species (value : string) : list string :=
  map PyStr.strip (split_comma EmptyString value).

End Config.

(** ** pipelines/ *)

Inductive pipeline : Type := Binary | Species | Disease.

(** The part of [PipelineConfig] the pipelines read. *)
Record PipelineConfig : Type := mkConfig {
  plant_species : list string;
  rare_disease_threshold : Q;
  excluded_diseases : list string;
  train_images_dir : folder;
  test_images_dir : folder
}.

(** The two frames a pipeline carries from stage to stage. *)
Record splits : Type := mkSplits {
  df_train : DataFrame;
  df_test : DataFrame
}.

(** What [export_data] leaves: the mapping, and for each split the two
    counters and the log of writes. *)
Record export_report : Type := mkReport {
  mapping : class_mapping;
  train_export : nat * nat * list event;
  val_export : nat * nat * list event
}.

Module Pipeline.

Definition get_class_column (p : pipeline) : column :=
  match p with
  | Binary => ColBinary
  | Species => ColSpecies
  | Disease => ColDisease
  end.

(** [load_and_prepare_data], from the two frames read from the CSV files;
    [None] when validation raises. *)
Definition load_and_prepare_data (cfg : PipelineConfig) (raw : splits)
  : option splits :=
  let (tr, te) := DataLoader.load_and_clean (df_train raw) (df_test raw) in
  let tr := FeatureExtractor.add_features (plant_species cfg) tr in
  let te := FeatureExtractor.add_features (plant_species cfg) te in
  match DataValidator.validate_and_fix (train_images_dir cfg) tr with
  | None => None
  | Some tr' =>
      match DataValidator.validate_and_fix (test_images_dir cfg) te with
      | None => None
      | Some te' => Some (mkSplits tr' te')
      end
  end.

(** [(df['disease'] != 'healthy').astype(int)] on one row. *)
Definition binary_label (r : row) : Z :=
  match disease r with
  | Some "healthy" => 0%Z
  | _ => 1%Z
  end.

Definition not_healthy (r : row) : bool :=
  match disease r with
  | Some "healthy" => false
  | _ => true
  end.

Definition has_species (r : row) : bool :=
  match species r with Some _ => true | None => false end.

Definition count_label (v : label) (col : column) (df : DataFrame) : nat :=
  List.length (rows_with (col_value col) v df).

(** [value_counts(normalize=True)] below the rarity threshold: the share
    of a value among the cells that are not missing. *)
Definition is_rare (threshold : Q) (df : DataFrame) (v : label) : bool :=
  let counted :=
    filter (fun k => negb (is_none k)) (map (col_value ColDisease) df) in
  match Qcompare (inject_Z (Z.of_nat (count_label v ColDisease df))
                  / inject_Z (Z.of_nat (List.length counted))) threshold with
  | Lt => true
  | _ => false
  end.

Definition rare_diseases (threshold : Q) (df : DataFrame) : list label :=
  filter (is_rare threshold df)
         (unique (filter (fun k => negb (is_none k)) (map (col_value ColDisease) df))).

(** [list(set(rare_diseases + excluded_diseases))]. *)
Definition all_excluded (cfg : PipelineConfig) (df : DataFrame) : list label :=
  unique (rare_diseases (rare_disease_threshold cfg) df
            ++ map LStr (excluded_diseases cfg)).

Definition isin (l : list label) (v : label) : bool :=
  existsb (label_eqb v) l.

Definition filter_data (p : pipeline) (cfg : PipelineConfig) (s : splits) : splits :=
  match p with
  | Binary =>
      mkSplits (map (fun r => set_binary (binary_label r) r) (df_train s))
               (map (fun r => set_binary (binary_label r) r) (df_test s))
  | Species =>
      mkSplits (filter has_species (df_train s)) (filter has_species (df_test s))
  | Disease =>
      let df_diseases_train := filter not_healthy (df_train s) in
      let df_diseases_test := filter not_healthy (df_test s) in
      let excl := all_excluded cfg df_diseases_train in
      let keep := fun r => negb (isin excl (col_value ColDisease r)) in
      mkSplits (filter keep df_diseases_train) (filter keep df_diseases_test)
  end.

(** [balance_data].  The answer of the operator is passed in: [Some t]
    for "balance to [t] samples per class", [None] for the natural
    distribution.  The result holds [df_train_processed] and
    [df_test_processed]; [None] when the balancer raises. *)
Definition balance_data (p : pipeline) (choice : option Z) (s : splits)
  : option splits :=
  match choice with
  | Some target_samples =>
      match DataBalancer.balance_by_column (df_train s) (get_class_column p)
                                           target_samples true with
      | None => None
      | Some balanced => Some (mkSplits balanced (df_test s))
      end
  | None => Some (mkSplits (df_train s) (df_test s))
  end.

(** [export_data] on the processed frames; [None] when building the
    mapping raises. *)
Definition export_data (p : pipeline) (train_env test_env : export_env)
  (processed : splits) : option export_report :=
  let class_column := get_class_column p in
  match YOLOConverter.create_class_mapping (df_train processed) class_column with
  | None => None
  | Some m =>
      Some (mkReport m
              (YOLOConverter.export_to_yolo (df_train processed) train_env m class_column)
              (YOLOConverter.export_to_yolo (df_test processed) test_env m class_column))
  end.

(** [run]: the four stages in sequence. *)
Definition run (p : pipeline) (cfg : PipelineConfig) (choice : option Z)
  (train_env test_env : export_env) (raw : splits) : option export_report :=
  match load_and_prepare_data cfg raw with
  | None => None
  | Some prepared =>
      match balance_data p choice (filter_data p cfg prepared) with
      | None => None
      | Some processed => export_data p train_env test_env processed
      end
  end.

End Pipeline.

(** ** Pipeline types, output paths and dispatch *)

(** The directories and the configuration file of one pipeline, as lists
    of path components below the project root. *)
Record output_paths : Type := mkPaths {
  base_dir : list string;
  images_train : list string;
  images_val : list string;
  labels_train : list string;
  labels_val : list string;
  yaml_file : list string
}.

Module Dispatch.

(** [get_pipeline_type] of the three pipeline classes. *)
Definition get_pipeline_type (p : pipeline) : string :=
  match p with
  | Binary => "binary"
  | Species => "species"
  | Disease => "disease"
  end.

(** [PipelineConfig.get_output_paths]; [None] is its [ValueError].  The
    output base directory is [project_root / 'dataset']. *)
Definition get_output_paths (pipeline_type : string) : option output_paths :=
  let output_base_dir := ["dataset"] in
  let paths_of base :=
    Some (mkPaths base
            (base ++ ["images"; "train"]) (base ++ ["images"; "val"])
            (base ++ ["labels"; "train"]) (base ++ ["labels"; "val"])
            (base ++ ["dataset.yaml"])) in
  if String.eqb pipeline_type "binary" then paths_of (output_base_dir ++ ["binary"])
  else if String.eqb pipeline_type "species" then paths_of (output_base_dir ++ ["species"])
  else if String.eqb pipeline_type "disease" then paths_of (output_base_dir ++ ["diseases"])
  else None.

(** [main.run_single_pipeline]: the pipeline that is built and run; [None]
    is its [ValueError]. *)
Definition run_single_pipeline (pipeline_type : string) : option pipeline :=
  if String.eqb pipeline_type "binary" then Some Binary
  else if String.eqb pipeline_type "species" then Some Species
  else if String.eqb pipeline_type "disease" then Some Disease
  else None.

End Dispatch.

(** ** Sample data *)

Definition raw_row (f c : string) (x0 x1 y0 y1 w h : Z) : row :=
  mkRow f c x0 x1 y0 y1 w h None None None.

Definition sample_species : list string :=
  ["Apple"; "Potato"; "Tomato"; "Grape"].

Definition sample_folder : folder :=
  fun f =>
    if String.eqb f "a.jpg" then Image 100 200
    else if String.eqb f "b.jpg" then Image 640 480
    else if String.eqb f "c.jpg" then Image 320 240
    else Missing.

Definition sample_env : export_env :=
  mkEnv sample_folder (fun _ => false) (fun _ => false).

Definition sample_raw : splits :=
  mkSplits
    [ raw_row "a.jpg" "Tomato_leaf Blight" 10 50 20 80 100 200;
      raw_row "a.jpg" "Tomato leaf" 0 10 0 10 100 200;
      raw_row "b.jpg" "Tomato leaf" 5 25 5 45 0 0;
      raw_row "c.jpg" "Potato leaf early blight" 1 2 3 4 320 240;
      raw_row "gone.jpg" "Apple leaf" 1 2 3 4 0 0 ]
    [ raw_row "a.jpg" "Tomato leaf" 1 2 3 4 100 200 ].

Definition sample_config : PipelineConfig :=
  mkConfig sample_species (1 # 1000) ["Mold"] sample_folder sample_folder.

(** The training frame of the binary pipeline after cleaning, feature
    extraction and labelling, validation left aside (it only repairs sizes
    and drops rows). *)
Definition labelled_train (sp : list string) (train : DataFrame) : DataFrame :=
  df_train
    (Pipeline.filter_data Binary
       (mkConfig sp (1 # 1000) [] sample_folder sample_folder)
       (mkSplits
          (FeatureExtractor.add_features sp (DataLoader.clean_class_names train))
          [])).

(** ** Reading the log of an export *)

Definition is_exported (o : outcome) : bool :=
  match o with Exported => true | _ => false end.

(** The [try] block run on one group of [groupby("filename")]. *)
Definition group_run (env : export_env) (m : class_mapping) (col : column)
  (g : label * DataFrame) : list event * outcome :=
  YOLOConverter.export_group env m col (YOLOConverter.group_name (fst g)) (snd g).

Definition is_copy_to (dst : string) (e : event) : bool :=
  match e with CopyImage _ d => String.eqb d dst | _ => false end.

Definition is_open_of (path : string) (e : event) : bool :=
  match e with OpenLabel q => String.eqb q path | _ => false end.

(** The image [f] has been copied to the output folder. *)
Definition image_copied (f : string) (evs : list event) : bool :=
  existsb (is_copy_to f) evs.

(** The label file [path] has been created. *)
Definition label_opened (path : string) (evs : list event) : bool :=
  existsb (is_open_of path) evs.

(** The lines written to the label file [path], in order. *)
Fixpoint lines_of (path : string) (evs : list event) : list label_line :=
  match evs with
  | [] => []
  | WriteLine q l :: evs' =>
      if String.eqb q path then l :: lines_of path evs' else lines_of path evs'
  | _ :: evs' => lines_of path evs'
  end.

(** The label file of the group [f] has been written: it exists and holds
    one line per bounding box of the group. *)
Definition label_written (f : string) (group : DataFrame) (evs : list event) : bool :=
  label_opened (YOLOConverter.label_path f) evs
  && (List.length (lines_of (YOLOConverter.label_path f) evs) =? List.length group).

(** A frame with two images; the class of the first is not in the mapping
    built for ["Tomato"] alone. *)
Definition unknown_class_frame : DataFrame :=
  [ mkRow "a.jpg" "Potato" 10 50 20 80 100 200 (Some "Potato") (Some "healthy") None;
    mkRow "b.jpg" "Tomato" 5 25 5 45 640 480 (Some "Tomato") (Some "healthy") None ].

Definition tomato_mapping : class_mapping := [(LStr "Tomato", 0)].

(** Processed frames whose evaluation split holds a class that the
    training split does not. *)
Definition unknown_class_splits : splits :=
  mkSplits
    [ mkRow "c.jpg" "Tomato" 5 25 5 45 320 240 (Some "Tomato") (Some "healthy") None ]
    unknown_class_frame.

(** ** Reading a duplicate's file name *)

(** The duplicate number [k] of the record [src]: everything is kept but
    the file name. *)
Definition duplicate_of (src : row) (k : nat) : row :=
  set_filename (DataBalancer.dup_filename (filename src) k) src.

Fixpoint all_digits (s : string) : bool :=
  match s with
  | EmptyString => true
  | String c s' => PyStr.is_digit c && all_digits s'
  end.

(** The longest prefix made of digits. *)
Fixpoint take_digits (s : string) : string :=
  match s with
  | EmptyString => EmptyString
  | String c s' => if PyStr.is_digit c then String c (take_digits s') else EmptyString
  end.

(** No file name of the frame holds the marker ["_dup"]. *)
Definition no_dup_marker (df : DataFrame) : Prop :=
  forall r, In r df -> PyStr.contains PyStr.dup_marker (filename r) = false.

(** Two records of one class, the second already named like a duplicate
    of the first. *)
Definition marked_frame : DataFrame :=
  [ mkRow "x.jpg" "Tomato" 10 50 20 80 100 200 (Some "Tomato") (Some "healthy") None;
    mkRow "x_dup0.jpg" "Tomato" 5 25 5 45 100 200 (Some "Tomato") (Some "healthy") None ].

(** Three records of two classes, with plain file names. *)
Definition plain_frame : DataFrame :=
  [ mkRow "a.jpg" "Tomato" 10 50 20 80 100 200 (Some "Tomato") (Some "healthy") None;
    mkRow "b.jpg" "Tomato Blight" 5 25 5 45 640 480 (Some "Tomato") (Some "Blight") None;
    mkRow "c.jpg" "Potato" 1 2 3 4 320 240 (Some "Potato") (Some "healthy") None ].

(** ** Orders and side conditions *)

(** A binary64 number within [0,1]. *)
Definition in_unit_interval (x : float) : bool :=
  PrimFloat.leb 0%float x && PrimFloat.leb x 1%float.


(** [sorted] puts [a] before [b]. *)
Definition label_le (a b : label) : Prop := label_leb a b = true.

(** [only_tomato pre post]: of the species list [pre ++ "Tomato" :: post],
    no other entry occurs in the texts of the end-to-end example. *)
Definition only_tomato (pre post : list string) : Prop :=
  (forall p, In p pre ->
     PyStr.re_search p "Tomato  Blight" = false
     /\ PyStr.re_search p "Tomato healthy" = false
     /\ PyStr.re_search p "Tomato" = false)
  /\ (forall p, In p post ->
        PyStr.re_search p "Blight" = false
        /\ PyStr.re_search p "healthy" = false).

(** ** Conditions of a complete export *)

Definition is_write (e : event) : bool :=
  match e with WriteLine _ _ => true | _ => false end.

(** Nothing stands in the way of exporting the frame: every image is found
    where the export looks for it, copies and label files do not fail,
    every label is a key of the mapping and no width or height is zero. *)
Definition export_ready (env : export_env) (m : class_mapping) (col : column)
  (df : DataFrame) : Prop :=
  forall r, In r df ->
    exists_in (source env) (YOLOConverter.source_name (filename r)) = true
    /\ copy_fails env (filename r) = false
    /\ open_fails env (YOLOConverter.label_path (filename r)) = false
    /\ lookup (col_value col r) m <> None
    /\ width r <> 0%Z /\ height r <> 0%Z.

(** The content of the label file [path] as the export leaves it:
    [open(path, "w")] creates the file or empties it, and every line goes
    to its end.  [None]: the export has not opened the file. *)
Definition file_step (path : string) (content : option (list label_line))
  (e : event) : option (list label_line) :=
  match e with
  | CopyImage _ _ => content
  | OpenLabel q => if String.eqb q path then Some [] else content
  | WriteLine q l =>
      if String.eqb q path then option_map (fun ls => ls ++ [l]) content
      else content
  end.

Definition label_file (path : string) (log : list event)
  : option (list label_line) :=
  fold_left (file_step path) log None.

(** Two records of the frame share a label file only when they share the
    image: no two file names differ in the extension alone. *)
Definition distinct_label_files (df : DataFrame) : Prop :=
  forall r r', In r df -> In r' df ->
    YOLOConverter.label_path (filename r) = YOLOConverter.label_path (filename r') ->
    filename r = filename r'.

(** The label file of the image of [r] holds the lines of the records of
    that image, in frame order, and nothing else. *)
Definition label_file_complete (m : class_mapping) (col : column)
  (df : DataFrame) (log : list event) (r : row) : Prop :=
  exists lines,
    label_file (YOLOConverter.label_path (filename r)) log = Some lines
    /\ Forall2 (fun r' l => YOLOConverter.label_of_row m col r' = inr l)
         (rows_with (col_value ColFilename) (LStr (filename r)) df) lines.

(** Two images whose names differ in the extension alone. *)
Definition same_stem_frame : DataFrame :=
  [ mkRow "a.jpg" "Tomato" 10 50 20 80 100 200 (Some "Tomato") (Some "healthy") None;
    mkRow "a.png" "Potato" 5 25 5 45 100 200 (Some "Potato") (Some "healthy") None ].

(** ** Plain file names *)

Fixpoint mem_char (c : ascii) (s : string) : bool :=
  match s with
  | EmptyString => false
  | String x s' => Ascii.eqb x c || mem_char c s'
  end.

(** A file name as an image table has them: no directory part, no
    duplicate marker, and an extension or no dot at all. *)
Definition plain_name (f : string) : Prop :=
  PyStr.contains PyStr.dup_marker f = false
  /\ mem_char "/" f = false
  /\ (PyPath.suffix f <> EmptyString \/ mem_char "." f = false).

(** ** Reading texts *)

Fixpoint last_char (s : string) : option ascii :=
  match s with
  | EmptyString => None
  | String c EmptyString => Some c
  | String _ s' => last_char s'
  end.

(** The text holds a word character. *)
Fixpoint has_word (s : string) : bool :=
  match s with
  | EmptyString => false
  | String c s' => PyStr.is_word c || has_word s'
  end.

(** The text with its letters in lower case. *)
Fixpoint lower_str (s : string) : string :=
  match s with
  | EmptyString => EmptyString
  | String c s' => String (PyStr.lower c) (lower_str s')
  end.

(** A letter. *)
Definition cased (c : ascii) : bool := PyStr.is_lower c || PyStr.is_upper c.

(** What [str.title] makes of one character, after a letter or not. *)
Definition title_char (prev_cased : bool) (c : ascii) : ascii :=
  if PyStr.is_lower c then (if prev_cased then c else PyStr.upper c)
  else if PyStr.is_upper c then (if prev_cased then PyStr.lower c else c)
  else c.

Definition all_ascii : list ascii := map ascii_of_nat (seq 0 256).

(** A record of the disease pipeline after feature extraction: only its
    file and its disease matter to the filter. *)
Definition disease_row (f d : string) : row :=
  mkRow f d 0 10 0 10 100 100 None (Some d) None.

Definition sample_disease_train : DataFrame :=
  [disease_row "a.jpg" "Rust"; disease_row "b.jpg" "healthy";
   disease_row "c.jpg" "Mold"; disease_row "d.jpg" "Rust";
   disease_row "e.jpg" "Scab"].

(** One path is another one or lies below it. *)
Fixpoint path_prefix (a b : list string) : bool :=
  match a, b with
  | [], _ => true
  | x :: a', y :: b' => String.eqb x y && path_prefix a' b'
  | _ :: _, [] => false
  end.

(** ** The balancing dialogue of [balance_data] *)

(** [int(s)] on a line of ASCII text: white space of the C locale is
    skipped at both ends, a sign may come first, and the digits may be
    separated by single underscores.  [None] is its [ValueError]. *)
Module PyInt.

Definition is_c_space (c : ascii) : bool :=
  let n := nat_of_ascii c in ((9 <=? n) && (n <=? 13)) || (n =? 32).

Fixpoint lskip (s : string) : string :=
  match s with
  | EmptyString => EmptyString
  | String c s' => if is_c_space c then lskip s' else s
  end.

Fixpoint rskip (s : string) : string :=
  match s with
  | EmptyString => EmptyString
  | String c s' =>
      match rskip s' with
      | EmptyString => if is_c_space c then EmptyString else String c EmptyString
      | r => String c r
      end
  end.

Definition digit_value (c : ascii) : Z := Z.of_nat (nat_of_ascii c - 48).

(** The digits after the sign; [after_digit] tells whether the character
    just read was a digit. *)
Fixpoint digits (acc : Z) (after_digit : bool) (s : string) : option Z :=
  match s with
  | EmptyString => if after_digit then Some acc else None
  | String c s' =>
      if PyStr.is_digit c then digits (acc * 10 + digit_value c)%Z true s'
      else if Ascii.eqb c "_" then
        if after_digit then digits acc false s' else None
      else None
  end.

Definition int_of_str (s : string) : option Z :=
  match rskip (lskip s) with
  | String "+" r => digits 0 false r
  | String "-" r => option_map Z.opp (digits 0 false r)
  | t => digits 0 false t
  end.

End PyInt.

(** How the dialogue ends: a target for the balancer, the natural
    distribution, or the [EOFError] of [input] when the lines run out. *)
Inductive answer : Type :=
| Target (target_samples : Z)
| Natural
| EndOfInput.

Module Dialogue.

(** [distribution.min()] of [value_counts().sort_index()]; [None] is the
    [nan] of an empty distribution. *)
Definition min_count (distribution : list (label * nat)) : option Z :=
  match map snd distribution with
  | [] => None
  | c :: cs => Some (Z.of_nat (fold_left Nat.min cs c))
  end.

(** [max_possible]: the smallest class, doubled in the species and disease
    pipelines. *)
Definition max_possible (p : pipeline) (df_train : DataFrame) : option Z :=
  let distribution :=
    DataBalancer.get_class_distribution df_train (Pipeline.get_class_column p) in
  match p with
  | Binary => min_count distribution
  | Species | Disease => option_map (fun m => m * 2)%Z (min_count distribution)
  end.

(** [target_samples > max_possible]; a comparison with [nan] is false. *)
Definition exceeds (target_samples : Z) (limit : option Z) : bool :=
  match limit with
  | Some m => (m <? target_samples)%Z
  | None => false
  end.

(** The inner loop, on the lines the operator types from here on. *)
Fixpoint ask_target (limit : option Z) (inputs : list string) : answer :=
  match inputs with
  | [] => EndOfInput
  | line :: rest =>
      match PyInt.int_of_str line with
      | None => ask_target limit rest
      | Some target_samples =>
          if exceeds target_samples limit then
            match rest with
            | [] => EndOfInput
            | confirm :: rest' =>
                if String.eqb (lower_str (PyStr.strip confirm)) "y"
                then Target target_samples
                else ask_target limit rest'
            end
          else if (0 <? target_samples)%Z then Target target_samples
          else ask_target limit rest
      end
  end.

(** The outer loop. *)
Fixpoint ask_choice (limit : option Z) (inputs : list string) : answer :=
  match inputs with
  | [] => EndOfInput
  | line :: rest =>
      let choice := PyStr.strip line in
      if String.eqb choice "1" then ask_target limit rest
      else if String.eqb choice "2" then Natural
      else ask_choice limit rest
  end.

(** The choice made in [balance_data]. *)
Definition balance_choice (p : pipeline) (interactive : bool)
  (df_train : DataFrame) (inputs : list string) : answer :=
  if interactive then ask_choice (max_possible p df_train) inputs else Natural.

(** [balance_data] with its dialogue: [inl] is an exception ([EOFError] of
    [input]), [inr None] the [ValueError] of the balancer. *)
Definition balance_data (p : pipeline) (interactive : bool) (s : splits)
  (inputs : list string) : answer + option splits :=
  match balance_choice p interactive (df_train s) inputs with
  | Target target_samples => inr (Pipeline.balance_data p (Some target_samples) s)
  | Natural => inr (Pipeline.balance_data p None s)
  | EndOfInput => inl EndOfInput
  end.

End Dialogue.

(** * Properties *)

(** ** Feature extraction *)

Section FirstMatch.
Variable found : string -> string -> bool.

Lemma first_match_some (l : list string) (text p : string) :
  FeatureExtractor.first_match found l text = Some p ->
  exists pre post,
    l = pre ++ p :: post
    /\ found p text = true
    /\ forall q, In q pre -> found q text = false.
Proof.
  induction l as [|a l IH]; simpl; [discriminate|].
  destruct (found a text) eqn:Ha.
  - intros [= <-]. exists [], l. repeat split; auto. intros q [].
  - intros H. destruct (IH H) as (pre & post & -> & Hp & Hpre).
    exists (a :: pre), post. repeat split; auto.
    intros q [<-|Hq]; auto.
Qed.

Lemma first_match_skip (pre post : list string) (text : string) :
  (forall q, In q pre -> found q text = false) ->
  FeatureExtractor.first_match found (pre ++ post) text
  = FeatureExtractor.first_match found post text.
Proof.
  induction pre as [|a pre IH]; simpl; intros H; [reflexivity|].
  rewrite (H a) by auto. apply IH. intros q Hq. apply H. auto.
Qed.
End FirstMatch.

(** C10: the species returned is the entry of the configured list, in the
    list's own spelling, and never a piece of the class text: the result is
    absent or an element of the list (the first that matches). *)
Theorem extract_species_returns_list_entry :
  (forall (sp : list string) (text : string),
      match FeatureExtractor.extract_species sp text with
      | None => True
      | Some p =>
          In p sp
          /\ exists pre post,
               sp = pre ++ p :: post
               /\ PyStr.re_search p text = true
               /\ forall q, In q pre -> PyStr.re_search q text = false
      end)
  /\ FeatureExtractor.extract_species sample_species "TOMATO late blight"
     = Some "Tomato".
Proof.
  split; [|reflexivity].
  intros sp text. unfold FeatureExtractor.extract_species.
  destruct (FeatureExtractor.first_match PyStr.re_search sp text) as [p|] eqn:E;
    [|exact I].
  destruct (first_match_some _ _ _ _ E) as (pre & post & Hsp & Hp & Hpre).
  split.
  - rewrite Hsp. apply in_or_app. right. left. reflexivity.
  - exists pre, post. auto.
Qed.

Lemma re_sub_from_no_match (pat : string) :
  forall (s : string) (prev : option ascii),
    PyStr.re_search_from pat prev s = false ->
    PyStr.re_sub_from pat prev 0 s = s.
Proof.
  induction s as [|c s IH]; intros prev H; [reflexivity|].
  cbn [PyStr.re_search_from] in H.
  apply orb_false_iff in H. destruct H as [Hm Hrest].
  cbn [PyStr.re_sub_from]. rewrite Hm. f_equal. apply IH. exact Hrest.
Qed.

Lemma re_sub_no_match (pat s : string) :
  PyStr.re_search pat s = false -> PyStr.re_sub pat s = s.
Proof.
  intros H. unfold PyStr.re_sub. destruct pat; [reflexivity|].
  apply re_sub_from_no_match. exact H.
Qed.

Lemma remove_species_app (pre post : list string) (text : string) :
  FeatureExtractor.remove_species (pre ++ post) text
  = FeatureExtractor.remove_species post
      (FeatureExtractor.remove_species pre text).
Proof.
  revert text. induction pre as [|a pre IH]; intros text; simpl; auto.
Qed.

Lemma remove_species_absent (l : list string) (text : string) :
  PyStr.strip text = text ->
  (forall p, In p l -> PyStr.re_search p text = false) ->
  FeatureExtractor.remove_species l text = text.
Proof.
  intros Hs. induction l as [|a l IH]; intros H; simpl; [reflexivity|].
  rewrite (re_sub_no_match a text) by (apply H; left; reflexivity).
  rewrite Hs. apply IH. intros p Hp. apply H. right. exact Hp.
Qed.

Lemma remove_species_empty (l : list string) :
  FeatureExtractor.remove_species l "" = "".
Proof.
  induction l as [|a l IH]; simpl; [reflexivity|].
  replace (PyStr.re_sub a "") with "" by (destruct a; reflexivity).
  exact IH.
Qed.

(** The text left by [remove_species] when, of the whole list, only
    ["Tomato"] occurs in the class text. *)
Lemma remove_species_only_tomato (pre post : list string) (text rest : string) :
  PyStr.strip text = text ->
  PyStr.strip (PyStr.re_sub "Tomato" text) = rest ->
  PyStr.strip rest = rest ->
  (forall p, In p pre -> PyStr.re_search p text = false) ->
  (forall p, In p post -> PyStr.re_search p rest = false) ->
  FeatureExtractor.remove_species (pre ++ "Tomato" :: post) text = rest.
Proof.
  intros Hs Hr Hs' Hpre Hpost.
  rewrite remove_species_app, (remove_species_absent pre text Hs Hpre).
  cbn [FeatureExtractor.remove_species]. rewrite Hr.
  apply remove_species_absent; assumption.
Qed.

(** The three class texts of the end-to-end example, as the loader leaves
    them. *)
Lemma clean_examples :
  DataLoader.clean_class_name "Tomato_leaf Blight" = "Tomato  Blight"
  /\ DataLoader.clean_class_name "Tomato healthy" = "Tomato healthy"
  /\ DataLoader.clean_class_name "Tomato leaf" = "Tomato".
Proof. repeat split; reflexivity. Qed.

Lemma disease_examples (pre post : list string) :
  only_tomato pre post ->
  let sp := pre ++ "Tomato" :: post in
  FeatureExtractor.extract_disease sp "Tomato  Blight" = "Blight"
  /\ FeatureExtractor.extract_disease sp "Tomato healthy" = "Healthy"
  /\ FeatureExtractor.extract_disease sp "Tomato" = "healthy".
Proof.
  intros [Hpre Hpost] sp. unfold FeatureExtractor.extract_disease, sp.
  rewrite (remove_species_only_tomato pre post "Tomato  Blight" "Blight");
    try reflexivity; try (intros p Hp; first [apply Hpre | apply Hpost]; exact Hp).
  rewrite (remove_species_only_tomato pre post "Tomato healthy" "healthy");
    try reflexivity; try (intros p Hp; first [apply Hpre | apply Hpost]; exact Hp).
  rewrite remove_species_app,
    (remove_species_absent pre "Tomato" eq_refl (fun p Hp => proj2 (proj2 (Hpre p Hp)))).
  cbn [FeatureExtractor.remove_species].
  change (PyStr.strip (PyStr.re_sub "Tomato" "Tomato")) with "".
  rewrite remove_species_empty. repeat split; reflexivity.
Qed.

(** C1, as the code has it: the record for "Tomato_leaf Blight" gets disease
    "Blight" and binary_class 1; the record for "Tomato healthy" gets the
    title-cased remainder "Healthy" and binary_class 1; the sentinel
    "healthy" and binary_class 0 go to a record whose text is used up by
    the species, such as "Tomato leaf". *)
Theorem end_to_end_disease_and_binary (pre post : list string) (train : DataFrame) :
  only_tomato pre post ->
  Forall2
    (fun raw out =>
       (class_ raw = "Tomato_leaf Blight" ->
        disease out = Some "Blight" /\ binary_class out = Some 1%Z)
       /\ (class_ raw = "Tomato healthy" ->
           disease out = Some "Healthy" /\ binary_class out = Some 1%Z)
       /\ (class_ raw = "Tomato leaf" ->
           disease out = Some "healthy" /\ binary_class out = Some 0%Z))
    train (labelled_train (pre ++ "Tomato" :: post) train).
Proof.
  intros H. destruct (disease_examples pre post H) as (Hb & Hh & Hl).
  destruct clean_examples as (Cb & Ch & Cl).
  unfold labelled_train. cbn [Pipeline.filter_data df_train].
  unfold FeatureExtractor.add_features, DataLoader.clean_class_names.
  rewrite !map_map.
  induction train as [|r train IH]; [constructor|].
  cbn [map]. constructor; [|exact IH].
  unfold Pipeline.binary_label.
  cbn [set_binary set_features set_class class_ disease binary_class].
  split; [|split]; intros E; rewrite E.
  - rewrite Cb, Hb. split; reflexivity.
  - rewrite Ch, Hh. split; reflexivity.
  - rewrite Cl, Hl. split; reflexivity.
Qed.

Lemma end_to_end_disease_and_binary_witness :
  only_tomato ["Apple"; "Potato"] ["Grape"]
  /\ Forall2
       (fun raw out =>
          (class_ raw = "Tomato_leaf Blight" ->
           disease out = Some "Blight" /\ binary_class out = Some 1%Z)
          /\ (class_ raw = "Tomato healthy" ->
              disease out = Some "Healthy" /\ binary_class out = Some 1%Z)
          /\ (class_ raw = "Tomato leaf" ->
              disease out = Some "healthy" /\ binary_class out = Some 0%Z))
       (df_train sample_raw) (labelled_train sample_species (df_train sample_raw)).
Proof.
  assert (H : only_tomato ["Apple"; "Potato"] ["Grape"]).
  { split; intros p Hp; simpl in Hp;
      repeat (destruct Hp as [<-|Hp]; [repeat split; reflexivity|]);
      destruct Hp. }
  split; [exact H|].
  exact (end_to_end_disease_and_binary ["Apple"; "Potato"] ["Grape"]
           (df_train sample_raw) H).
Defined.

(** C1 as it is written fails on its second record: "Tomato healthy" comes
    out with disease "Healthy" and binary_class 1, not "healthy" and 0. *)
Lemma tomato_healthy_is_labelled_diseased :
  let out := labelled_train ["Tomato"]
               [raw_row "t1.jpg" "Tomato_leaf Blight" 10 50 20 80 100 200;
                raw_row "t2.jpg" "Tomato healthy" 10 50 20 80 100 200] in
  map disease out = [Some "Blight"; Some "Healthy"]
  /\ map binary_class out = [Some 1%Z; Some 1%Z]
  /\ ~ (map disease out = [Some "Blight"; Some "healthy"]
        /\ map binary_class out = [Some 1%Z; Some 0%Z]).
Proof.
  repeat split; try reflexivity.
  intros [H _]. vm_compute in H. discriminate H.
Qed.

(** ** Bounding boxes *)

(** C9: [convert_bbox_to_yolo] returns cx = (xmin+xmax)/2/width,
    cy = (ymin+ymax)/2/height, w = (xmax-xmin)/width, h = (ymax-ymin)/height
    (and raises on a zero width or height); for xmin=10, xmax=50, ymin=20,
    ymax=80, width=100, height=200 these are 0.30, 0.25, 0.40 and 0.30, all
    within [0,1]: exactly so as rationals, and as the binary64 numbers
    nearest to them in the arithmetic of Python. *)
Theorem convert_bbox_formula_and_example :
  (forall r : row,
      match YOLOConverter.convert_bbox_to_yolo r with
      | inl e => e = ZeroDivisionError /\ (width r = 0 \/ height r = 0)%Z
      | inr (cx, cy, w, h) =>
          (width r <> 0 /\ height r <> 0)%Z
          /\ (cx == inject_Z (xmin r + xmax r) / 2 / inject_Z (width r)
              /\ cy == inject_Z (ymin r + ymax r) / 2 / inject_Z (height r)
              /\ w == inject_Z (xmax r - xmin r) / inject_Z (width r)
              /\ h == inject_Z (ymax r - ymin r) / inject_Z (height r))%Q
      end)
  /\ (forall (f c : string) (sp d : option string) (b : option Z),
         exists cx cy w h : Q,
           YOLOConverter.convert_bbox_to_yolo
             (mkRow f c 10 50 20 80 100 200 sp d b) = inr (cx, cy, w, h)
           /\ (cx == 30 # 100 /\ cy == 25 # 100 /\ w == 40 # 100 /\ h == 30 # 100
               /\ 0 <= cx <= 1 /\ 0 <= cy <= 1 /\ 0 <= w <= 1 /\ 0 <= h <= 1)%Q)
  /\ (forall (f c : string) (sp d : option string) (b : option Z),
         YOLOConverter.convert_bbox_to_yolo_f64
           (mkRow f c 10 50 20 80 100 200 sp d b)
         = inr (0x1.3333333333333p-2, 0x1p-2,
                0x1.999999999999ap-2, 0x1.3333333333333p-2)%float
         /\ forallb in_unit_interval
              [0x1.3333333333333p-2; 0x1p-2;
               0x1.999999999999ap-2; 0x1.3333333333333p-2]%float = true).
Proof.
  split; [|split].
  - intros r. unfold YOLOConverter.convert_bbox_to_yolo.
    destruct (Z.eqb_spec (width r) 0) as [Hw|Hw]; cbn [orb].
    + split; [reflexivity|left; exact Hw].
    + destruct (Z.eqb_spec (height r) 0) as [Hh|Hh].
      * split; [reflexivity|right; exact Hh].
      * repeat split; try assumption; reflexivity.
  - intros f c sp d b. eexists _, _, _, _. split; [reflexivity|].
    repeat split; vm_compute; congruence.
  - intros f c sp d b. split; vm_compute; reflexivity.
Qed.

(** ** Validation *)

Lemma fix_row_filename (fs : folder) (r r' : row) :
  DataValidator.fix_row fs r = Some r' -> filename r' = filename r.
Proof.
  unfold DataValidator.fix_row.
  destruct (Z.eqb (width r) 0 || Z.eqb (height r) 0).
  - destruct (fs (filename r)); intros [= <-]; reflexivity.
  - intros [= <-]; reflexivity.
Qed.

Lemma fix_zero_dimensions_rows (fs : folder) :
  forall df out,
    DataValidator.fix_zero_dimensions fs df = Some out ->
    Forall2 (fun r r' => DataValidator.fix_row fs r = Some r') df out.
Proof.
  induction df as [|r df IH]; intros out; simpl.
  - intros [= <-]. constructor.
  - destruct (DataValidator.fix_row fs r) as [r'|] eqn:Hr; [|discriminate].
    destruct (DataValidator.fix_zero_dimensions fs df) as [out'|]; [|discriminate].
    intros [= <-]. constructor; auto.
Qed.


Lemma Forall2_in_right {A B : Type} (R : A -> B -> Prop) :
  forall l l' y, Forall2 R l l' -> In y l' -> exists x, In x l /\ R x y.
Proof.
  intros l l' y H. induction H as [|a b l l' Hab _ IH]; intros Hin.
  - destruct Hin.
  - destruct Hin as [<-|Hin].
    + exists a. split; [left; reflexivity|exact Hab].
    + destruct (IH Hin) as (x & Hx & Hxy). exists x. split; [right|]; assumption.
Qed.

(** A repaired row that is still on disk has the size of its image or the
    non-zero size it came with. *)
Lemma fix_row_kept (fs : folder) (r r' : row) :
  DataValidator.fix_row fs r = Some r' ->
  exists_in fs (filename r') = true ->
  (exists w h, fs (filename r) = Image w h /\ width r' = w /\ height r' = h)
  \/ (r' = r /\ width r <> 0%Z /\ height r <> 0%Z).
Proof.
  intros Hfix Hex. rewrite (fix_row_filename _ _ _ Hfix) in Hex.
  unfold DataValidator.fix_row in Hfix. unfold exists_in in Hex.
  destruct (Z.eqb_spec (width r) 0) as [Hw|Hw]; cbn [orb] in Hfix.
  - destruct (fs (filename r)) as [|w h|]; try discriminate.
    injection Hfix as <-. left. exists w, h. auto.
  - destruct (Z.eqb_spec (height r) 0) as [Hh|Hh].
    + destruct (fs (filename r)) as [|w h|]; try discriminate.
      injection Hfix as <-. left. exists w, h. auto.
    + injection Hfix as <-. right. auto.
Qed.

Lemma validate_and_fix_some (fs : folder) (df out : DataFrame) :
  DataValidator.validate_and_fix fs df = Some out ->
  exists fixed,
    DataValidator.fix_zero_dimensions fs df = Some fixed
    /\ df <> [] /\ fixed <> []
    /\ out = filter (fun r => exists_in fs (filename r)) fixed.
Proof.
  unfold DataValidator.validate_and_fix.
  destruct (DataValidator.fix_zero_dimensions fs df) as [fixed|] eqn:Hfix;
    [|discriminate].
  intros H. exists fixed. split; [reflexivity|].
  pose proof (fix_zero_dimensions_rows fs df fixed Hfix) as Hrows.
  destruct fixed as [|r' fixed']; [discriminate H|].
  cbn [DataValidator.verify_files_exist] in H. injection H as <-.
  split; [|split; [discriminate|reflexivity]].
  intros ->. inversion Hrows.
Qed.





(** ** Labels, [unique] and [sorted] *)

Lemma label_eqb_eq (a b : label) : label_eqb a b = true <-> a = b.
Proof.
  destruct a, b; simpl; split; try discriminate; try reflexivity.
  - intros H. apply Z.eqb_eq in H. congruence.
  - intros [= ->]. apply Z.eqb_refl.
  - intros H. apply String.eqb_eq in H. congruence.
  - intros [= ->]. apply String.eqb_refl.
Qed.

Lemma label_eqb_refl (a : label) : label_eqb a a = true.
Proof. apply label_eqb_eq. reflexivity. Qed.

Lemma label_eqb_neq (a b : label) : label_eqb a b = false <-> a <> b.
Proof.
  split.
  - intros H E. apply label_eqb_eq in E. congruence.
  - intros H. destruct (label_eqb a b) eqn:E; [|reflexivity].
    apply label_eqb_eq in E. contradiction.
Qed.

Lemma label_leb_total (a b : label) : label_leb a b = true \/ label_leb b a = true.
Proof.
  destruct a, b; simpl; auto.
  - destruct (Z.leb_spec z z0); [left; reflexivity|right; apply Z.leb_le; lia].
  - apply String.leb_total.
Qed.

Lemma unique_in (x : label) (l : list label) : In x (unique l) <-> In x l.
Proof.
  induction l as [|a l IH]; simpl; [reflexivity|].
  rewrite filter_In, IH. split.
  - intros [H|[H _]]; auto.
  - intros [H|H]; [left; exact H|].
    destruct (label_eqb x a) eqn:E.
    + left. symmetry. apply label_eqb_eq. exact E.
    + right. split; [exact H|]. cbv beta. rewrite ?E. reflexivity.
Qed.

Lemma unique_nodup (l : list label) : NoDup (unique l).
Proof.
  induction l as [|a l IH]; simpl; constructor.
  - rewrite filter_In. intros [_ H]. rewrite label_eqb_refl in H. discriminate.
  - apply NoDup_filter. exact IH.
Qed.

Lemma insert_sorted_perm (x : label) (l : list label) :
  Permutation (x :: l) (insert_sorted x l).
Proof.
  induction l as [|y l IH]; simpl; [reflexivity|].
  destruct (label_leb x y); [reflexivity|].
  rewrite perm_swap. constructor. exact IH.
Qed.

Lemma sort_perm (l : list label) : Permutation l (sort l).
Proof.
  induction l as [|x l IH]; simpl; [constructor|].
  rewrite <- insert_sorted_perm. constructor. exact IH.
Qed.

Lemma sort_length (l : list label) : List.length (sort l) = List.length l.
Proof. symmetry. apply Permutation_length, sort_perm. Qed.

Lemma sort_in (x : label) (l : list label) : In x (sort l) <-> In x l.
Proof.
  split; apply Permutation_in; [symmetry|]; apply sort_perm.
Qed.

Lemma sort_nodup (l : list label) : NoDup l -> NoDup (sort l).
Proof. apply Permutation_NoDup, sort_perm. Qed.

Lemma insert_sorted_sorted (x : label) (l : list label) :
  Sorted label_le l -> Sorted label_le (insert_sorted x l).
Proof.
  induction l as [|y l IH]; intros H; simpl; [repeat constructor|].
  destruct (label_leb x y) eqn:E.
  - constructor; [exact H|]. constructor. exact E.
  - inversion H as [|? ? Hs Hhd]; subst. constructor; [apply IH; exact Hs|].
    assert (Hyx : label_le y x).
    { destruct (label_leb_total x y) as [F|F]; [congruence|exact F]. }
    destruct l as [|z l]; simpl; [constructor; exact Hyx|].
    destruct (label_leb x z); constructor; [exact Hyx|].
    inversion Hhd; assumption.
Qed.

Lemma sort_sorted (l : list label) : Sorted label_le (sort l).
Proof.
  induction l as [|x l IH]; simpl; [constructor|].
  apply insert_sorted_sorted. exact IH.
Qed.

Lemma group_keys_nodup (key : row -> label) (df : DataFrame) :
  NoDup (group_keys key df).
Proof. apply sort_nodup, unique_nodup. Qed.

Lemma group_keys_in (key : row -> label) (df : DataFrame) (k : label) :
  In k (group_keys key df) <-> k <> LNone /\ exists r, In r df /\ key r = k.
Proof.
  unfold group_keys. rewrite sort_in, unique_in, filter_In, in_map_iff.
  split.
  - intros [(r & Hr & Hin) Hk]. split.
    + intros ->. discriminate.
    + exists r. auto.
  - intros [Hk (r & Hin & Hr)]. split; [exists r; auto|].
    destruct k; [contradiction|reflexivity|reflexivity].
Qed.

Lemma filename_keys (df : DataFrame) :
  filter (fun k => negb (is_none k)) (map (col_value ColFilename) df)
  = map (col_value ColFilename) df.
Proof.
  induction df as [|r df IH]; simpl; [reflexivity|]. rewrite IH. reflexivity.
Qed.

Lemma groupby_filename_length (df : DataFrame) :
  List.length (groupby (col_value ColFilename) df) = distinct_filenames df.
Proof.
  unfold groupby, group_keys, distinct_filenames.
  rewrite length_map, sort_length, filename_keys. reflexivity.
Qed.


(** ** Export *)

Lemma export_fold (env : export_env) (m : class_mapping) (col : column) :
  forall groups exported skipped log,
    fold_left (YOLOConverter.export_step env m col) groups (exported, skipped, log)
    = (exported
         + List.length (filter (fun g => is_exported (snd (group_run env m col g))) groups),
       skipped
         + List.length (filter (fun g => negb (is_exported (snd (group_run env m col g)))) groups),
       log ++ flat_map (fun g => fst (group_run env m col g)) groups).
Proof.
  induction groups as [|g groups IH]; intros e s log; cbn [fold_left].
  - cbn. rewrite !Nat.add_0_r, app_nil_r. reflexivity.
  - change (YOLOConverter.export_step env m col (e, s, log) g)
      with (let (evs, res) := group_run env m col g in
            match res with
            | Exported => (S e, s, log ++ evs)
            | SourceMissing | Failed _ => (e, S s, log ++ evs)
            end).
    cbn [filter flat_map].
    destruct (group_run env m col g) as [evs res].
    destruct res; rewrite IH; cbn [snd fst is_exported negb List.length];
      rewrite <- ?app_assoc, ?Nat.add_succ_r; reflexivity.
Qed.

(** [export_to_yolo] in closed form: the groups that end [Exported] are
    counted as exported, all others as skipped, and the log is that of
    every group, in group order. *)
Lemma export_to_yolo_closed (df : DataFrame) (env : export_env)
  (m : class_mapping) (col : column) :
  let groups := groupby (col_value ColFilename) df in
  YOLOConverter.export_to_yolo df env m col
  = (List.length (filter (fun g => is_exported (snd (group_run env m col g))) groups),
     List.length (filter (fun g => negb (is_exported (snd (group_run env m col g)))) groups),
     flat_map (fun g => fst (group_run env m col g)) groups).
Proof.
  unfold YOLOConverter.export_to_yolo. rewrite export_fold. reflexivity.
Qed.

Lemma filter_split_length {A : Type} (f : A -> bool) (l : list A) :
  List.length (filter f l) + List.length (filter (fun x => negb (f x)) l)
  = List.length l.
Proof.
  induction l as [|a l IH]; simpl; [reflexivity|].
  destruct (f a); simpl; lia.
Qed.

(** C8: the two counters returned by the export add up to the number of
    distinct file names of the frame. *)
Theorem export_counts_every_group_once (df : DataFrame) (env : export_env)
  (m : class_mapping) (col : column) :
  let '(exported, skipped, _) := YOLOConverter.export_to_yolo df env m col in
  exported + skipped = distinct_filenames df.
Proof.
  rewrite export_to_yolo_closed. cbv zeta.
  rewrite (filter_split_length (fun g => is_exported (snd (group_run env m col g)))).
  apply groupby_filename_length.
Qed.

Lemma write_rows_spec (m : class_mapping) (col : column) (path : string) :
  forall rows,
  exists lines,
    fst (YOLOConverter.write_rows m col path rows) = map (WriteLine path) lines
    /\ match snd (YOLOConverter.write_rows m col path rows) with
       | None =>
           Forall2 (fun r l => YOLOConverter.label_of_row m col r = inr l) rows lines
       | Some e =>
           List.length lines < List.length rows
           /\ exists r, In r rows /\ YOLOConverter.label_of_row m col r = inl e
       end.
Proof.
  induction rows as [|r rows IH]; cbn [YOLOConverter.write_rows].
  - exists []. split; [reflexivity|constructor].
  - destruct (YOLOConverter.label_of_row m col r) as [e|l] eqn:Hr.
    + exists []. cbn. split; [reflexivity|]. split; [lia|].
      exists r. split; [left; reflexivity|exact Hr].
    + destruct IH as (lines & Hev & Hres).
      destruct (YOLOConverter.write_rows m col path rows) as [evs res].
      cbn [fst snd] in *. exists (l :: lines). split; [cbn; rewrite Hev; reflexivity|].
      destruct res as [e|].
      * destruct Hres as (Hlen & r' & Hin & Hr'). split; [cbn; lia|].
        exists r'. split; [right; exact Hin|exact Hr'].
      * constructor; assumption.
Qed.

Lemma lines_of_written (path : string) (lines : list label_line) :
  lines_of path (map (WriteLine path) lines) = lines.
Proof.
  induction lines as [|l lines IH]; cbn; [reflexivity|].
  rewrite String.eqb_refl, IH. reflexivity.
Qed.

Lemma no_copy_in_lines (f path : string) (lines : list label_line) :
  image_copied f (map (WriteLine path) lines) = false.
Proof. induction lines; cbn; auto. Qed.

Lemma no_open_in_lines (p path : string) (lines : list label_line) :
  label_opened p (map (WriteLine path) lines) = false.
Proof. induction lines; cbn; auto. Qed.

(** What one group leaves behind, by the way its [try] block ends. *)
Lemma export_group_cases (env : export_env) (m : class_mapping) (col : column)
  (f : string) (group : DataFrame) :
  match YOLOConverter.export_group env m col f group with
  | (evs, Exported) =>
      image_copied f evs = true /\ label_written f group evs = true
  | (evs, SourceMissing) => evs = []
  | (evs, Failed _) =>
      label_written f group evs = false
      /\ image_copied f evs = negb (copy_fails env f)
  end.
Proof.
  unfold YOLOConverter.export_group.
  destruct (exists_in (source env) (YOLOConverter.source_name f)); cbn [negb];
    [|reflexivity].
  destruct (copy_fails env f) eqn:Hc; [split; reflexivity|].
  destruct (open_fails env (YOLOConverter.label_path f)).
  { split; [reflexivity|]. cbn. rewrite String.eqb_refl. reflexivity. }
  destruct (write_rows_spec m col (YOLOConverter.label_path f) group)
    as (lines & Hev & Hres).
  destruct (YOLOConverter.write_rows m col (YOLOConverter.label_path f) group)
    as [evs res].
  cbn [fst snd] in Hev, Hres. subst evs.
  assert (Hcopy : image_copied f
                    (CopyImage (YOLOConverter.source_name f) f
                       :: OpenLabel (YOLOConverter.label_path f)
                       :: map (WriteLine (YOLOConverter.label_path f)) lines) = true).
  { cbn. rewrite String.eqb_refl. reflexivity. }
  assert (Hlab : label_written f group
                   (CopyImage (YOLOConverter.source_name f) f
                      :: OpenLabel (YOLOConverter.label_path f)
                      :: map (WriteLine (YOLOConverter.label_path f)) lines)
                 = (List.length lines =? List.length group)).
  { unfold label_written. cbn [label_opened existsb is_open_of lines_of].
    rewrite String.eqb_refl, lines_of_written. reflexivity. }
  destruct res as [e|].
  - destruct Hres as [Hlen _]. split; [|exact Hcopy].
    rewrite Hlab. apply Nat.eqb_neq. lia.
  - split; [exact Hcopy|]. rewrite Hlab. apply Nat.eqb_eq.
    symmetry. exact (Forall2_length Hres).
Qed.

(** C2, as the code has it: the log of an export is that of its groups, one
    after the other.  A group that ends without an exception has its image
    copied and its label file written in full (exported), or neither
    (source image missing).  A group that ends on an exception never has
    its label file written in full, keeps the copied image unless the copy
    itself failed, and is counted as skipped. *)
Theorem export_writes_per_group (df : DataFrame) (env : export_env)
  (m : class_mapping) (col : column) :
  let groups := groupby (col_value ColFilename) df in
  snd (YOLOConverter.export_to_yolo df env m col)
  = flat_map (fun g => fst (group_run env m col g)) groups
  /\ snd (fst (YOLOConverter.export_to_yolo df env m col))
     = List.length
         (filter (fun g => negb (is_exported (snd (group_run env m col g)))) groups)
  /\ Forall
       (fun g =>
          let f := YOLOConverter.group_name (fst g) in
          match group_run env m col g with
          | (evs, Exported) =>
              image_copied f evs = true /\ label_written f (snd g) evs = true
          | (evs, SourceMissing) =>
              image_copied f evs = false /\ label_written f (snd g) evs = false
          | (evs, Failed _) =>
              label_written f (snd g) evs = false
              /\ image_copied f evs = negb (copy_fails env f)
          end) groups.
Proof.
  cbv zeta. rewrite export_to_yolo_closed. cbn [fst snd].
  split; [reflexivity|]. split; [reflexivity|].
  apply Forall_forall. intros g _. unfold group_run.
  pose proof (export_group_cases env m col (YOLOConverter.group_name (fst g)) (snd g)) as H.
  destruct (YOLOConverter.export_group env m col
              (YOLOConverter.group_name (fst g)) (snd g)) as [evs res].
  destruct res; auto. subst evs. split; reflexivity.
Qed.

(** C2 as it is written fails: with a class that the mapping does not hold,
    the image of the group is copied, its label file is created but no line
    is written to it, and the group is counted as skipped; when the label
    file cannot be opened, the copied image is left with no label file at
    all. *)
Lemma copied_image_without_written_label :
  let g := (LStr "a.jpg", rows_with (col_value ColFilename) (LStr "a.jpg") unknown_class_frame) in
  In g (groupby (col_value ColFilename) unknown_class_frame)
  /\ (let (evs, res) := group_run sample_env tomato_mapping ColSpecies g in
      res = Failed (KeyError (LStr "Potato"))
      /\ evs = [CopyImage "a.jpg" "a.jpg"; OpenLabel "a.txt"]
      /\ image_copied "a.jpg" evs = true
      /\ lines_of "a.txt" evs = []
      /\ label_written "a.jpg" (snd g) evs = false
      /\ ~ (image_copied "a.jpg" evs = true
            <-> label_written "a.jpg" (snd g) evs = true))
  /\ fst (YOLOConverter.export_to_yolo unknown_class_frame sample_env
            tomato_mapping ColSpecies) = (1, 1)
  /\ (let env := mkEnv sample_folder (fun _ => false) (String.eqb "a.txt") in
      let (evs, res) := group_run env tomato_mapping ColSpecies g in
      res = Failed OSError
      /\ image_copied "a.jpg" evs = true
      /\ label_opened "a.txt" evs = false).
Proof.
  cbv zeta. split; [left; reflexivity|].
  split.
  { repeat split; try reflexivity. intros [H _]. specialize (H eq_refl).
    vm_compute in H. discriminate H. }
  split; [reflexivity|].
  repeat split; reflexivity.
Qed.


Lemma written_rows_have_a_class (m : class_mapping) (col : column) (path : string)
  (rows : DataFrame) (r : row) :
  In r rows ->
  lookup (col_value col r) m = None ->
  snd (YOLOConverter.write_rows m col path rows) <> None.
Proof.
  intros Hin Hlk.
  destruct (write_rows_spec m col path rows) as (lines & _ & Hres).
  destruct (snd (YOLOConverter.write_rows m col path rows)); [discriminate|].
  intros _. apply Forall2_flip in Hres.
  destruct (Forall2_in_right _ _ _ r Hres Hin) as (l & _ & Hl).
  unfold YOLOConverter.label_of_row in Hl. rewrite Hlk in Hl. discriminate Hl.
Qed.

Lemma unknown_class_group_not_exported (env : export_env) (m : class_mapping)
  (col : column) (f : string) (rows : DataFrame) (r : row) :
  In r rows ->
  lookup (col_value col r) m = None ->
  is_exported (snd (YOLOConverter.export_group env m col f rows)) = false.
Proof.
  intros Hin Hlk. unfold YOLOConverter.export_group.
  destruct (exists_in (source env) (YOLOConverter.source_name f)); [|reflexivity].
  destruct (copy_fails env f); [reflexivity|].
  destruct (open_fails env (YOLOConverter.label_path f)); [reflexivity|].
  pose proof (written_rows_have_a_class m col (YOLOConverter.label_path f) rows r Hin Hlk) as H.
  destruct (YOLOConverter.write_rows m col (YOLOConverter.label_path f) rows)
    as [evs [e|]]; [reflexivity|]. contradiction H. reflexivity.
Qed.

Lemma groupby_filename_in (df : DataFrame) (r : row) :
  In r df ->
  In (LStr (filename r), rows_with (col_value ColFilename) (LStr (filename r)) df)
     (groupby (col_value ColFilename) df).
Proof.
  intros Hin. unfold groupby.
  apply (in_map (fun k => (k, rows_with (col_value ColFilename) k df))).
  apply group_keys_in. split; [discriminate|]. exists r. split; [exact Hin|reflexivity].
Qed.

(** C7, as the code has it: a class value that the mapping does not hold
    raises inside the [try] block of its file name group; the group is
    counted as skipped, every other group is still processed, and the
    export returns its two counters. *)
Theorem unknown_class_is_a_group_skip (df : DataFrame) (env : export_env)
  (m : class_mapping) (col : column) (r : row) :
  In r df ->
  lookup (col_value col r) m = None ->
  let groups := groupby (col_value ColFilename) df in
  let g := (LStr (filename r), rows_with (col_value ColFilename) (LStr (filename r)) df) in
  In g groups
  /\ is_exported (snd (group_run env m col g)) = false
  /\ let '(exported, skipped, log) := YOLOConverter.export_to_yolo df env m col in
     1 <= skipped
     /\ exported + skipped = List.length groups
     /\ log = flat_map (fun g => fst (group_run env m col g)) groups.
Proof.
  intros Hin Hlk groups g.
  assert (Hg : In g groups) by (apply groupby_filename_in; exact Hin).
  assert (Hne : is_exported (snd (group_run env m col g)) = false).
  { apply (unknown_class_group_not_exported env m col _ _ r); [|exact Hlk].
    apply filter_In. split; [exact Hin|]. apply label_eqb_refl. }
  split; [exact Hg|]. split; [exact Hne|].
  rewrite export_to_yolo_closed. cbv zeta. fold groups.
  split; [|split; [apply filter_split_length|reflexivity]].
  assert (Hf : In g (filter (fun g => negb (is_exported (snd (group_run env m col g)))) groups)).
  { apply filter_In. split; [exact Hg|]. rewrite Hne. reflexivity. }
  destruct (filter (fun g => negb (is_exported (snd (group_run env m col g)))) groups);
    [destruct Hf|cbn; lia].
Qed.

Lemma unknown_class_is_a_group_skip_witness :
  let df := unknown_class_frame in
  let r := mkRow "a.jpg" "Potato" 10 50 20 80 100 200
                 (Some "Potato") (Some "healthy") None in
  In r df
  /\ lookup (col_value ColSpecies r) tomato_mapping = None
  /\ (let groups := groupby (col_value ColFilename) df in
      let g := (LStr (filename r),
                rows_with (col_value ColFilename) (LStr (filename r)) df) in
      In g groups
      /\ is_exported (snd (group_run sample_env tomato_mapping ColSpecies g)) = false
      /\ let '(exported, skipped, log) :=
           YOLOConverter.export_to_yolo df sample_env tomato_mapping ColSpecies in
         1 <= skipped
         /\ exported + skipped = List.length groups
         /\ log = flat_map (fun g => fst (group_run sample_env tomato_mapping ColSpecies g))
                           groups).
Proof.
  intros df r.
  assert (Hin : In r df) by (left; reflexivity).
  assert (Hlk : lookup (col_value ColSpecies r) tomato_mapping = None) by reflexivity.
  split; [exact Hin|]. split; [exact Hlk|].
  exact (unknown_class_is_a_group_skip df sample_env tomato_mapping ColSpecies r Hin Hlk).
Defined.

(** C7 as it is written fails: the evaluation split holds the class
    "Potato", unknown to the mapping built from the training split; the
    run is not aborted, the group is counted as skipped and the next image
    is exported. *)
Lemma unknown_class_does_not_abort :
  lookup (LStr "Potato") tomato_mapping = None
  /\ exists report,
       Pipeline.export_data Species sample_env sample_env unknown_class_splits
       = Some report
       /\ mapping report = tomato_mapping
       /\ val_export report
          = (1, 1,
             [CopyImage "a.jpg" "a.jpg"; OpenLabel "a.txt";
              CopyImage "b.jpg" "b.jpg"; OpenLabel "b.txt";
              WriteLine "b.txt" (mkLine 0 (30 # 1280) (50 # 960) (20 # 640) (40 # 480))]).
Proof.
  split; [reflexivity|]. eexists. split; [reflexivity|].
  split; reflexivity.
Qed.

(** ** Balancing *)

Lemma col_value_set_filename (col : column) (f : string) (r : row) :
  col <> ColFilename -> col_value col (set_filename f r) = col_value col r.
Proof. destruct col; intros H; [contradiction|reflexivity..]. Qed.

Lemma rows_with_key (key : row -> label) (k : label) (df : DataFrame) (r : row) :
  In r (rows_with key k df) -> key r = k.
Proof.
  unfold rows_with. rewrite filter_In. intros [_ H]. apply label_eqb_eq. exact H.
Qed.

Lemma filter_all {A : Type} (f : A -> bool) (l : list A) :
  (forall x, In x l -> f x = true) -> filter f l = l.
Proof.
  induction l as [|a l IH]; intros H; simpl; [reflexivity|].
  rewrite (H a) by (left; reflexivity). f_equal. apply IH.
  intros x Hx. apply H. right. exact Hx.
Qed.

Lemma filter_none {A : Type} (f : A -> bool) (l : list A) :
  (forall x, In x l -> f x = false) -> filter f l = [].
Proof.
  induction l as [|a l IH]; intros H; simpl; [reflexivity|].
  rewrite (H a) by (left; reflexivity). apply IH.
  intros x Hx. apply H. right. exact Hx.
Qed.

(** The rows of one class in a frame assembled group by group. *)
Lemma rows_with_pieces (key : row -> label) (piece : label -> DataFrame)
  (c : label) :
  (forall k r, In r (piece k) -> key r = k) ->
  forall keys,
    NoDup keys ->
    rows_with key c (flat_map piece keys)
    = if existsb (label_eqb c) keys then piece c else [].
Proof.
  intros Hpiece. induction keys as [|k keys IH]; intros Hnd; [reflexivity|].
  inversion Hnd as [|? ? Hnotin Hnd']; subst.
  cbn [flat_map existsb]. unfold rows_with in *. rewrite filter_app, (IH Hnd').
  destruct (label_eqb c k) eqn:E; cbn [orb].
  - apply label_eqb_eq in E. subst k.
    rewrite filter_all.
    + destruct (existsb (label_eqb c) keys) eqn:Ex; [|apply app_nil_r].
      apply existsb_exists in Ex. destruct Ex as (k' & Hin & Hk').
      apply label_eqb_eq in Hk'. subst k'. contradiction.
    + intros r Hr. rewrite (Hpiece c r Hr). apply label_eqb_refl.
  - rewrite filter_none; [reflexivity|].
    intros r Hr. rewrite (Hpiece k r Hr). apply label_eqb_neq.
    intros ->. rewrite label_eqb_refl in E. discriminate.
Qed.

Lemma in_firstn {A : Type} (n : nat) (l : list A) (x : A) :
  In x (firstn n l) -> In x l.
Proof.
  intros H. rewrite <- (firstn_skipn n l). apply in_or_app. left. exact H.
Qed.

Lemma duplicate_rows (group : DataFrame) (k : nat) (d : row) :
  In d (DataBalancer.duplicate group k) ->
  exists src, In src group
              /\ d = set_filename (DataBalancer.dup_filename (filename src) k) src.
Proof.
  unfold DataBalancer.duplicate.
  destruct (nth_error group (k mod List.length group)) as [src|] eqn:E; [|intros []].
  intros [<-|[]]. exists src. split; [|reflexivity].
  apply nth_error_In in E. exact E.
Qed.

Lemma duplicates_flat_map (group : DataFrame) :
  forall todo added,
    DataBalancer.duplicates group added todo
    = flat_map (DataBalancer.duplicate group) (seq added todo).
Proof.
  induction todo as [|todo IH]; intros added; cbn; [reflexivity|].
  rewrite IH. reflexivity.
Qed.

Lemma balance_group_rows (target : Z) (keep : bool) (group : DataFrame) (d : row) :
  In d (DataBalancer.balance_group target keep group) ->
  In d group
  \/ exists src k, In src group
                   /\ d = set_filename (DataBalancer.dup_filename (filename src) k) src.
Proof.
  unfold DataBalancer.balance_group, DataBalancer.iloc_to.
  destruct (0 <? target - Z.of_nat (List.length group))%Z.
  - rewrite in_app_iff, duplicates_flat_map, in_flat_map.
    intros [H|(k & _ & H)]; [left; exact H|right].
    destruct (duplicate_rows group k d H) as (src & Hs & Hd). eauto.
  - destruct keep; [auto|]. destruct (0 <=? target)%Z; intros H; left;
      exact (in_firstn _ _ _ H).
Qed.

Lemma balance_group_key (col : column) (target : Z) (keep : bool)
  (df : DataFrame) (k : label) (d : row) :
  col <> ColFilename ->
  In d (DataBalancer.balance_group target keep (rows_with (col_value col) k df)) ->
  col_value col d = k.
Proof.
  intros Hcol H. destruct (balance_group_rows _ _ _ _ H) as [Hd|(src & n & Hs & ->)].
  - exact (rows_with_key _ _ _ _ Hd).
  - rewrite col_value_set_filename by exact Hcol. exact (rows_with_key _ _ _ _ Hs).
Qed.

(** [balance_by_column] in closed form. *)
Lemma balance_by_column_closed (df : DataFrame) (col : column) (target : Z)
  (keep : bool) :
  DataBalancer.balance_by_column df col target keep
  = match group_keys (col_value col) df with
    | [] => None
    | keys =>
        Some (flat_map
                (fun k => DataBalancer.balance_group target keep
                            (rows_with (col_value col) k df)) keys)
    end.
Proof.
  unfold DataBalancer.balance_by_column, groupby.
  destruct (group_keys (col_value col) df) as [|k keys]; [reflexivity|].
  cbn [map]. f_equal.
  set (piece := fun k => DataBalancer.balance_group target keep
                           (rows_with (col_value col) k df)).
  change (flat_map (fun g => DataBalancer.balance_group target keep (snd g))
            (map (fun k => (k, rows_with (col_value col) k df)) (k :: keys))
          = flat_map piece (k :: keys)).
  induction (k :: keys) as [|a l IH]; cbn; [reflexivity|].
  rewrite IH. reflexivity.
Qed.

Lemma balance_by_column_rows (df out : DataFrame) (col : column) (target : Z)
  (keep : bool) :
  DataBalancer.balance_by_column df col target keep = Some out ->
  out = flat_map
          (fun k => DataBalancer.balance_group target keep
                      (rows_with (col_value col) k df))
          (group_keys (col_value col) df).
Proof.
  rewrite balance_by_column_closed.
  destruct (group_keys (col_value col) df); [discriminate|].
  intros [= <-]. reflexivity.
Qed.

Lemma group_keys_existsb (key : row -> label) (df : DataFrame) (c : label) :
  c <> LNone ->
  existsb (label_eqb c) (group_keys key df)
  = negb (Nat.eqb (List.length (rows_with key c df)) 0).
Proof.
  intros Hc. destruct (existsb (label_eqb c) (group_keys key df)) eqn:E.
  - apply existsb_exists in E. destruct E as (k & Hin & Hk).
    apply label_eqb_eq in Hk. subst k.
    apply group_keys_in in Hin. destruct Hin as (_ & r & Hr & Hkey).
    assert (In r (rows_with key c df)).
    { apply filter_In. split; [exact Hr|]. apply label_eqb_eq. exact Hkey. }
    destruct (rows_with key c df); [contradiction|reflexivity].
  - destruct (rows_with key c df) as [|r l] eqn:Er; [reflexivity|].
    assert (Hr : In r (rows_with key c df)) by (rewrite Er; left; reflexivity).
    apply filter_In in Hr. destruct Hr as [Hin Hk]. apply label_eqb_eq in Hk.
    assert (Hex : existsb (label_eqb c) (group_keys key df) = true).
    { apply existsb_exists. exists c. split; [|apply label_eqb_refl].
      apply group_keys_in. split; [exact Hc|]. exists r. auto. }
    congruence.
Qed.

(** The rows of the class [c] after balancing: the balanced group of the
    rows of [c] before. *)
Lemma balanced_rows_of_class (df out : DataFrame) (col : column) (target : Z)
  (keep : bool) (c : label) :
  col <> ColFilename ->
  c <> LNone ->
  DataBalancer.balance_by_column df col target keep = Some out ->
  rows_with (col_value col) c out
  = DataBalancer.balance_group target keep (rows_with (col_value col) c df).
Proof.
  intros Hcol Hc Hout. rewrite (balance_by_column_rows _ _ _ _ _ Hout). clear Hout.
  rewrite (rows_with_pieces (col_value col)
             (fun k => DataBalancer.balance_group target keep
                         (rows_with (col_value col) k df)) c).
  - rewrite group_keys_existsb by exact Hc.
    destruct (rows_with (col_value col) c df) as [|r l] eqn:Er; [|reflexivity].
    cbn. unfold DataBalancer.balance_group, DataBalancer.iloc_to. cbn.
    destruct (0 <? target - 0)%Z; [|destruct keep; [reflexivity|]].
    + rewrite duplicates_flat_map. cbn. 
      induction (seq 0 (Z.to_nat (target - 0))) as [|a l IH]; [reflexivity|].
      cbn. unfold DataBalancer.duplicate at 1. cbn.
      destruct a; exact IH.
    + destruct (0 <=? target)%Z; rewrite firstn_nil; reflexivity.
  - intros k r. apply balance_group_key. exact Hcol.
  - apply group_keys_nodup.
Qed.

Lemma balance_by_column_total (df : DataFrame) (col : column) (target : Z)
  (keep : bool) (r : row) :
  In r df -> col_value col r <> LNone ->
  exists out, DataBalancer.balance_by_column df col target keep = Some out.
Proof.
  intros Hin Hr. rewrite balance_by_column_closed.
  assert (H : In (col_value col r) (group_keys (col_value col) df)).
  { apply group_keys_in. split; [exact Hr|]. exists r. auto. }
  destruct (group_keys (col_value col) df); [destruct H|eexists; reflexivity].
Qed.

Lemma get_class_column_not_filename (p : pipeline) :
  Pipeline.get_class_column p <> ColFilename.
Proof. destruct p; discriminate. Qed.

(** C4: under the default policy a class that already has [target] records
    or more comes back with exactly the records it had, and the balancing
    stage hands the evaluation split on unchanged in the three pipelines,
    whatever the operator chose; it returns as soon as the training split
    has one labelled record. *)
Theorem balancing_leaves_the_rest_untouched (p : pipeline) (s : splits)
  (choice : option Z) :
  let col := Pipeline.get_class_column p in
  (forall processed,
      Pipeline.balance_data p choice s = Some processed ->
      df_test processed = df_test s
      /\ match choice with
         | None => df_train processed = df_train s
         | Some target =>
             forall c,
               c <> LNone ->
               (target <= Z.of_nat (List.length (rows_with (col_value col) c (df_train s))))%Z ->
               rows_with (col_value col) c (df_train processed)
               = rows_with (col_value col) c (df_train s)
         end)
  /\ ((exists r, In r (df_train s) /\ col_value col r <> LNone) ->
      exists processed, Pipeline.balance_data p choice s = Some processed).
Proof.
  cbv zeta. set (col := Pipeline.get_class_column p).
  assert (Hcol : col <> ColFilename) by apply get_class_column_not_filename.
  split.
  - intros processed. unfold Pipeline.balance_data. fold col.
    destruct choice as [target|]; [|intros [= <-]; split; reflexivity].
    destruct (DataBalancer.balance_by_column (df_train s) col target true)
      as [balanced|] eqn:Hb; [|discriminate].
    intros [= <-]. split; [reflexivity|]. intros c Hc Hn. cbn [df_train].
    rewrite (balanced_rows_of_class _ _ _ _ _ c Hcol Hc Hb).
    unfold DataBalancer.balance_group.
    destruct (Z.ltb_spec 0 (target - Z.of_nat (List.length
                (rows_with (col_value col) c (df_train s))))); [lia|reflexivity].
  - intros (r & Hin & Hr). unfold Pipeline.balance_data. fold col.
    destruct choice as [target|]; [|eexists; reflexivity].
    destruct (balance_by_column_total (df_train s) col target true r Hin Hr)
      as [out Hout].
    rewrite Hout. eexists; reflexivity.
Qed.

Lemma balancing_leaves_the_rest_untouched_witness :
  let s := mkSplits plain_frame unknown_class_frame in
  let col := Pipeline.get_class_column Species in
  exists processed,
    Pipeline.balance_data Species (Some 2%Z) s = Some processed
    /\ df_test processed = df_test s
    /\ rows_with (col_value col) (LStr "Tomato") (df_train processed)
       = rows_with (col_value col) (LStr "Tomato") (df_train s)
    /\ List.length (df_train processed) = 4.
Proof.
  intros s col.
  destruct (balancing_leaves_the_rest_untouched Species s (Some 2%Z)) as [Hframe Htotal].
  destruct Htotal as [processed Hp].
  { eexists. split; [left; reflexivity|discriminate]. }
  exists processed. destruct (Hframe processed Hp) as [Htest Hclass].
  split; [exact Hp|]. split; [exact Htest|]. split.
  - apply Hclass; [discriminate|]. vm_compute. discriminate.
  - vm_compute in Hp. injection Hp as <-. reflexivity.
Defined.

(** ** The class mapping *)

Lemma lookup_enumerate (v : label) :
  forall (keys : list label) (start j : nat),
    NoDup keys ->
    lookup v (combine keys (seq start (List.length keys))) = Some j
    <-> exists i, j = start + i /\ nth_error keys i = Some v.
Proof.
  induction keys as [|k keys IH]; intros start j Hnd; cbn [combine seq List.length lookup].
  - split; [discriminate|]. intros (i & _ & H). destruct i; discriminate.
  - inversion Hnd as [|? ? Hnotin Hnd']; subst.
    destruct (label_eqb k v) eqn:E.
    + apply label_eqb_eq in E. subst k. split.
      * intros [= <-]. exists 0. split; [lia|reflexivity].
      * intros (i & -> & Hi). destruct i as [|i]; [f_equal; lia|].
        cbn in Hi. apply nth_error_In in Hi. contradiction.
    + rewrite (IH (S start) j Hnd'). split.
      * intros (i & -> & Hi). exists (S i). split; [lia|exact Hi].
      * intros (i & -> & Hi). destruct i as [|i].
        -- cbn in Hi. injection Hi as ->. rewrite label_eqb_refl in E. discriminate.
        -- exists i. split; [lia|exact Hi].
Qed.

Lemma combine_seq_fst (keys : list label) (start : nat) :
  map fst (combine keys (seq start (List.length keys))) = keys.
Proof.
  revert start. induction keys as [|k keys IH]; intros start; cbn; [reflexivity|].
  rewrite IH. reflexivity.
Qed.

Lemma combine_seq_snd (keys : list label) (start : nat) :
  map snd (combine keys (seq start (List.length keys)))
  = seq start (List.length keys).
Proof.
  revert start. induction keys as [|k keys IH]; intros start; cbn; [reflexivity|].
  rewrite IH. reflexivity.
Qed.

Lemma column_cells_some (col : column) (df : DataFrame) (cells : list label) :
  column_cells col df = Some cells -> cells = map (col_value col) df.
Proof.
  unfold column_cells. cbv zeta.
  destruct col; try (intros [= <-]; reflexivity);
    destruct (existsb is_none _); try discriminate; intros [= <-]; reflexivity.
Qed.

Lemma column_cells_present (col : column) (df : DataFrame) :
  (forall r, In r df -> col_value col r <> LNone) ->
  column_cells col df = Some (map (col_value col) df).
Proof.
  intros H. unfold column_cells. cbv zeta.
  assert (E : existsb is_none (map (col_value col) df) = false).
  { apply not_true_is_false. intros Hex. apply existsb_exists in Hex.
    destruct Hex as (v & Hv & Hn). apply in_map_iff in Hv.
    destruct Hv as (r & <- & Hr). apply (H r Hr).
    destruct (col_value col r); try discriminate Hn. reflexivity. }
  destruct col; try reflexivity; rewrite E; reflexivity.
Qed.

(** [create_class_mapping] once the column is known to be there. *)
Lemma create_class_mapping_unfold (df : DataFrame) (col : column) :
  YOLOConverter.create_class_mapping df col
  = match column_cells col df with
    | None => None
    | Some _ =>
        if sortable (unique (map (col_value col) df))
        then Some (combine (sort (unique (map (col_value col) df)))
                           (seq 0 (List.length (sort (unique (map (col_value col) df))))))
        else None
    end.
Proof.
  unfold YOLOConverter.create_class_mapping.
  destruct (column_cells col df) as [cells|] eqn:E; [|reflexivity].
  rewrite (column_cells_some col df cells E). reflexivity.
Qed.

(** What [create_class_mapping] returns when it does not raise. *)
Lemma create_class_mapping_spec (df : DataFrame) (col : column) (m : class_mapping) :
  YOLOConverter.create_class_mapping df col = Some m ->
  let keys := map fst m in
  keys = sort (unique (map (col_value col) df))
  /\ Sorted label_le keys
  /\ NoDup keys
  /\ (forall v, In v keys <-> exists r, In r df /\ col_value col r = v)
  /\ map snd m = seq 0 (List.length keys)
  /\ List.length m = List.length (unique (map (col_value col) df))
  /\ (forall v i, lookup v m = Some i <-> nth_error keys i = Some v).
Proof.
  rewrite create_class_mapping_unfold.
  destruct (column_cells col df); [|discriminate].
  destruct (sortable (unique (map (col_value col) df))); [|discriminate].
  intros [= <-]. cbv zeta.
  set (keys := sort (unique (map (col_value col) df))).
  rewrite combine_seq_fst, combine_seq_snd.
  assert (Hnd : NoDup keys) by apply sort_nodup, unique_nodup.
  split; [reflexivity|]. split; [apply sort_sorted|]. split; [exact Hnd|].
  split; [|split; [reflexivity|split]].
  - intros v. unfold keys. rewrite sort_in, unique_in, in_map_iff.
    split; intros (r & H1 & H2); exists r; auto.
  - rewrite length_combine, length_seq, Nat.min_id. apply sort_length.
  - intros v i. rewrite (lookup_enumerate v keys 0 i Hnd). split.
    + intros (i' & -> & H). exact H.
    + intros H. exists i. auto.
Qed.

Lemma label_column_kind (p : pipeline) (r : row) :
  col_value (Pipeline.get_class_column p) r <> LNone ->
  match p with
  | Binary => is_int (col_value (Pipeline.get_class_column p) r) = true
  | Species | Disease => is_str (col_value (Pipeline.get_class_column p) r) = true
  end.
Proof.
  destruct p; cbn.
  - destruct (binary_class r); [reflexivity|contradiction].
  - destruct (species r); [reflexivity|contradiction].
  - destruct (disease r); [reflexivity|contradiction].
Qed.

Lemma sortable_when_one_kind (l : list label) :
  forallb is_int l = true \/ forallb is_str l = true -> sortable l = true.
Proof.
  intros H. unfold sortable. destruct l as [|a [|b l]]; try reflexivity.
  destruct H as [-> | ->]; [reflexivity|apply orb_true_r].
Qed.

(** In a pipeline whose training frame has no missing label, [sorted] has
    only values of one kind to compare. *)
Lemma pipeline_labels_sortable (p : pipeline) (df : DataFrame) :
  (forall r, In r df -> col_value (Pipeline.get_class_column p) r <> LNone) ->
  sortable (unique (map (col_value (Pipeline.get_class_column p)) df)) = true.
Proof.
  intros H. apply sortable_when_one_kind.
  assert (Hk : forall v,
             In v (unique (map (col_value (Pipeline.get_class_column p)) df)) ->
             exists r, In r df /\ col_value (Pipeline.get_class_column p) r = v).
  { intros v Hv. apply unique_in, in_map_iff in Hv.
    destruct Hv as (r & Hr & Hin). exists r. auto. }
  destruct p; [left|right|right]; apply forallb_forall; intros v Hv;
    destruct (Hk v Hv) as (r & Hin & <-).
  - exact (label_column_kind Binary r (H r Hin)).
  - exact (label_column_kind Species r (H r Hin)).
  - exact (label_column_kind Disease r (H r Hin)).
Qed.

(** The mapping of [export_data] on processed frames without a missing
    label. *)
Lemma export_data_mapping (p : pipeline)
  (train_env test_env : export_env) (processed : splits) :
  let col := Pipeline.get_class_column p in
  (forall r, In r (df_train processed) -> col_value col r <> LNone) ->
  exists report,
    Pipeline.export_data p train_env test_env processed = Some report
    /\ let m := mapping report in
       let keys := map fst m in
       keys = sort (unique (map (col_value col) (df_train processed)))
       /\ Sorted label_le keys
       /\ NoDup keys
       /\ (forall v, In v keys <->
                     exists r, In r (df_train processed) /\ col_value col r = v)
       /\ map snd m = seq 0 (List.length keys)
       /\ List.length m
          = List.length (unique (map (col_value col) (df_train processed)))
       /\ (forall v i, lookup v m = Some i <-> nth_error keys i = Some v)
       /\ train_export report
          = YOLOConverter.export_to_yolo (df_train processed) train_env m col
       /\ val_export report
          = YOLOConverter.export_to_yolo (df_test processed) test_env m col.
Proof.
  cbv zeta. intros Hlab. unfold Pipeline.export_data.
  destruct (YOLOConverter.create_class_mapping (df_train processed)
              (Pipeline.get_class_column p)) as [m|] eqn:Hm.
  - eexists. split; [reflexivity|]. cbn [mapping train_export val_export].
    destruct (create_class_mapping_spec _ _ _ Hm) as (H1 & H2 & H3 & H4 & H5 & H6 & H7).
    repeat (split; [assumption|]). split; reflexivity.
  - rewrite create_class_mapping_unfold in Hm.
    rewrite (column_cells_present _ _ Hlab) in Hm.
    rewrite (pipeline_labels_sortable p _ Hlab) in Hm. discriminate Hm.
Qed.


(** ** Strings and paths *)

Lemma append_assoc (a b c : string) : ((a ++ b) ++ c = a ++ (b ++ c))%string.
Proof. induction a as [|x a IH]; cbn; [reflexivity|]. rewrite IH. reflexivity. Qed.

Lemma append_nil_r (a : string) : (a ++ "" = a)%string.
Proof. induction a as [|x a IH]; cbn; [reflexivity|]. rewrite IH. reflexivity. Qed.

Lemma append_inv_head (a b c : string) : (a ++ b = a ++ c)%string -> b = c.
Proof. induction a as [|x a IH]; cbn; [auto|]. intros [= H]. auto. Qed.

Lemma prefix_app (p b : string) : String.prefix p (p ++ b) = true.
Proof.
  induction p as [|x p IH]; cbn; [destruct b; reflexivity|].
  destruct (ascii_dec x x); [exact IH|contradiction].
Qed.

Lemma prefix_split (p : string) :
  forall s, String.prefix p s = true -> exists b, s = (p ++ b)%string.
Proof.
  induction p as [|x p IH]; intros s H.
  - exists s. reflexivity.
  - destruct s as [|y s]; [discriminate|]. cbn in H.
    destruct (ascii_dec x y) as [->|]; [|discriminate].
    destruct (IH s H) as [b ->]. exists b. reflexivity.
Qed.

Lemma contains_iff (pat s : string) :
  PyStr.contains pat s = true <-> exists a b, s = (a ++ pat ++ b)%string.
Proof.
  split.
  - induction s as [|c s IH]; cbn [PyStr.contains]; intros H;
      apply orb_true_iff in H; destruct H as [H|H].
    + destruct (prefix_split _ _ H) as [b Hb]. exists "", b. exact Hb.
    + discriminate.
    + destruct (prefix_split _ _ H) as [b Hb]. exists "", b. exact Hb.
    + destruct (IH H) as (a & b & ->). exists (String c a), b. reflexivity.
  - intros (a & b & ->). induction a as [|c a IH].
    + cbn [append]. destruct (pat ++ b)%string eqn:E; cbn [PyStr.contains];
        rewrite <- E, prefix_app; reflexivity.
    + cbn [append PyStr.contains]. rewrite IH. apply orb_true_r.
Qed.

Lemma contains_infix (pat a s b : string) :
  PyStr.contains pat s = true -> PyStr.contains pat (a ++ s ++ b) = true.
Proof.
  rewrite !contains_iff. intros (u & v & ->).
  exists (a ++ u)%string, (v ++ b)%string. rewrite !append_assoc. reflexivity.
Qed.

Lemma contains_false_infix (pat a s b : string) :
  PyStr.contains pat (a ++ s ++ b) = false -> PyStr.contains pat s = false.
Proof.
  intros H. destruct (PyStr.contains pat s) eqn:E; [|reflexivity].
  rewrite (contains_infix pat a s b E) in H. discriminate.
Qed.

Lemma prefix_cons (a b : ascii) (p s : string) :
  String.prefix (String a p) (String b s)
  = if Ascii.eqb a b then String.prefix p s else false.
Proof.
  cbn [String.prefix]. destruct (ascii_dec a b) as [->|Hn].
  - rewrite Ascii.eqb_refl. reflexivity.
  - apply Ascii.eqb_neq in Hn. rewrite Hn. reflexivity.
Qed.

Lemma prefix_nil_r (a : ascii) (p : string) :
  String.prefix (String a p) EmptyString = false.
Proof. reflexivity. Qed.

(** The marker has no border: it cannot start inside a text free of it and
    end inside the marker that follows. *)
Lemma no_marker_across (s rest : string) :
  s <> EmptyString ->
  String.prefix PyStr.dup_marker s = false ->
  String.prefix PyStr.dup_marker (s ++ PyStr.dup_marker ++ rest) = false.
Proof.
  intros Hne H. unfold PyStr.dup_marker in *.
  destruct s as [|c0 [|c1 [|c2 [|c3 s]]]]; [contradiction|..];
    cbn [append] in *; rewrite ?prefix_cons, ?prefix_nil_r in *.
  - destruct (Ascii.eqb "_" c0); reflexivity.
  - destruct (Ascii.eqb "_" c0); [|reflexivity].
    destruct (Ascii.eqb "d" c1); reflexivity.
  - destruct (Ascii.eqb "_" c0); [|reflexivity].
    destruct (Ascii.eqb "d" c1); [|reflexivity].
    destruct (Ascii.eqb "u" c2); reflexivity.
  - revert H.
    destruct (Ascii.eqb "_" c0); [|reflexivity].
    destruct (Ascii.eqb "d" c1); [|reflexivity].
    destruct (Ascii.eqb "u" c2); [|reflexivity].
    destruct (Ascii.eqb "p" c3); [|reflexivity].
    destruct s; discriminate.
Qed.

(** [split('_dup')[0]] gives back the text put before the marker, when
    that text is free of it. *)
Lemma before_first_marker (s rest : string) :
  PyStr.contains PyStr.dup_marker s = false ->
  PyStr.before_first PyStr.dup_marker (s ++ PyStr.dup_marker ++ rest) = s.
Proof.
  induction s as [|c s IH]; intros H.
  - cbn [append].
    pose proof (prefix_app PyStr.dup_marker rest) as Hp.
    destruct (PyStr.dup_marker ++ rest)%string; cbn [PyStr.before_first];
      rewrite Hp; reflexivity.
  - cbn [PyStr.contains] in H. apply orb_false_iff in H. destruct H as [Hp Hc].
    pose proof (no_marker_across (String c s) rest ltac:(discriminate) Hp) as Hx.
    cbn [append] in *. cbn [PyStr.before_first]. rewrite Hx, (IH Hc). reflexivity.
Qed.

Lemma substring_all (s : string) : String.substring 0 (String.length s) s = s.
Proof. induction s as [|c s IH]; cbn; [reflexivity|]. rewrite IH. reflexivity. Qed.

Lemma substring_split (s : string) :
  forall i, i <= String.length s ->
            s = (String.substring 0 i s ++ String.substring i (String.length s - i) s)%string.
Proof.
  induction s as [|c s IH]; intros i Hi.
  - destruct i; reflexivity.
  - destruct i as [|i].
    + rewrite Nat.sub_0_r, substring_all. reflexivity.
    + cbn [String.substring String.length Nat.sub append]. f_equal.
      apply IH. cbn in Hi. lia.
Qed.

Lemma split_slash_parts (s : string) :
  forall cur p,
    In p (PyPath.split_slash cur s) ->
    exists pre post, (cur ++ s = pre ++ p ++ post)%string.
Proof.
  induction s as [|c s IH]; intros cur p; cbn [PyPath.split_slash].
  - intros [<-|[]]. exists "", "". reflexivity.
  - destruct (Ascii.eqb c "/").
    + intros [<-|H].
      * exists "", (String c s). reflexivity.
      * destruct (IH _ _ H) as (pre & post & E). cbn [append] in E.
        exists (cur ++ String c pre)%string, post.
        rewrite append_assoc. cbn [append]. rewrite <- E. reflexivity.
    + intros H. destruct (IH _ _ H) as (pre & post & E).
      exists pre, post. rewrite <- E, append_assoc. reflexivity.
Qed.

Lemma last_in_or_default {A : Type} (l : list A) (d : A) :
  last l d = d \/ In (last l d) l.
Proof.
  induction l as [|a l IH]; [left; reflexivity|].
  destruct l as [|b l]; [right; left; reflexivity|].
  destruct IH as [H|H]; [left; exact H|right; right; exact H].
Qed.

(** The final component is a piece of the path. *)
Lemma name_infix (f : string) :
  exists pre post, (f = pre ++ PyPath.name f ++ post)%string.
Proof.
  unfold PyPath.name, PyPath.parts.
  destruct (last_in_or_default
              (filter PyPath.keep_part (PyPath.split_slash "" f)) "") as [->|H].
  - exists "", f. reflexivity.
  - apply filter_In in H. destruct H as [H _].
    destruct (split_slash_parts f "" _ H) as (pre & post & E).
    exists pre, post. exact E.
Qed.

Lemma rfind_dot_bound (s : string) :
  forall i, PyPath.rfind_dot s = Some i -> i < String.length s.
Proof.
  induction s as [|c s IH]; intros i; cbn [PyPath.rfind_dot String.length];
    [discriminate|].
  destruct (PyPath.rfind_dot s) as [j|].
  - intros [= <-]. specialize (IH j eq_refl). lia.
  - destruct (Ascii.eqb c "."); [intros [= <-]; lia|discriminate].
Qed.

Lemma rfind_dot_char (s : string) :
  forall i, PyPath.rfind_dot s = Some i -> PyStr.nth_char i s = Some "."%char.
Proof.
  induction s as [|c s IH]; intros i; cbn [PyPath.rfind_dot PyStr.nth_char];
    [discriminate|].
  destruct (PyPath.rfind_dot s) as [j|].
  - intros [= <-]. apply IH. reflexivity.
  - destruct (Ascii.eqb_spec c "."); [intros [= <-]; subst c; reflexivity|discriminate].
Qed.

Lemma substring_head (s : string) :
  forall i m c,
    PyStr.nth_char i s = Some c ->
    exists t, String.substring i (S m) s = String c t.
Proof.
  induction s as [|x s IH]; intros i m c; cbn [PyStr.nth_char]; [discriminate|].
  destruct i as [|i].
  - intros [= <-]. eexists. reflexivity.
  - intros H. cbn [String.substring]. apply IH. exact H.
Qed.

(** The name is its stem followed by its suffix. *)
Lemma stem_suffix (f : string) :
  PyPath.name f = (PyPath.stem f ++ PyPath.suffix f)%string.
Proof.
  unfold PyPath.stem, PyPath.suffix.
  destruct (PyPath.suffix_start (PyPath.name f)) as [i|] eqn:E.
  - apply substring_split. unfold PyPath.suffix_start in E.
    destruct (PyPath.rfind_dot (PyPath.name f)) as [j|] eqn:Ej; [|discriminate].
    destruct ((0 <? j) && (j <? String.length (PyPath.name f) - 1)); [|discriminate].
    injection E as <-. apply rfind_dot_bound in Ej. lia.
  - symmetry. apply append_nil_r.
Qed.

(** A suffix is empty or starts with a dot. *)
Lemma suffix_shape (f : string) :
  PyPath.suffix f = EmptyString \/ exists t, PyPath.suffix f = String "." t.
Proof.
  unfold PyPath.suffix.
  destruct (PyPath.suffix_start (PyPath.name f)) as [i|] eqn:E; [|left; reflexivity].
  right. unfold PyPath.suffix_start in E.
  destruct (PyPath.rfind_dot (PyPath.name f)) as [j|] eqn:Ej; [|discriminate].
  destruct ((0 <? j) && (j <? String.length (PyPath.name f) - 1)); [|discriminate].
  injection E as <-. pose proof (rfind_dot_bound _ _ Ej) as Hb.
  destruct (String.length (PyPath.name f) - j) as [|m] eqn:Em; [lia|].
  apply substring_head. apply rfind_dot_char. exact Ej.
Qed.

Lemma stem_without_marker (f : string) :
  PyStr.contains PyStr.dup_marker f = false ->
  PyStr.contains PyStr.dup_marker (PyPath.stem f) = false.
Proof.
  intros H. destruct (name_infix f) as (pre & post & E).
  rewrite stem_suffix, append_assoc in E.
  rewrite E in H. 
  apply (contains_false_infix _ pre (PyPath.stem f) (PyPath.suffix f ++ post)).
  exact H.
Qed.

(** ** Decimal numerals *)

Lemma string_of_uint_digits (d : Decimal.uint) :
  all_digits (NilEmpty.string_of_uint d) = true.
Proof. induction d; cbn; auto. Qed.

Lemma str_of_nat_inj (k1 k2 : nat) :
  PyStr.str_of_nat k1 = PyStr.str_of_nat k2 -> k1 = k2.
Proof.
  unfold PyStr.str_of_nat. intros H.
  apply DecimalNat.Unsigned.to_uint_inj.
  apply (f_equal NilEmpty.uint_of_string) in H.
  rewrite !NilEmpty.usu in H. congruence.
Qed.

Lemma take_digits_app (d x : string) :
  all_digits d = true ->
  match x with EmptyString => True | String c _ => PyStr.is_digit c = false end ->
  take_digits (d ++ x) = d.
Proof.
  intros Hd Hx. induction d as [|c d IH]; cbn [append].
  - destruct x as [|c x]; [reflexivity|]. cbn. rewrite Hx. reflexivity.
  - cbn in Hd. apply andb_true_iff in Hd. destruct Hd as [Hc Hd].
    cbn. rewrite Hc, (IH Hd). reflexivity.
Qed.

Lemma take_digits_numbered (k : nat) (f : string) :
  take_digits (PyStr.str_of_nat k ++ PyPath.suffix f) = PyStr.str_of_nat k.
Proof.
  apply take_digits_app; [apply string_of_uint_digits|].
  destruct (suffix_shape f) as [->|[t ->]]; [exact I|reflexivity].
Qed.

(** Two duplicates of records whose names are free of the marker bear the
    same name only when they have the same number. *)
Lemma dup_filename_inj (f1 f2 : string) (k1 k2 : nat) :
  PyStr.contains PyStr.dup_marker f1 = false ->
  PyStr.contains PyStr.dup_marker f2 = false ->
  DataBalancer.dup_filename f1 k1 = DataBalancer.dup_filename f2 k2 ->
  k1 = k2.
Proof.
  intros H1 H2 E. unfold DataBalancer.dup_filename in E.
  pose proof (f_equal (PyStr.before_first PyStr.dup_marker) E) as Es.
  rewrite !before_first_marker in Es by (apply stem_without_marker; assumption).
  rewrite Es in E. apply append_inv_head, append_inv_head in E.
  apply (f_equal take_digits) in E. rewrite !take_digits_numbered in E.
  apply str_of_nat_inj. exact E.
Qed.

Lemma dup_filename_has_marker (f : string) (k : nat) :
  PyStr.contains PyStr.dup_marker (DataBalancer.dup_filename f k) = true.
Proof.
  unfold DataBalancer.dup_filename. apply contains_iff.
  exists (PyPath.stem f), (PyStr.str_of_nat k ++ PyPath.suffix f)%string.
  reflexivity.
Qed.


(** ** Duplication *)

Lemma duplicate_nonempty (group : DataFrame) (k : nat) :
  group <> [] ->
  exists src,
    nth_error group (k mod List.length group) = Some src
    /\ DataBalancer.duplicate group k = [duplicate_of src k].
Proof.
  intros Hne. unfold DataBalancer.duplicate.
  assert (Hlt : k mod List.length group < List.length group).
  { apply Nat.mod_upper_bound. destruct group; [contradiction|discriminate]. }
  destruct (nth_error group (k mod List.length group)) as [src|] eqn:E.
  - exists src. split; reflexivity.
  - apply nth_error_None in E. lia.
Qed.

Lemma duplicates_nth (group : DataFrame) :
  group <> [] ->
  forall todo added,
    List.length (DataBalancer.duplicates group added todo) = todo
    /\ forall k, k < todo ->
         exists src,
           nth_error group ((added + k) mod List.length group) = Some src
           /\ nth_error (DataBalancer.duplicates group added todo) k
              = Some (duplicate_of src (added + k)).
Proof.
  intros Hne. induction todo as [|todo IH]; intros added; cbn [DataBalancer.duplicates].
  - split; [reflexivity|]. intros k Hk. lia.
  - destruct (duplicate_nonempty group added Hne) as (src & Hsrc & ->).
    destruct (IH (S added)) as [Hlen Hnth]. cbn [app List.length]. split; [lia|].
    intros [|k] Hk.
    + exists src. rewrite Nat.add_0_r. split; [exact Hsrc|reflexivity].
    + destruct (Hnth k ltac:(lia)) as (src' & Hs' & Hd').
      exists src'. replace (added + S k) with (S added + k) by lia.
      split; [exact Hs'|exact Hd'].
Qed.

Lemma duplicate_of_fields (src : row) (k : nat) :
  filename (duplicate_of src k)
  = (PyPath.stem (filename src) ++ "_dup" ++ PyStr.str_of_nat k
       ++ PyPath.suffix (filename src))%string
  /\ class_ (duplicate_of src k) = class_ src
  /\ (xmin (duplicate_of src k), xmax (duplicate_of src k),
      ymin (duplicate_of src k), ymax (duplicate_of src k))
     = (xmin src, xmax src, ymin src, ymax src)
  /\ (width (duplicate_of src k), height (duplicate_of src k))
     = (width src, height src)
  /\ (species (duplicate_of src k), disease (duplicate_of src k),
      binary_class (duplicate_of src k))
     = (species src, disease src, binary_class src).
Proof. repeat split. Qed.

(** C3, as the code has it: a class with n records, 1 <= n < T, comes back
    with exactly T records: its n records unchanged, then T-n duplicates,
    the k-th (k = 0..T-n-1) being the record at index k mod n with its file
    name rewritten to stem, "_dup", k, suffix and every other field kept.
    When no file name of the class holds "_dup", these names are pairwise
    distinct and distinct from those of the n records. *)
Theorem balance_duplicates_small_class (df : DataFrame) (col : column)
  (target : Z) (keep : bool) (c : label) :
  let group := rows_with (col_value col) c df in
  let n := List.length group in
  col <> ColFilename ->
  c <> LNone ->
  1 <= n ->
  (Z.of_nat n < target)%Z ->
  exists out dups,
    DataBalancer.balance_by_column df col target keep = Some out
    /\ rows_with (col_value col) c out = group ++ dups
    /\ Z.of_nat (List.length (rows_with (col_value col) c out)) = target
    /\ Z.of_nat (List.length dups) = (target - Z.of_nat n)%Z
    /\ (forall k, k < List.length dups ->
          exists src,
            nth_error group (k mod n) = Some src
            /\ nth_error dups k = Some (duplicate_of src k)
            /\ filename (duplicate_of src k)
               = (PyPath.stem (filename src) ++ "_dup" ++ PyStr.str_of_nat k
                    ++ PyPath.suffix (filename src))%string
            /\ forall col', col' <> ColFilename ->
                 col_value col' (duplicate_of src k) = col_value col' src)
    /\ (no_dup_marker group ->
        NoDup (map filename dups)
        /\ forall d, In d dups -> ~ In (filename d) (map filename group)).
Proof.
  intros group n Hcol Hc Hn Hlt.
  assert (Hne : group <> []) by (intros E; unfold n in Hn; rewrite E in Hn; cbn in Hn; lia).
  assert (Hex : exists r, In r df /\ col_value col r = c).
  { destruct group as [|r g] eqn:Eg; [contradiction|]. exists r.
    assert (Hr : In r (rows_with (col_value col) c df))
      by (fold group; rewrite Eg; left; reflexivity).
    split; [|exact (rows_with_key _ _ _ _ Hr)].
    apply filter_In in Hr. apply Hr. }
  destruct Hex as (r & Hin & Hr).
  destruct (balance_by_column_total df col target keep r Hin ltac:(congruence))
    as [out Hout].
  set (todo := Z.to_nat (target - Z.of_nat n)).
  exists out, (DataBalancer.duplicates group 0 todo).
  destruct (duplicates_nth group Hne todo 0) as [Hlen Hnth].
  assert (Hrows : rows_with (col_value col) c out
                  = group ++ DataBalancer.duplicates group 0 todo).
  { rewrite (balanced_rows_of_class _ _ _ _ _ c Hcol Hc Hout).
    unfold DataBalancer.balance_group. fold group. fold n.
    destruct (Z.ltb_spec 0 (target - Z.of_nat n)); [reflexivity|lia]. }
  split; [exact Hout|]. split; [exact Hrows|].
  split; [rewrite Hrows, length_app, Hlen; fold n; unfold todo; lia|].
  split; [rewrite Hlen; unfold todo; lia|].
  split.
  - intros k Hk. rewrite Hlen in Hk.
    destruct (Hnth k Hk) as (src & Hs & Hd). cbn [Nat.add] in Hs, Hd.
    exists src. split; [exact Hs|]. split; [exact Hd|]. split; [reflexivity|].
    intros col' Hc'. apply col_value_set_filename. exact Hc'.
  - intros Hplain.
    assert (Hsrc : forall k, k < todo ->
              exists src, In src group
                /\ nth_error (map filename (DataBalancer.duplicates group 0 todo)) k
                   = Some (DataBalancer.dup_filename (filename src) k)).
    { intros k Hk. destruct (Hnth k Hk) as (src & Hs & Hd). cbn [Nat.add] in Hs, Hd.
      exists src. split; [exact (nth_error_In _ _ Hs)|].
      rewrite nth_error_map, Hd. reflexivity. }
    split.
    + apply NoDup_nth_error. intros i j Hi E. rewrite length_map, Hlen in Hi.
      destruct (Hsrc i Hi) as (si & Hsi & Ei).
      assert (Hj : j < todo).
      { rewrite Ei in E. symmetry in E.
        assert (Hsome : nth_error (map filename (DataBalancer.duplicates group 0 todo)) j
                        <> None) by congruence.
        apply nth_error_Some in Hsome. rewrite length_map, Hlen in Hsome. exact Hsome. }
      destruct (Hsrc j Hj) as (sj & Hsj & Ej).
      rewrite Ei, Ej in E. injection E as E.
      exact (dup_filename_inj _ _ _ _ (Hplain si Hsi) (Hplain sj Hsj) E).
    + intros d Hd Hcoll. apply In_nth_error in Hd. destruct Hd as [k Hk].
      assert (Hklt : k < todo).
      { rewrite <- Hlen. apply nth_error_Some. congruence. }
      destruct (Hnth k Hklt) as (src & Hs & Hd). cbn [Nat.add] in Hd.
      rewrite Hk in Hd. injection Hd as ->.
      apply in_map_iff in Hcoll. destruct Hcoll as (orig & Ho & Horig).
      specialize (Hplain orig Horig). rewrite Ho in Hplain.
      cbn [duplicate_of set_filename filename] in Hplain.
      rewrite dup_filename_has_marker in Hplain. discriminate Hplain.
Qed.

Lemma balance_duplicates_small_class_witness :
  let df := plain_frame in
  let col := ColSpecies in
  let c := LStr "Tomato" in
  let target := 4%Z in
  let group := rows_with (col_value col) c df in
  let n := List.length group in
  col <> ColFilename
  /\ c <> LNone
  /\ 1 <= n
  /\ (Z.of_nat n < target)%Z
  /\ exists out dups,
       DataBalancer.balance_by_column df col target true = Some out
       /\ rows_with (col_value col) c out = group ++ dups
       /\ Z.of_nat (List.length (rows_with (col_value col) c out)) = target
       /\ Z.of_nat (List.length dups) = (target - Z.of_nat n)%Z
       /\ (forall k, k < List.length dups ->
             exists src,
               nth_error group (k mod n) = Some src
               /\ nth_error dups k = Some (duplicate_of src k)
               /\ filename (duplicate_of src k)
                  = (PyPath.stem (filename src) ++ "_dup" ++ PyStr.str_of_nat k
                       ++ PyPath.suffix (filename src))%string
               /\ forall col', col' <> ColFilename ->
                    col_value col' (duplicate_of src k) = col_value col' src)
       /\ (no_dup_marker group ->
           NoDup (map filename dups)
           /\ forall d, In d dups -> ~ In (filename d) (map filename group)).
Proof.
  intros df col c target group n.
  assert (H1 : col <> ColFilename) by discriminate.
  assert (H2 : c <> LNone) by discriminate.
  assert (H3 : 1 <= n) by (vm_compute; lia).
  assert (H4 : (Z.of_nat n < target)%Z) by reflexivity.
  repeat (split; [assumption|]).
  exact (balance_duplicates_small_class df col target true c H1 H2 H3 H4).
Defined.

(** C3 as it is written fails on file names that already hold the marker:
    the one duplicate made for the class is named like its second record. *)
Lemma duplicate_named_like_an_original :
  let group := rows_with (col_value ColSpecies) (LStr "Tomato") marked_frame in
  exists out d,
    DataBalancer.balance_by_column marked_frame ColSpecies 3 true = Some out
    /\ rows_with (col_value ColSpecies) (LStr "Tomato") out = group ++ [d]
    /\ nth_error group 0 = Some (mkRow "x.jpg" "Tomato" 10 50 20 80 100 200
                                       (Some "Tomato") (Some "healthy") None)
    /\ d = duplicate_of (mkRow "x.jpg" "Tomato" 10 50 20 80 100 200
                               (Some "Tomato") (Some "healthy") None) 0
    /\ filename d = "x_dup0.jpg"
    /\ In (filename d) (map filename group)
    /\ ~ NoDup (map filename (rows_with (col_value ColSpecies) (LStr "Tomato") out)).
Proof.
  cbv zeta. eexists. eexists. split; [reflexivity|].
  split; [reflexivity|]. split; [reflexivity|]. split; [reflexivity|].
  split; [reflexivity|]. split; [right; left; reflexivity|].
  intros H. vm_compute in H.
  inversion H as [|? ? _ H']. inversion H' as [|? ? Hn _]. apply Hn. left. reflexivity.
Qed.

(** ** Labels along a pipeline run *)

Lemma fix_row_columns (fs : folder) (r r' : row) :
  DataValidator.fix_row fs r = Some r' ->
  species r' = species r /\ disease r' = disease r
  /\ binary_class r' = binary_class r.
Proof.
  unfold DataValidator.fix_row.
  destruct (Z.eqb (width r) 0 || Z.eqb (height r) 0).
  - destruct (fs (filename r)); intros [= <-]; repeat split.
  - intros [= <-]; repeat split.
Qed.

Lemma validated_rows (fs : folder) (df out : DataFrame) (r' : row) :
  DataValidator.validate_and_fix fs df = Some out ->
  In r' out ->
  exists r, In r df /\ DataValidator.fix_row fs r = Some r'.
Proof.
  intros Hout Hin.
  destruct (validate_and_fix_some fs df out Hout) as (fixed & E & _ & _ & ->).
  apply filter_In in Hin. destruct Hin as [Hin _].
  apply fix_zero_dimensions_rows in E.
  exact (Forall2_in_right _ _ _ r' E Hin).
Qed.

(** After [load_and_prepare_data] every training record has a disease. *)
Lemma prepared_rows_have_disease (cfg : PipelineConfig) (raw prepared : splits) :
  Pipeline.load_and_prepare_data cfg raw = Some prepared ->
  forall r, In r (df_train prepared) -> disease r <> None.
Proof.
  unfold Pipeline.load_and_prepare_data, DataLoader.load_and_clean.
  destruct (DataValidator.validate_and_fix (train_images_dir cfg) _) as [tr|] eqn:Etr;
    [|discriminate].
  destruct (DataValidator.validate_and_fix (test_images_dir cfg) _) as [te|];
    [|discriminate].
  intros [= <-] r Hin. cbn [df_train] in Hin.
  destruct (validated_rows _ _ _ _ Etr Hin) as (r0 & Hr0 & Hfix).
  destruct (fix_row_columns _ _ _ Hfix) as (_ & -> & _).
  unfold FeatureExtractor.add_features in Hr0. apply in_map_iff in Hr0.
  destruct Hr0 as (r1 & <- & _). discriminate.
Qed.

Lemma filtered_rows_have_label (p : pipeline) (cfg : PipelineConfig) (s : splits) :
  (forall r, In r (df_train s) -> disease r <> None) ->
  forall r, In r (df_train (Pipeline.filter_data p cfg s)) ->
            col_value (Pipeline.get_class_column p) r <> LNone.
Proof.
  intros Hd r. destruct p; cbn [Pipeline.filter_data df_train Pipeline.get_class_column].
  - intros Hin. apply in_map_iff in Hin. destruct Hin as (r0 & <- & _). discriminate.
  - intros Hin. apply filter_In in Hin. destruct Hin as [_ H].
    unfold Pipeline.has_species in H. cbn. destruct (species r); [discriminate|discriminate].
  - intros Hin. apply filter_In in Hin. destruct Hin as [Hin _].
    apply filter_In in Hin. destruct Hin as [Hin _].
    specialize (Hd r Hin). cbn. destruct (disease r); [discriminate|contradiction].
Qed.

Lemma balanced_rows_have_label (p : pipeline) (choice : option Z)
  (s processed : splits) :
  Pipeline.balance_data p choice s = Some processed ->
  (forall r, In r (df_train s) -> col_value (Pipeline.get_class_column p) r <> LNone) ->
  forall r, In r (df_train processed) ->
            col_value (Pipeline.get_class_column p) r <> LNone.
Proof.
  unfold Pipeline.balance_data. destruct choice as [target|];
    [|intros [= <-]; auto].
  destruct (DataBalancer.balance_by_column (df_train s) (Pipeline.get_class_column p)
              target true) as [balanced|] eqn:Hb; [|discriminate].
  intros [= <-] Hlab r Hin. cbn [df_train] in Hin.
  rewrite (balance_by_column_rows _ _ _ _ _ Hb) in Hin.
  apply in_flat_map in Hin. destruct Hin as (k' & Hk' & Hin).
  rewrite (balance_group_key _ _ _ _ _ _ (get_class_column_not_filename p) Hin).
  apply group_keys_in in Hk'. apply Hk'.
Qed.

(** C5: in a pipeline run the class mapping lists the distinct values of
    the label column of the processed training frame in ascending order,
    numbers them 0..k-1 one to one, and this one mapping is the one passed
    to the export of the training split and to the export of the
    evaluation split.  The export stage returns whenever the stages before
    it did. *)
Theorem class_mapping_is_sorted_bijection (p : pipeline) (cfg : PipelineConfig)
  (choice : option Z) (train_env test_env : export_env)
  (raw prepared processed : splits) :
  Pipeline.load_and_prepare_data cfg raw = Some prepared ->
  Pipeline.balance_data p choice (Pipeline.filter_data p cfg prepared) = Some processed ->
  let col := Pipeline.get_class_column p in
  exists report,
    Pipeline.run p cfg choice train_env test_env raw = Some report
    /\ let m := mapping report in
       let keys := map fst m in
       keys = sort (unique (map (col_value col) (df_train processed)))
       /\ Sorted label_le keys
       /\ NoDup keys
       /\ (forall v, In v keys <->
                     exists r, In r (df_train processed) /\ col_value col r = v)
       /\ map snd m = seq 0 (List.length keys)
       /\ List.length m
          = List.length (unique (map (col_value col) (df_train processed)))
       /\ (forall v i, lookup v m = Some i <-> nth_error keys i = Some v)
       /\ train_export report
          = YOLOConverter.export_to_yolo (df_train processed) train_env m col
       /\ val_export report
          = YOLOConverter.export_to_yolo (df_test processed) test_env m col.
Proof.
  intros Hprep Hbal col. unfold Pipeline.run. rewrite Hprep, Hbal.
  apply export_data_mapping.
  apply (balanced_rows_have_label p choice _ _ Hbal).
  apply filtered_rows_have_label.
  exact (prepared_rows_have_disease cfg raw prepared Hprep).
Qed.

Lemma class_mapping_is_sorted_bijection_witness :
  let p := Species in
  let cfg := sample_config in
  let choice := Some 3%Z in
  let raw := sample_raw in
  exists prepared processed,
    Pipeline.load_and_prepare_data cfg raw = Some prepared
    /\ Pipeline.balance_data p choice (Pipeline.filter_data p cfg prepared) = Some processed
    /\ let col := Pipeline.get_class_column p in
       exists report,
         Pipeline.run p cfg choice sample_env sample_env raw = Some report
         /\ let m := mapping report in
            let keys := map fst m in
            keys = sort (unique (map (col_value col) (df_train processed)))
            /\ Sorted label_le keys
            /\ NoDup keys
            /\ (forall v, In v keys <->
                          exists r, In r (df_train processed) /\ col_value col r = v)
            /\ map snd m = seq 0 (List.length keys)
            /\ List.length m
               = List.length (unique (map (col_value col) (df_train processed)))
            /\ (forall v i, lookup v m = Some i <-> nth_error keys i = Some v)
            /\ train_export report
               = YOLOConverter.export_to_yolo (df_train processed) sample_env m col
            /\ val_export report
               = YOLOConverter.export_to_yolo (df_test processed) sample_env m col.
Proof.
  intros p cfg choice raw.
  destruct (Pipeline.load_and_prepare_data cfg raw) as [prepared|] eqn:Hprep;
    [|vm_compute in Hprep; discriminate Hprep].
  destruct (Pipeline.balance_data p choice (Pipeline.filter_data p cfg prepared))
    as [processed|] eqn:Hbal.
  - exists prepared, processed. split; [reflexivity|]. split; [exact Hbal|].
    exact (class_mapping_is_sorted_bijection p cfg choice sample_env sample_env
             raw prepared processed Hprep Hbal).
  - vm_compute in Hprep. injection Hprep as <-. vm_compute in Hbal. discriminate Hbal.
Defined.


(** ** More on balancing *)

Lemma insert_sorted_head (x : label) (l : list label) :
  HdRel label_le x l -> insert_sorted x l = x :: l.
Proof.
  intros H. destruct l as [|y l]; [reflexivity|].
  inversion H as [|? ? Hxy]; subst. cbn. unfold label_le in Hxy.
  rewrite Hxy. reflexivity.
Qed.

Lemma sort_of_sorted (l : list label) : Sorted label_le l -> sort l = l.
Proof.
  induction 1 as [|x l Hs IH Hhd]; cbn; [reflexivity|].
  rewrite IH. apply insert_sorted_head. exact Hhd.
Qed.

Lemma filter_filter_same {A : Type} (f : A -> bool) (l : list A) :
  filter f (filter f l) = filter f l.
Proof.
  apply filter_all. intros x Hx. apply filter_In in Hx. apply Hx.
Qed.

(** [unique] of a run of one value followed by other values. *)
Lemma unique_run (k : label) (run rest : list label) :
  run <> [] ->
  (forall x, In x run -> x = k) ->
  unique (run ++ rest) = k :: filter (fun y => negb (label_eqb y k)) (unique rest).
Proof.
  induction run as [|x run IH]; intros Hne Hall; [contradiction|].
  assert (x = k) by (apply Hall; left; reflexivity). subst x.
  cbn [app unique]. f_equal.
  destruct run as [|y run]; [reflexivity|].
  rewrite IH; [|discriminate|intros z Hz; apply Hall; right; exact Hz].
  cbn [filter]. rewrite label_eqb_refl. cbn [negb]. apply filter_filter_same.
Qed.

(** The group keys of a frame assembled from one non-empty piece per key. *)
Lemma group_keys_of_pieces (key : row -> label) (piece : label -> DataFrame) :
  forall keys,
    NoDup keys ->
    Sorted label_le keys ->
    (forall k, In k keys ->
               k <> LNone /\ piece k <> [] /\ forall r, In r (piece k) -> key r = k) ->
    group_keys key (flat_map piece keys) = keys.
Proof.
  intros keys Hnd Hs Hp. unfold group_keys.
  assert (Hu : unique (filter (fun k => negb (is_none k))
                         (map key (flat_map piece keys))) = keys).
  { clear Hs. induction keys as [|k keys IH]; [reflexivity|].
    inversion Hnd as [|? ? Hnotin Hnd']; subst.
    destruct (Hp k (or_introl eq_refl)) as (Hk & Hne & Hkey).
    cbn [flat_map]. rewrite map_app, filter_app.
    rewrite (unique_run k).
    - rewrite IH; [|exact Hnd'|intros k' Hk'; apply Hp; right; exact Hk'].
      f_equal. apply filter_all. intros y Hy.
      apply negb_true_iff, label_eqb_neq. intros ->. contradiction.
    - destruct (piece k) as [|r rs]; [contradiction|].
      cbn [map filter]. rewrite (Hkey r (or_introl eq_refl)).
      destruct k; [contradiction|discriminate|discriminate].
    - intros x Hx. apply filter_In in Hx. destruct Hx as [Hx _].
      apply in_map_iff in Hx. destruct Hx as (r & <- & Hr). apply Hkey. exact Hr. }
  rewrite Hu. apply sort_of_sorted. exact Hs.
Qed.

Lemma group_keys_sorted (key : row -> label) (df : DataFrame) :
  Sorted label_le (group_keys key df).
Proof. apply sort_sorted. Qed.

Lemma rows_with_nonempty (key : row -> label) (df : DataFrame) (k : label) :
  In k (group_keys key df) -> rows_with key k df <> [].
Proof.
  intros H. apply group_keys_in in H. destruct H as (_ & r & Hr & Hk).
  intros E. assert (Hin : In r (rows_with key k df)).
  { apply filter_In. split; [exact Hr|]. apply label_eqb_eq. exact Hk. }
  rewrite E in Hin. destruct Hin.
Qed.

Lemma balance_group_keep_length (target : Z) (group : DataFrame) :
  group <> [] ->
  List.length (DataBalancer.balance_group target true group)
  = Nat.max (List.length group) (Z.to_nat target).
Proof.
  intros Hne. unfold DataBalancer.balance_group.
  destruct (Z.ltb_spec 0 (target - Z.of_nat (List.length group))).
  - rewrite length_app.
    destruct (duplicates_nth group Hne
                (Z.to_nat (target - Z.of_nat (List.length group))) 0) as [-> _].
    lia.
  - lia.
Qed.

Lemma balance_group_keep_nonempty (target : Z) (group : DataFrame) :
  group <> [] -> DataBalancer.balance_group target true group <> [].
Proof.
  intros Hne E. pose proof (balance_group_keep_length target group Hne) as H.
  rewrite E in H. destruct group; [contradiction|]. cbn [List.length] in H. lia.
Qed.

Lemma balance_group_keep_idempotent (target : Z) (group : DataFrame) :
  group <> [] ->
  DataBalancer.balance_group target true
    (DataBalancer.balance_group target true group)
  = DataBalancer.balance_group target true group.
Proof.
  intros Hne. pose proof (balance_group_keep_length target group Hne) as Hlen.
  unfold DataBalancer.balance_group at 1.
  destruct (Z.ltb_spec 0 (target - Z.of_nat (List.length
              (DataBalancer.balance_group target true group)))); [lia|reflexivity].
Qed.

(** Balancing with the default policy keeps the classes of the frame. *)
Lemma group_keys_balanced (df out : DataFrame) (col : column) (target : Z) :
  col <> ColFilename ->
  DataBalancer.balance_by_column df col target true = Some out ->
  group_keys (col_value col) out = group_keys (col_value col) df.
Proof.
  intros Hcol Hout. rewrite (balance_by_column_rows _ _ _ _ _ Hout).
  apply group_keys_of_pieces.
  - apply group_keys_nodup.
  - apply group_keys_sorted.
  - intros k Hk. split; [apply group_keys_in in Hk; apply Hk|]. split.
    + apply balance_group_keep_nonempty, rows_with_nonempty. exact Hk.
    + intros r. apply balance_group_key. exact Hcol.
Qed.

Lemma flat_map_ext_in {A B : Type} (f g : A -> list B) (l : list A) :
  (forall a, In a l -> f a = g a) -> flat_map f l = flat_map g l.
Proof.
  induction l as [|a l IH]; intros H; cbn; [reflexivity|].
  rewrite (H a (or_introl eq_refl)), IH; [reflexivity|].
  intros b Hb. apply H. right. exact Hb.
Qed.

(** X1: after balancing with the default policy the frame has the same
    classes, and the count of every class is raised to the target when it
    was below it and left alone otherwise. *)
Theorem distribution_after_balancing (df out : DataFrame) (col : column)
  (target : Z) :
  col <> ColFilename ->
  DataBalancer.balance_by_column df col target true = Some out ->
  DataBalancer.get_class_distribution out col
  = map (fun kn => (fst kn, Nat.max (snd kn) (Z.to_nat target)))
        (DataBalancer.get_class_distribution df col).
Proof.
  intros Hcol Hout. unfold DataBalancer.get_class_distribution.
  rewrite (group_keys_balanced df out col target Hcol Hout), map_map.
  apply map_ext_in. intros k Hk. cbn [fst snd]. f_equal.
  assert (Hnone : k <> LNone) by (apply group_keys_in in Hk; apply Hk).
  rewrite (balanced_rows_of_class _ _ _ _ _ k Hcol Hnone Hout).
  apply balance_group_keep_length, rows_with_nonempty. exact Hk.
Qed.

Lemma distribution_after_balancing_witness :
  exists out,
    ColSpecies <> ColFilename
    /\ DataBalancer.balance_by_column plain_frame ColSpecies 2 true = Some out
    /\ DataBalancer.get_class_distribution out ColSpecies
       = [(LStr "Potato", 2); (LStr "Tomato", 2)].
Proof.
  destruct (DataBalancer.balance_by_column plain_frame ColSpecies 2 true)
    as [out|] eqn:E; [|vm_compute in E; discriminate E].
  exists out. split; [discriminate|]. split; [reflexivity|].
  rewrite (distribution_after_balancing plain_frame out ColSpecies 2
             ltac:(discriminate) E).
  reflexivity.
Defined.

(** X2: balancing with the default policy is idempotent: balancing a
    balanced frame again with the same column and target returns it
    unchanged. *)
Theorem balancing_is_idempotent (df out : DataFrame) (col : column) (target : Z) :
  col <> ColFilename ->
  DataBalancer.balance_by_column df col target true = Some out ->
  DataBalancer.balance_by_column out col target true = Some out.
Proof.
  intros Hcol Hout. rewrite balance_by_column_closed.
  rewrite (group_keys_balanced df out col target Hcol Hout).
  pose proof (balance_by_column_rows _ _ _ _ _ Hout) as Hrows.
  assert (Hsame : flat_map
                    (fun k => DataBalancer.balance_group target true
                                (rows_with (col_value col) k out))
                    (group_keys (col_value col) df) = out).
  { etransitivity; [|symmetry; exact Hrows]. apply flat_map_ext_in. intros k Hk.
    assert (Hnone : k <> LNone) by (apply group_keys_in in Hk; apply Hk).
    rewrite (balanced_rows_of_class _ _ _ _ _ k Hcol Hnone Hout).
    apply balance_group_keep_idempotent, rows_with_nonempty. exact Hk. }
  rewrite balance_by_column_closed in Hout.
  destruct (group_keys (col_value col) df); [discriminate Hout|].
  rewrite Hsame. reflexivity.
Qed.

Lemma balancing_is_idempotent_witness :
  exists out,
    ColSpecies <> ColFilename
    /\ DataBalancer.balance_by_column plain_frame ColSpecies 3 true = Some out
    /\ DataBalancer.balance_by_column out ColSpecies 3 true = Some out
    /\ List.length out = 6.
Proof.
  destruct (DataBalancer.balance_by_column plain_frame ColSpecies 3 true)
    as [out|] eqn:E; [|vm_compute in E; discriminate E].
  exists out. split; [discriminate|]. split; [reflexivity|]. split.
  - exact (balancing_is_idempotent plain_frame out ColSpecies 3 ltac:(discriminate) E).
  - vm_compute in E. injection E as <-. reflexivity.
Defined.

(** X3: with [keep_above_target = False] and a target that is not
    negative, every class of the frame comes back with exactly [target]
    records, and a class that had that many or more keeps its first
    [target] records in frame order. *)
Theorem downsampling_gives_exactly_target (df out : DataFrame) (col : column)
  (target : Z) (c : label) :
  col <> ColFilename ->
  c <> LNone ->
  (0 <= target)%Z ->
  rows_with (col_value col) c df <> [] ->
  DataBalancer.balance_by_column df col target false = Some out ->
  List.length (rows_with (col_value col) c out) = Z.to_nat target
  /\ ((target <= Z.of_nat (List.length (rows_with (col_value col) c df)))%Z ->
      rows_with (col_value col) c out
      = firstn (Z.to_nat target) (rows_with (col_value col) c df)).
Proof.
  intros Hcol Hc Ht Hne Hout.
  rewrite (balanced_rows_of_class _ _ _ _ _ c Hcol Hc Hout).
  unfold DataBalancer.balance_group, DataBalancer.iloc_to.
  set (group := rows_with (col_value col) c df) in *.
  destruct (Z.ltb_spec 0 (target - Z.of_nat (List.length group))).
  - split; [|lia]. rewrite length_app.
    destruct (duplicates_nth group Hne
                (Z.to_nat (target - Z.of_nat (List.length group))) 0) as [-> _].
    lia.
  - destruct (Z.leb_spec 0 target); [|lia].
    split; [|reflexivity]. rewrite length_firstn. lia.
Qed.

Lemma downsampling_gives_exactly_target_witness :
  exists out,
    ColSpecies <> ColFilename
    /\ LStr "Tomato" <> LNone
    /\ (0 <= 1)%Z
    /\ rows_with (col_value ColSpecies) (LStr "Tomato") plain_frame <> []
    /\ DataBalancer.balance_by_column plain_frame ColSpecies 1 false = Some out
    /\ List.length (rows_with (col_value ColSpecies) (LStr "Tomato") out) = 1
    /\ map filename out = ["c.jpg"; "a.jpg"].
Proof.
  destruct (DataBalancer.balance_by_column plain_frame ColSpecies 1 false)
    as [out|] eqn:E; [|vm_compute in E; discriminate E].
  exists out.
  assert (H1 : ColSpecies <> ColFilename) by discriminate.
  assert (H2 : LStr "Tomato" <> LNone) by discriminate.
  assert (H3 : (0 <= 1)%Z) by lia.
  assert (H4 : rows_with (col_value ColSpecies) (LStr "Tomato") plain_frame <> [])
    by (vm_compute; discriminate).
  repeat (split; [assumption|]). split; [reflexivity|]. split.
  - exact (proj1 (downsampling_gives_exactly_target plain_frame out ColSpecies 1
                    (LStr "Tomato") H1 H2 H3 H4 E)).
  - vm_compute in E. injection E as <-. reflexivity.
Defined.

(** X4: [balance_by_column] raises (the [ValueError] of [pd.concat]) exactly
    when no record of the frame has a value in the chosen column, an empty
    frame included. *)
Theorem balancing_fails_only_without_labels (df : DataFrame) (col : column)
  (target : Z) (keep : bool) :
  DataBalancer.balance_by_column df col target keep = None
  <-> forall r, In r df -> col_value col r = LNone.
Proof.
  rewrite balance_by_column_closed. split.
  - intros H r Hin. destruct (col_value col r) eqn:E; [reflexivity|..];
      (assert (Hk : In (col_value col r) (group_keys (col_value col) df))
        by (apply group_keys_in; split; [rewrite E; discriminate|exists r; auto]);
       destruct (group_keys (col_value col) df); [destruct Hk|discriminate H]).
  - intros H. destruct (group_keys (col_value col) df) as [|k keys] eqn:E;
      [reflexivity|].
    assert (Hk : In k (group_keys (col_value col) df)) by (rewrite E; left; reflexivity).
    apply group_keys_in in Hk. destruct Hk as (Hk & r & Hin & Hr).
    rewrite (H r Hin) in Hr. congruence.
Qed.

(** X5: with the default policy the balanced frame holds every record that
    has a value in the chosen column, holds no record without one, and each
    of its records is a record of the input or a renamed copy of one. *)
Theorem balancing_keeps_labelled_records (df out : DataFrame) (col : column)
  (target : Z) :
  col <> ColFilename ->
  DataBalancer.balance_by_column df col target true = Some out ->
  (forall r, In r df -> col_value col r <> LNone -> In r out)
  /\ (forall d, In d out ->
        col_value col d <> LNone
        /\ exists src, In src df
                       /\ (d = src \/ exists k, d = duplicate_of src k)).
Proof.
  intros Hcol Hout. pose proof (balance_by_column_rows _ _ _ _ _ Hout) as E.
  split.
  - intros r Hin Hr. rewrite E. apply in_flat_map. exists (col_value col r).
    split; [apply group_keys_in; split; [exact Hr|exists r; auto]|].
    unfold DataBalancer.balance_group.
    assert (Hg : In r (rows_with (col_value col) (col_value col r) df))
      by (apply filter_In; split; [exact Hin|apply label_eqb_refl]).
    destruct (_ <? _)%Z; [apply in_or_app; left|]; exact Hg.
  - intros d Hd. rewrite E in Hd. apply in_flat_map in Hd.
    destruct Hd as (k & Hk & Hd). split.
    + rewrite (balance_group_key _ _ _ _ _ _ Hcol Hd).
      apply group_keys_in in Hk. apply Hk.
    + destruct (balance_group_rows _ _ _ _ Hd) as [Hs|(src & n & Hs & ->)].
      * exists d. split; [|left; reflexivity]. apply filter_In in Hs. apply Hs.
      * exists src. split; [apply filter_In in Hs; apply Hs|]. right. exists n.
        reflexivity.
Qed.

Lemma balancing_keeps_labelled_records_witness :
  exists out,
    ColSpecies <> ColFilename
    /\ DataBalancer.balance_by_column plain_frame ColSpecies 3 true = Some out
    /\ (forall r, In r plain_frame -> col_value ColSpecies r <> LNone -> In r out)
    /\ (forall d, In d out ->
          col_value ColSpecies d <> LNone
          /\ exists src, In src plain_frame
                         /\ (d = src \/ exists k, d = duplicate_of src k)).
Proof.
  destruct (DataBalancer.balance_by_column plain_frame ColSpecies 3 true)
    as [out|] eqn:E; [|vm_compute in E; discriminate E].
  exists out. split; [discriminate|]. split; [reflexivity|].
  exact (balancing_keeps_labelled_records plain_frame out ColSpecies 3
           ltac:(discriminate) E).
Defined.


(** ** More on the class mapping *)

(** X6: every label of the frame a mapping was built from is found in it,
    with an index below the number of classes; a value that no record of
    that frame carries is not a key of the mapping. *)
Theorem mapping_covers_exactly_its_frame (df : DataFrame) (col : column)
  (m : class_mapping) :
  YOLOConverter.create_class_mapping df col = Some m ->
  (forall r, In r df ->
             exists i, lookup (col_value col r) m = Some i /\ i < List.length m)
  /\ (forall v, (forall r, In r df -> col_value col r <> v) -> lookup v m = None).
Proof.
  intros Hm.
  destruct (create_class_mapping_spec df col m Hm)
    as (_ & _ & _ & Hin & _ & _ & Hlk).
  cbv zeta in Hin, Hlk. split.
  - intros r Hr.
    assert (Hk : In (col_value col r) (map fst m)) by (apply Hin; exists r; auto).
    apply In_nth_error in Hk. destruct Hk as [i Hi]. exists i.
    split; [apply Hlk; exact Hi|].
    rewrite <- (length_map fst m). apply nth_error_Some. congruence.
  - intros v Hv. destruct (lookup v m) as [i|] eqn:E; [|reflexivity].
    apply Hlk in E. apply nth_error_In, Hin in E.
    destruct E as (r & Hr & Hrv). contradiction (Hv r Hr Hrv).
Qed.

Lemma mapping_covers_exactly_its_frame_witness :
  exists m,
    YOLOConverter.create_class_mapping plain_frame ColDisease = Some m
    /\ (forall r, In r plain_frame ->
                  exists i, lookup (col_value ColDisease r) m = Some i
                            /\ i < List.length m)
    /\ (forall v, (forall r, In r plain_frame -> col_value ColDisease r <> v) ->
                  lookup v m = None)
    /\ m = [(LStr "Blight", 0); (LStr "healthy", 1)].
Proof.
  destruct (YOLOConverter.create_class_mapping plain_frame ColDisease)
    as [m|] eqn:E; [|vm_compute in E; discriminate E].
  exists m. split; [reflexivity|].
  destruct (mapping_covers_exactly_its_frame plain_frame ColDisease m E) as [H1 H2].
  split; [exact H1|]. split; [exact H2|].
  vm_compute in E. injection E as <-. reflexivity.
Defined.

Lemma column_kind (col : column) :
  (forall r, is_none (col_value col r) || is_int (col_value col r) = true)
  \/ (forall r, is_none (col_value col r) || is_str (col_value col r) = true).
Proof.
  destruct col; [right|right|right|right|left]; intros r; cbn;
    try reflexivity.
  - destruct (species r); reflexivity.
  - destruct (disease r); reflexivity.
  - destruct (binary_class r); reflexivity.
Qed.

Lemma nodup_single_value (a : label) (l : list label) :
  NoDup l -> (forall x, In x l -> x = a) -> List.length l <= 1.
Proof.
  intros Hnd H. destruct l as [|x [|y l]]; cbn; try lia.
  inversion Hnd as [|? ? Hnotin _]; subst.
  exfalso. apply Hnotin. left.
  rewrite (H x), (H y); [reflexivity|right; left; reflexivity|left; reflexivity].
Qed.

(** [sorted] meets two kinds of values exactly when the column holds a
    missing value beside a value that is not missing. *)
Lemma unsortable_iff_mixed (df : DataFrame) (col : column) :
  sortable (unique (map (col_value col) df)) = false
  <-> (exists r, In r df /\ col_value col r = LNone)
      /\ (exists r, In r df /\ col_value col r <> LNone).
Proof.
  set (u := unique (map (col_value col) df)).
  assert (Hu : forall v, In v u <-> exists r, In r df /\ col_value col r = v).
  { intros v. unfold u. rewrite unique_in, in_map_iff.
    split; intros (r & H1 & H2); exists r; auto. }
  assert (Hnd : NoDup u) by apply unique_nodup.
  split.
  - intros Es.
    assert (Hnone : exists r, In r df /\ col_value col r = LNone).
    { destruct (existsb is_none u) eqn:Ex.
      - apply existsb_exists in Ex. destruct Ex as (v & Hv & Hn).
        destruct v; try discriminate. apply Hu. exact Hv.
      - exfalso. rewrite sortable_when_one_kind in Es; [discriminate|].
        assert (Hall : forall v, In v u -> is_none v = false).
        { intros v Hv. destruct (is_none v) eqn:E; [|reflexivity].
          assert (existsb is_none u = true)
            by (apply existsb_exists; exists v; auto).
          congruence. }
        destruct (column_kind col) as [Hk|Hk]; [left|right];
          apply forallb_forall; intros v Hv;
          destruct (proj1 (Hu v) Hv) as (r & _ & <-);
          specialize (Hk r); rewrite (Hall _ Hv) in Hk; exact Hk. }
    split; [exact Hnone|].
    destruct (forallb is_none u) eqn:Ea.
    + exfalso. assert (List.length u <= 1).
      { apply (nodup_single_value LNone); [exact Hnd|].
        intros x Hx. rewrite forallb_forall in Ea. specialize (Ea x Hx).
        destruct x; [reflexivity|discriminate|discriminate]. }
      unfold sortable in Es. destruct u as [|a [|b u']]; cbn in *; try discriminate; lia.
    + assert (Hex : exists v, In v u /\ is_none v = false).
      { clear -Ea. induction u as [|a u IH]; [discriminate|].
        cbn in Ea. destruct (is_none a) eqn:E.
        - destruct (IH Ea) as (v & Hv & Hn). exists v. split; [right|]; assumption.
        - exists a. split; [left; reflexivity|exact E]. }
      destruct Hex as (v & Hv & Hn). destruct (proj1 (Hu v) Hv) as (r & Hr & <-).
      exists r. split; [exact Hr|]. intros E. rewrite E in Hn. discriminate.
  - intros [(r1 & Hr1 & E1) (r2 & Hr2 & E2)].
    assert (H1 : In LNone u) by (apply Hu; exists r1; auto).
    assert (H2 : In (col_value col r2) u) by (apply Hu; exists r2; auto).
    assert (Hi : forallb is_int u = false).
    { destruct (forallb is_int u) eqn:E; [|reflexivity].
      rewrite forallb_forall in E. discriminate (E _ H1). }
    assert (Hs : forallb is_str u = false).
    { destruct (forallb is_str u) eqn:E; [|reflexivity].
      rewrite forallb_forall in E. discriminate (E _ H1). }
    assert (Es : sortable u = false).
    { unfold sortable. destruct u as [|a [|b u']].
      - destruct H1.
      - destruct H1 as [Ha|[]]. destruct H2 as [H2|[]]. congruence.
      - rewrite Hi, Hs. reflexivity. }
    exact Es.
Qed.

(** X7: on the filename, class and species columns [create_class_mapping]
    raises (the [TypeError] of [sorted]) exactly when the column holds a
    missing value beside a value that is not missing; and on every column
    a frame in which each record has a value gives a mapping. *)
Theorem mapping_fails_only_on_mixed_column (df : DataFrame) (col : column) :
  (col = ColFilename \/ col = ColClass \/ col = ColSpecies ->
   (YOLOConverter.create_class_mapping df col = None
    <-> (exists r, In r df /\ col_value col r = LNone)
        /\ (exists r, In r df /\ col_value col r <> LNone)))
  /\ ((forall r, In r df -> col_value col r <> LNone) ->
      YOLOConverter.create_class_mapping df col <> None).
Proof.
  split.
  - intros Hcol. rewrite create_class_mapping_unfold.
    assert (Hc : column_cells col df = Some (map (col_value col) df))
      by (destruct Hcol as [->|[->| ->]]; reflexivity).
    rewrite Hc. rewrite <- unsortable_iff_mixed.
    destruct (sortable (unique (map (col_value col) df))); split;
      try discriminate; reflexivity.
  - intros Hall. rewrite create_class_mapping_unfold.
    rewrite (column_cells_present col df Hall).
    destruct (sortable (unique (map (col_value col) df))) eqn:Es; [discriminate|].
    apply unsortable_iff_mixed in Es. destruct Es as [(r & Hr & E) _].
    contradiction (Hall r Hr E).
Qed.

Lemma dict_set_fresh (k : nat) (v : label) (d : list (nat * label)) :
  (forall e, In e d -> fst e <> k) ->
  YOLOConverter.dict_set k v d = d ++ [(k, v)].
Proof.
  induction d as [|[k' v'] d IH]; intros H; cbn; [reflexivity|].
  destruct (Nat.eqb_spec k' k) as [->|_].
  - exfalso. apply (H (k, v')); [left; reflexivity|reflexivity].
  - rewrite IH; [reflexivity|]. intros e He. apply H. right. exact He.
Qed.

Lemma names_of_enumeration (keys : list label) :
  forall (start : nat) (acc : list (nat * label)),
    (forall e, In e acc -> fst e < start) ->
    fold_left (fun d e => YOLOConverter.dict_set (snd e) (fst e) d)
              (combine keys (seq start (List.length keys))) acc
    = acc ++ combine (seq start (List.length keys)) keys.
Proof.
  induction keys as [|k keys IH]; intros start acc Hacc; cbn.
  - symmetry. apply app_nil_r.
  - rewrite dict_set_fresh.
    + rewrite IH.
      * rewrite <- app_assoc. reflexivity.
      * intros e He. apply in_app_iff in He. destruct He as [He|[<-|[]]].
        -- specialize (Hacc e He). lia.
        -- cbn. lia.
    + intros e He. specialize (Hacc e He). lia.
Qed.

(** X8: for a mapping built by [create_class_mapping], the [names] table
    written to dataset.yaml lists the classes by ascending index 0..nc-1,
    [nc] is the number of distinct labels of the frame, and the table is
    the inverse of the mapping. *)
Theorem yaml_names_invert_the_mapping (df : DataFrame) (col : column)
  (m : class_mapping) (dir tr va : string) :
  YOLOConverter.create_class_mapping df col = Some m ->
  let y := YOLOConverter.create_yaml_config dir m tr va in
  yaml_nc y = List.length (unique (map (col_value col) df))
  /\ map fst (yaml_names y) = seq 0 (yaml_nc y)
  /\ map snd (yaml_names y) = sort (unique (map (col_value col) df))
  /\ (forall i c, In (i, c) (yaml_names y) <-> lookup c m = Some i).
Proof.
  intros Hm. cbv zeta. cbn [yaml_nc yaml_names YOLOConverter.create_yaml_config].
  destruct (create_class_mapping_spec df col m Hm)
    as (Hkeys & _ & Hnd & _ & _ & Hlen & Hlk).
  cbv zeta in *.
  assert (Em : m = combine (map fst m) (seq 0 (List.length (map fst m)))).
  { revert Hm. rewrite create_class_mapping_unfold.
    destruct (column_cells _ _); [|discriminate].
    destruct (sortable _); [|discriminate]. intros [= <-].
    rewrite combine_seq_fst. reflexivity. }
  set (keys := map fst m) in *.
  assert (En : YOLOConverter.names_of m = combine (seq 0 (List.length keys)) keys).
  { unfold YOLOConverter.names_of. rewrite Em.
    rewrite (names_of_enumeration keys 0 []); [reflexivity|intros e []]. }
  assert (Hl : List.length m = List.length keys) by (unfold keys; rewrite length_map; reflexivity).
  rewrite En, Hl. split; [rewrite <- Hl; exact Hlen|].
  assert (Hfst : forall (l : list label) a, map fst (combine (seq a (List.length l)) l)
                                            = seq a (List.length l)).
  { induction l as [|x l IH]; intros a; cbn; [reflexivity|]. rewrite IH. reflexivity. }
  assert (Hsnd : forall (l : list label) a, map snd (combine (seq a (List.length l)) l) = l).
  { induction l as [|x l IH]; intros a; cbn; [reflexivity|]. rewrite IH. reflexivity. }
  split; [apply Hfst|]. split; [rewrite Hsnd; exact Hkeys|].
  intros i c. rewrite Hlk.
  assert (Hgen : forall (l : list label) a,
             In (i, c) (combine (seq a (List.length l)) l)
             <-> exists j, i = a + j /\ nth_error l j = Some c).
  { induction l as [|x l IH]; intros a; cbn [combine seq List.length].
    - split; [intros []|intros (j & _ & H); destruct j; discriminate].
    - cbn [In]. rewrite IH. split.
      + intros [[= <- <-]|(j & -> & Hj)].
        * exists 0. split; [lia|reflexivity].
        * exists (S j). split; [lia|exact Hj].
      + intros (j & -> & Hj). destruct j as [|j].
        * left. cbn in Hj. injection Hj as ->. f_equal. lia.
        * right. exists j. split; [lia|exact Hj]. }
  rewrite Hgen. split.
  - intros (j & -> & Hj). exact Hj.
  - intros H. exists i. auto.
Qed.

Lemma yaml_names_invert_the_mapping_witness :
  exists m,
    YOLOConverter.create_class_mapping plain_frame ColSpecies = Some m
    /\ let y := YOLOConverter.create_yaml_config "/out" m "images/train" "images/val" in
       yaml_nc y = List.length (unique (map (col_value ColSpecies) plain_frame))
       /\ map fst (yaml_names y) = seq 0 (yaml_nc y)
       /\ map snd (yaml_names y) = sort (unique (map (col_value ColSpecies) plain_frame))
       /\ (forall i c, In (i, c) (yaml_names y) <-> lookup c m = Some i).
Proof.
  destruct (YOLOConverter.create_class_mapping plain_frame ColSpecies)
    as [m|] eqn:E; [|vm_compute in E; discriminate E].
  exists m. split; [reflexivity|].
  exact (yaml_names_invert_the_mapping plain_frame ColSpecies m
           "/out" "images/train" "images/val" E).
Defined.


(** ** A complete export *)

Lemma filter_disjoint_length {A : Type} (f g : A -> bool) (l : list A) :
  (forall x, f x && g x = false) ->
  List.length (filter f l) + List.length (filter g l)
  = List.length (filter (fun x => f x || g x) l).
Proof.
  intros H. induction l as [|a l IH]; cbn; [reflexivity|].
  specialize (H a). destruct (f a), (g a); cbn in *; try discriminate; lia.
Qed.

(** The groups of a frame share out its rows. *)
Lemma groups_partition_length (key : row -> label) (df : DataFrame) :
  forall keys,
    NoDup keys ->
    List.length (flat_map (fun k => rows_with key k df) keys)
    = List.length (filter (fun r => existsb (label_eqb (key r)) keys) df).
Proof.
  induction keys as [|k keys IH]; intros Hnd; cbn [flat_map existsb].
  - rewrite filter_none; [reflexivity|auto].
  - inversion Hnd as [|? ? Hnotin Hnd']; subst.
    rewrite length_app, (IH Hnd'). unfold rows_with.
    apply filter_disjoint_length. intros r.
    destruct (label_eqb (key r) k) eqn:E; [|reflexivity].
    apply label_eqb_eq in E. subst k. cbn.
    destruct (existsb (label_eqb (key r)) keys) eqn:Ex; [|reflexivity].
    apply existsb_exists in Ex. destruct Ex as (k' & Hk' & Ek').
    apply label_eqb_eq in Ek'. subst k'. contradiction.
Qed.

Lemma groups_of_filenames_length (df : DataFrame) :
  List.length (flat_map (fun k => rows_with (col_value ColFilename) k df)
                        (group_keys (col_value ColFilename) df))
  = List.length df.
Proof.
  rewrite groups_partition_length by apply group_keys_nodup.
  rewrite filter_all; [reflexivity|]. intros r Hr.
  apply existsb_exists. exists (col_value ColFilename r).
  split; [|apply label_eqb_refl].
  apply group_keys_in. split; [discriminate|]. exists r. auto.
Qed.

Lemma label_of_row_ready (m : class_mapping) (col : column) (r : row) :
  lookup (col_value col r) m <> None ->
  width r <> 0%Z -> height r <> 0%Z ->
  exists l, YOLOConverter.label_of_row m col r = inr l.
Proof.
  intros Hl Hw Hh. unfold YOLOConverter.label_of_row, YOLOConverter.convert_bbox_to_yolo.
  destruct (lookup (col_value col r) m) as [i|]; [|contradiction].
  destruct (Z.eqb_spec (width r) 0); [contradiction|].
  destruct (Z.eqb_spec (height r) 0); [contradiction|].
  cbn. eexists. reflexivity.
Qed.

Lemma write_rows_ready (m : class_mapping) (col : column) (path : string)
  (rows : DataFrame) :
  (forall r, In r rows -> exists l, YOLOConverter.label_of_row m col r = inr l) ->
  exists lines,
    YOLOConverter.write_rows m col path rows = (map (WriteLine path) lines, None)
    /\ List.length lines = List.length rows.
Proof.
  intros H. destruct (write_rows_spec m col path rows) as (lines & Hev & Hres).
  destruct (YOLOConverter.write_rows m col path rows) as [evs res].
  cbn [fst snd] in *. subst evs. destruct res as [e|].
  - destruct Hres as (_ & r & Hr & He). destruct (H r Hr) as [l Hl]. congruence.
  - exists lines. split; [reflexivity|]. symmetry. exact (Forall2_length Hres).
Qed.

Lemma count_writes_lines (path : string) (lines : list label_line) :
  List.length (filter is_write (map (WriteLine path) lines)) = List.length lines.
Proof. induction lines as [|l lines IH]; cbn; [reflexivity|]. rewrite IH. reflexivity. Qed.

(** What a group of a ready frame leaves: it is exported, its image is
    copied and one line per row is written. *)
Lemma group_run_ready (env : export_env) (m : class_mapping) (col : column)
  (df : DataFrame) (k : label) :
  export_ready env m col df ->
  In k (group_keys (col_value ColFilename) df) ->
  let g := (k, rows_with (col_value ColFilename) k df) in
  snd (group_run env m col g) = Exported
  /\ image_copied (YOLOConverter.group_name k) (fst (group_run env m col g)) = true
  /\ List.length (filter is_write (fst (group_run env m col g)))
     = List.length (rows_with (col_value ColFilename) k df).
Proof.
  intros Hready Hk. cbv zeta.
  apply group_keys_in in Hk. destruct Hk as (_ & r & Hr & Hkey).
  cbn in Hkey. subst k.
  unfold group_run. cbn [fst snd YOLOConverter.group_name].
  destruct (Hready r Hr) as (Hex & Hc & Ho & _).
  unfold YOLOConverter.export_group. rewrite Hex, Hc, Ho. cbn [negb].
  destruct (write_rows_ready m col (YOLOConverter.label_path (filename r))
              (rows_with (col_value ColFilename) (LStr (filename r)) df))
    as (lines & -> & Hlen).
  { intros r' Hr'. apply filter_In in Hr'. destruct Hr' as [Hr' _].
    destruct (Hready r' Hr') as (_ & _ & _ & Hl & Hw & Hh).
    apply label_of_row_ready; assumption. }
  cbn [fst snd]. split; [reflexivity|]. split.
  - cbn. rewrite String.eqb_refl. reflexivity.
  - cbn [filter is_write]. rewrite count_writes_lines. exact Hlen.
Qed.

Lemma flat_map_filter_length {A B : Type} (f : A -> list B) (p : B -> bool)
  (g : A -> nat) (l : list A) :
  (forall a, In a l -> List.length (filter p (f a)) = g a) ->
  List.length (filter p (flat_map f l)) = list_sum (map g l).
Proof.
  induction l as [|a l IH]; intros H; cbn; [reflexivity|].
  rewrite filter_app, length_app, (H a (or_introl eq_refl)), IH; [reflexivity|].
  intros b Hb. apply H. right. exact Hb.
Qed.

Lemma flat_map_length_sum {A B : Type} (f : A -> list B) (l : list A) :
  List.length (flat_map f l) = list_sum (map (fun a => List.length (f a)) l).
Proof.
  induction l as [|a l IH]; cbn; [reflexivity|]. rewrite length_app, IH. reflexivity.
Qed.

Lemma groups_of_frame (df : DataFrame) (g : label * DataFrame) :
  In g (groupby (col_value ColFilename) df) ->
  exists k, In k (group_keys (col_value ColFilename) df)
            /\ g = (k, rows_with (col_value ColFilename) k df).
Proof.
  intros Hin. unfold groupby in Hin. apply in_map_iff in Hin.
  destruct Hin as (k & <- & Hk). exists k. auto.
Qed.

(** The counters and the number of lines of the export of a ready frame. *)
Lemma export_counts_of_ready_frame (df : DataFrame) (env : export_env)
  (m : class_mapping) (col : column) :
  export_ready env m col df ->
  YOLOConverter.export_to_yolo df env m col
  = (distinct_filenames df, 0,
     flat_map (fun g => fst (group_run env m col g)) (groupby (col_value ColFilename) df))
  /\ List.length
       (filter is_write
          (flat_map (fun g => fst (group_run env m col g))
                    (groupby (col_value ColFilename) df)))
     = List.length df.
Proof.
  intros Hready. rewrite export_to_yolo_closed. cbv zeta.
  set (groups := groupby (col_value ColFilename) df).
  assert (Hexp : forall g, In g groups -> is_exported (snd (group_run env m col g)) = true).
  { intros g Hin. destruct (groups_of_frame df g Hin) as (k & Hk & ->).
    destruct (group_run_ready env m col df k Hready Hk) as (-> & _). reflexivity. }
  split.
  - rewrite (filter_all _ groups Hexp).
    rewrite (filter_none (fun g => negb (is_exported (snd (group_run env m col g)))) groups).
    + unfold groups. rewrite groupby_filename_length. reflexivity.
    + intros g Hin. rewrite (Hexp g Hin). reflexivity.
  - rewrite (flat_map_filter_length _ is_write (fun g => List.length (snd g)) groups).
    + unfold groups, groupby. rewrite map_map. cbn [snd].
      rewrite <- flat_map_length_sum. apply groups_of_filenames_length.
    + intros g Hin. destruct (groups_of_frame df g Hin) as (k & Hk & ->).
      destruct (group_run_ready env m col df k Hready Hk) as (_ & _ & Hlen). exact Hlen.
Qed.

(** *** The label files of a complete export *)

Lemma file_untouched (path : string) (evs : list event) :
  (forall e st, In e evs -> file_step path st e = st) ->
  forall st, fold_left (file_step path) evs st = st.
Proof.
  induction evs as [|e evs IH]; intros H st; cbn [fold_left]; [reflexivity|].
  rewrite (H e st (or_introl eq_refl)). apply IH.
  intros e' st' He'. apply H. right. exact He'.
Qed.

Lemma file_after_lines (path : string) (lines : list label_line) :
  forall acc,
    fold_left (file_step path) (map (WriteLine path) lines) (Some acc)
    = Some (acc ++ lines).
Proof.
  induction lines as [|l lines IH]; intros acc; cbn [map fold_left].
  - rewrite app_nil_r. reflexivity.
  - cbn [file_step]. rewrite String.eqb_refl. cbn [option_map].
    rewrite IH, <- app_assoc. reflexivity.
Qed.

(** The events of a group touch no label file but the one of the group. *)
Lemma export_group_other_file (env : export_env) (m : class_mapping) (col : column)
  (f : string) (group : DataFrame) (path : string) :
  YOLOConverter.label_path f <> path ->
  forall e st,
    In e (fst (YOLOConverter.export_group env m col f group)) ->
    file_step path st e = st.
Proof.
  intros Hp e st. apply String.eqb_neq in Hp.
  unfold YOLOConverter.export_group. cbv zeta.
  destruct (negb (exists_in (source env) (YOLOConverter.source_name f))); [intros []|].
  destruct (copy_fails env f); [intros []|].
  destruct (open_fails env (YOLOConverter.label_path f)).
  - cbn. intros [<-|[]]. reflexivity.
  - destruct (write_rows_spec m col (YOLOConverter.label_path f) group)
      as (lines & Hev & _).
    destruct (YOLOConverter.write_rows m col (YOLOConverter.label_path f) group)
      as [evs res].
    cbn [fst] in *. subst evs. intros [<-|[<-|He]].
    + reflexivity.
    + cbn [file_step]. rewrite Hp. reflexivity.
    + apply in_map_iff in He. destruct He as (l & <- & _).
      cbn [file_step]. rewrite Hp. reflexivity.
Qed.

(** The events of a group of a ready frame: the copy, the label file
    opened, and the line of every row. *)
Lemma group_events_ready (env : export_env) (m : class_mapping) (col : column)
  (df : DataFrame) (r : row) :
  export_ready env m col df ->
  In r df ->
  let rows := rows_with (col_value ColFilename) (LStr (filename r)) df in
  exists lines,
    fst (group_run env m col (LStr (filename r), rows))
    = CopyImage (YOLOConverter.source_name (filename r)) (filename r)
        :: OpenLabel (YOLOConverter.label_path (filename r))
        :: map (WriteLine (YOLOConverter.label_path (filename r))) lines
    /\ Forall2 (fun r' l => YOLOConverter.label_of_row m col r' = inr l) rows lines.
Proof.
  intros Hready Hr. cbv zeta.
  unfold group_run. cbn [fst snd YOLOConverter.group_name].
  destruct (Hready r Hr) as (Hex & Hc & Ho & _).
  unfold YOLOConverter.export_group. rewrite Hex, Hc, Ho. cbn [negb].
  set (rows := rows_with (col_value ColFilename) (LStr (filename r)) df).
  destruct (write_rows_spec m col (YOLOConverter.label_path (filename r)) rows)
    as (lines & Hev & Hres).
  destruct (YOLOConverter.write_rows m col (YOLOConverter.label_path (filename r)) rows)
    as [evs res].
  cbn [fst snd] in *. subst evs. destruct res as [e|].
  - exfalso. destruct Hres as (_ & r' & Hr' & He).
    apply filter_In in Hr'. destruct Hr' as [Hr' _].
    destruct (Hready r' Hr') as (_ & _ & _ & Hl & Hw & Hh).
    destruct (label_of_row_ready m col r' Hl Hw Hh) as [l El]. congruence.
  - exists lines. split; [reflexivity|exact Hres].
Qed.

(** After the export of a ready frame whose images have label files of
    their own, the label file of every image holds the lines of its
    records. *)
Lemma label_files_of_ready_frame (df : DataFrame) (env : export_env)
  (m : class_mapping) (col : column) (r : row) :
  export_ready env m col df ->
  distinct_label_files df ->
  In r df ->
  label_file_complete m col df
    (flat_map (fun g => fst (group_run env m col g)) (groupby (col_value ColFilename) df))
    r.
Proof.
  intros Hready Hdist Hr. unfold label_file_complete.
  destruct (group_events_ready env m col df r Hready Hr) as (lines & Hev & Hlines).
  cbv zeta in Hev, Hlines.
  exists lines. split; [|exact Hlines].
  assert (Hk : In (LStr (filename r)) (group_keys (col_value ColFilename) df)).
  { apply group_keys_in. split; [discriminate|]. exists r. auto. }
  destruct (in_split _ _ Hk) as (k1 & k2 & Hkeys).
  pose proof (group_keys_nodup (col_value ColFilename) df) as Hnd.
  rewrite Hkeys in Hnd. apply NoDup_remove_2 in Hnd.
  unfold label_file, groupby. rewrite Hkeys, map_app, flat_map_app, fold_left_app.
  cbn [map flat_map]. rewrite fold_left_app.
  rewrite (file_untouched _ (flat_map _ (map _ k2))).
  - rewrite Hev. cbn [fold_left file_step]. rewrite String.eqb_refl.
    apply (file_after_lines _ lines []).
  - intros e st He. apply in_flat_map in He. destruct He as (g & Hg & He).
    apply in_map_iff in Hg. destruct Hg as (k' & <- & Hk').
    assert (Hk'' : In k' (group_keys (col_value ColFilename) df))
      by (rewrite Hkeys; apply in_or_app; right; right; exact Hk').
    apply group_keys_in in Hk''. destruct Hk'' as (_ & r' & Hr' & Ek'). subst k'.
    unfold group_run in He. cbn [fst snd col_value YOLOConverter.group_name] in He.
    refine (export_group_other_file env m col _ _ _ _ e st He).
    intros Hp. apply Hnd. apply in_or_app. right.
    cbn [col_value] in Hk'. rewrite (Hdist r' r Hr' Hr Hp) in Hk'. exact Hk'.
Qed.

(** After the export of a ready frame the image of every record has been
    copied. *)
Lemma images_of_ready_frame (df : DataFrame) (env : export_env)
  (m : class_mapping) (col : column) (r : row) :
  export_ready env m col df ->
  In r df ->
  image_copied (filename r)
    (flat_map (fun g => fst (group_run env m col g)) (groupby (col_value ColFilename) df))
  = true.
Proof.
  intros Hready Hr. apply existsb_exists.
  pose proof (groupby_filename_in df r Hr) as Hin.
  assert (Hk : In (LStr (filename r)) (group_keys (col_value ColFilename) df)).
  { apply group_keys_in. split; [discriminate|]. exists r. auto. }
  destruct (group_run_ready env m col df _ Hready Hk) as (_ & Hc & _).
  cbn [YOLOConverter.group_name] in Hc. apply existsb_exists in Hc.
  destruct Hc as (e & He & Hce). exists e. split; [|exact Hce].
  apply in_flat_map. eexists. split; [exact Hin|exact He].
Qed.

(** Two images whose names differ in the extension alone share the label
    file, and the second group empties what the first has written: the
    file is left with the line of the second record only. *)
Lemma same_stem_images_share_a_label_file :
  let env := mkEnv (fun f => if String.eqb f "a.jpg" || String.eqb f "a.png"
                             then Image 100 200 else Missing)
                   (fun _ => false) (fun _ => false) in
  let m := [(LStr "Potato", 0); (LStr "Tomato", 1)] in
  export_ready env m ColSpecies same_stem_frame
  /\ fst (fst (YOLOConverter.export_to_yolo same_stem_frame env m ColSpecies)) = 2
  /\ (exists l, label_file "a.txt"
                  (snd (YOLOConverter.export_to_yolo same_stem_frame env m ColSpecies))
                = Some [l] /\ cls_idx l = 0)
  /\ ~ distinct_label_files same_stem_frame.
Proof.
  cbv zeta. split; [|split; [|split]].
  - intros r Hr. cbn in Hr.
    repeat (destruct Hr as [<-|Hr]; [repeat split; discriminate|]). destruct Hr.
  - reflexivity.
  - eexists. split; [vm_compute; reflexivity|reflexivity].
  - intros H.
    assert (E : "a.jpg" = "a.png").
    { apply (H (mkRow "a.jpg" "Tomato" 10 50 20 80 100 200 (Some "Tomato") (Some "healthy") None)
               (mkRow "a.png" "Potato" 5 25 5 45 100 200 (Some "Potato") (Some "healthy") None));
        [left; reflexivity|right; left; reflexivity|reflexivity]. }
    discriminate E.
Qed.

(** X9: when every image is found, no copy or label file fails, every label
    is a key of the mapping, no width or height is zero and no two file
    names differ in the extension alone, the export skips nothing: it
    exports one image per distinct file name, copies the image of every
    record, and leaves for every image a label file that holds the lines
    of the records of that image, one per record and in their order. *)
Theorem ready_frame_is_exported_in_full (df : DataFrame) (env : export_env)
  (m : class_mapping) (col : column) :
  export_ready env m col df ->
  distinct_label_files df ->
  exists log,
    YOLOConverter.export_to_yolo df env m col = (distinct_filenames df, 0, log)
    /\ (forall r, In r df -> image_copied (filename r) log = true)
    /\ (forall r, In r df -> label_file_complete m col df log r).
Proof.
  intros Hready Hdist.
  destruct (export_counts_of_ready_frame df env m col Hready) as [Hcount _].
  eexists. split; [exact Hcount|]. split.
  - intros r Hr. apply existsb_exists.
    pose proof (groupby_filename_in df r Hr) as Hin.
    assert (Hk : In (LStr (filename r)) (group_keys (col_value ColFilename) df)).
    { apply group_keys_in. split; [discriminate|]. exists r. auto. }
    destruct (group_run_ready env m col df _ Hready Hk) as (_ & Hc & _).
    cbn [YOLOConverter.group_name] in Hc. apply existsb_exists in Hc.
    destruct Hc as (e & He & Hce). exists e. split; [|exact Hce].
    apply in_flat_map. eexists. split; [exact Hin|exact He].
  - intros r Hr. exact (label_files_of_ready_frame df env m col r Hready Hdist Hr).
Qed.

Lemma ready_frame_is_exported_in_full_witness :
  let m := [(LStr "Potato", 0); (LStr "Tomato", 1)] in
  export_ready sample_env m ColSpecies plain_frame
  /\ distinct_label_files plain_frame
  /\ exists log,
       YOLOConverter.export_to_yolo plain_frame sample_env m ColSpecies
       = (distinct_filenames plain_frame, 0, log)
       /\ (forall r, In r plain_frame -> image_copied (filename r) log = true)
       /\ (forall r, In r plain_frame ->
                     label_file_complete m ColSpecies plain_frame log r).
Proof.
  intros m.
  assert (H : export_ready sample_env m ColSpecies plain_frame).
  { intros r Hr. cbn in Hr.
    repeat (destruct Hr as [<-|Hr]; [repeat split; discriminate|]). destruct Hr. }
  assert (Hd : distinct_label_files plain_frame).
  { intros r r' Hr Hr'. cbn in Hr, Hr'.
    repeat (destruct Hr as [<-|Hr]);
      repeat (destruct Hr' as [<-|Hr']);
      try contradiction; intros E; try reflexivity; vm_compute in E; discriminate E. }
  split; [exact H|]. split; [exact Hd|].
  exact (ready_frame_is_exported_in_full plain_frame sample_env m ColSpecies H Hd).
Defined.


(** ** Duplicates and their source image *)

Lemma mem_char_app (c : ascii) (a b : string) :
  mem_char c (a ++ b) = mem_char c a || mem_char c b.
Proof.
  induction a as [|x a IH]; cbn; [reflexivity|]. rewrite IH. apply orb_assoc.
Qed.

Lemma append_length (a b : string) :
  String.length (a ++ b) = String.length a + String.length b.
Proof. induction a as [|x a IH]; cbn; [reflexivity|]. rewrite IH. reflexivity. Qed.

Lemma split_slash_flat (s : string) :
  forall cur, mem_char "/" s = false ->
              PyPath.split_slash cur s = [(cur ++ s)%string].
Proof.
  induction s as [|c s IH]; intros cur H; cbn [PyPath.split_slash].
  - rewrite append_nil_r. reflexivity.
  - cbn in H. apply orb_false_iff in H. destruct H as [Hc Hs].
    rewrite Hc, (IH _ Hs), append_assoc. reflexivity.
Qed.

Lemma name_of_flat (s : string) :
  mem_char "/" s = false -> s <> "." -> PyPath.name s = s.
Proof.
  intros H Hd. unfold PyPath.name, PyPath.parts.
  rewrite (split_slash_flat s "" H). cbn [append filter PyPath.keep_part].
  unfold PyPath.keep_part. destruct (String.eqb_spec s ""); [subst; reflexivity|].
  destruct (String.eqb_spec s "."); [contradiction|]. reflexivity.
Qed.

Lemma digit_is_no_separator (c : ascii) (x : ascii) :
  PyStr.is_digit c = true -> PyStr.is_digit x = false -> Ascii.eqb c x = false.
Proof.
  intros Hc Hx. destruct (Ascii.eqb_spec c x); [subst; congruence|reflexivity].
Qed.

Lemma digits_without (x : ascii) (d : string) :
  PyStr.is_digit x = false -> all_digits d = true -> mem_char x d = false.
Proof.
  intros Hx. induction d as [|c d IH]; cbn; [reflexivity|].
  intros H. apply andb_true_iff in H. destruct H as [Hc Hd].
  rewrite (digit_is_no_separator c x Hc Hx), (IH Hd). reflexivity.
Qed.

Lemma rfind_dot_app (a b : string) (i : nat) :
  PyPath.rfind_dot b = Some i ->
  PyPath.rfind_dot (a ++ b) = Some (String.length a + i).
Proof.
  intros H. induction a as [|c a IH]; cbn [append PyPath.rfind_dot String.length];
    [exact H|].
  rewrite IH. reflexivity.
Qed.

Lemma rfind_dot_none (s : string) :
  mem_char "." s = false -> PyPath.rfind_dot s = None.
Proof.
  induction s as [|c s IH]; cbn; [reflexivity|]. intros H.
  apply orb_false_iff in H. destruct H as [Hc Hs]. rewrite (IH Hs), Hc. reflexivity.
Qed.

Lemma rfind_dot_of_tail (s : string) :
  forall i, PyPath.rfind_dot s = Some i ->
            PyPath.rfind_dot (String.substring i (String.length s - i) s) = Some 0.
Proof.
  induction s as [|c s IH]; intros i; cbn [PyPath.rfind_dot]; [discriminate|].
  destruct (PyPath.rfind_dot s) as [j|] eqn:Ej.
  - intros [= <-]. cbn [String.length Nat.sub String.substring]. apply IH. reflexivity.
  - destruct (Ascii.eqb c ".") eqn:Ec; [|discriminate]. intros [= <-].
    rewrite Nat.sub_0_r, substring_all. cbn [PyPath.rfind_dot]. rewrite Ej, Ec.
    reflexivity.
Qed.

Lemma substring_tail_length (s : string) :
  forall i, i <= String.length s ->
            String.length (String.substring i (String.length s - i) s)
            = String.length s - i.
Proof.
  induction s as [|c s IH]; intros i Hi.
  - destruct i; reflexivity.
  - destruct i as [|i].
    + rewrite Nat.sub_0_r, substring_all. reflexivity.
    + cbn [String.length Nat.sub String.substring]. apply IH. cbn in Hi. lia.
Qed.

Lemma substring_app_right (a b : string) :
  String.substring (String.length a) (String.length b) (a ++ b) = b.
Proof.
  induction a as [|c a IH]; cbn [String.length append].
  - apply substring_all.
  - cbn [String.substring]. exact IH.
Qed.

(** The suffix of a text that ends with a suffix of at least two
    characters. *)
Lemma suffix_of_flat_app (pre suf : string) :
  mem_char "/" (pre ++ suf) = false ->
  pre <> EmptyString ->
  PyPath.rfind_dot suf = Some 0 ->
  2 <= String.length suf ->
  PyPath.suffix (pre ++ suf) = suf.
Proof.
  intros Hflat Hpre Hdot Hlen.
  assert (Hnd : (pre ++ suf)%string <> ".").
  { intros E. apply (f_equal String.length) in E. rewrite append_length in E.
    cbn in E. lia. }
  unfold PyPath.suffix. rewrite (name_of_flat _ Hflat Hnd).
  unfold PyPath.suffix_start. rewrite (rfind_dot_app pre suf 0 Hdot), Nat.add_0_r.
  rewrite append_length.
  assert (Hp : 0 < String.length pre) by (destruct pre; [contradiction|cbn; lia]).
  destruct (Nat.ltb_spec 0 (String.length pre)); [|lia].
  destruct (Nat.ltb_spec (String.length pre)
              (String.length pre + String.length suf - 1)); [|lia].
  cbn [andb].
  replace (String.length pre + String.length suf - String.length pre)
    with (String.length suf) by lia.
  apply substring_app_right.
Qed.

Lemma suffix_facts (f : string) :
  PyPath.suffix f <> EmptyString ->
  PyPath.rfind_dot (PyPath.suffix f) = Some 0
  /\ 2 <= String.length (PyPath.suffix f).
Proof.
  unfold PyPath.suffix, PyPath.suffix_start.
  destruct (PyPath.rfind_dot (PyPath.name f)) as [i|] eqn:Ei; [|contradiction].
  destruct (Nat.ltb_spec 0 i); cbn [andb]; [|contradiction].
  destruct (Nat.ltb_spec i (String.length (PyPath.name f) - 1)); [|contradiction].
  intros _. split; [apply rfind_dot_of_tail; exact Ei|].
  rewrite substring_tail_length; lia.
Qed.

Lemma suffix_without_dot (s : string) :
  mem_char "." s = false -> PyPath.suffix s = EmptyString.
Proof.
  intros H. unfold PyPath.suffix, PyPath.suffix_start.
  destruct (PyPath.rfind_dot (PyPath.name s)) as [i|] eqn:E; [|reflexivity].
  exfalso. destruct (name_infix s) as (pre & post & Es).
  rewrite Es, !mem_char_app in H.
  apply orb_false_iff in H. destruct H as [_ H].
  apply orb_false_iff in H. destruct H as [H _].
  rewrite (rfind_dot_none _ H) in E. discriminate.
Qed.

(** The source the export resolves for the duplicate of a plain file name
    is that file name. *)
Lemma source_name_of_duplicate (f : string) (k : nat) :
  plain_name f ->
  YOLOConverter.source_name (DataBalancer.dup_filename f k) = f.
Proof.
  intros (Hm & Hflat & Hshape). unfold YOLOConverter.source_name.
  rewrite dup_filename_has_marker.
  assert (Hnd : f <> ".").
  { intros ->. destruct Hshape as [H|H]; [apply H; reflexivity|discriminate H]. }
  pose proof (name_of_flat f Hflat Hnd) as Hname.
  pose proof (stem_suffix f) as Hsplit. rewrite Hname in Hsplit.
  assert (Hparts : mem_char "/" (PyPath.stem f) = false
                   /\ mem_char "/" (PyPath.suffix f) = false).
  { rewrite Hsplit, mem_char_app in Hflat. apply orb_false_iff in Hflat. exact Hflat. }
  destruct Hparts as [Hst Hsu].
  unfold DataBalancer.dup_filename.
  rewrite before_first_marker by (apply stem_without_marker; exact Hm).
  set (pre := (PyPath.stem f ++ PyStr.dup_marker ++ PyStr.str_of_nat k)%string).
  assert (Hassoc : (PyPath.stem f ++ PyStr.dup_marker ++ PyStr.str_of_nat k
                      ++ PyPath.suffix f)%string = (pre ++ PyPath.suffix f)%string).
  { unfold pre. rewrite !append_assoc. reflexivity. }
  rewrite Hassoc.
  assert (Hpre_flat : mem_char "/" pre = false).
  { unfold pre, PyStr.str_of_nat. rewrite !mem_char_app, Hst.
    rewrite (digits_without "/" _ eq_refl (string_of_uint_digits _)). reflexivity. }
  assert (Hpre_ne : pre <> EmptyString).
  { unfold pre. intros E. apply (f_equal String.length) in E.
    rewrite !append_length in E. cbn in E. lia. }
  destruct Hshape as [Hsuf|Hdot].
  - destruct (suffix_facts f Hsuf) as [Hd Hl].
    rewrite suffix_of_flat_app; [symmetry; exact Hsplit|..]; try assumption.
    rewrite mem_char_app, Hpre_flat, Hsu. reflexivity.
  - assert (Hs0 : PyPath.suffix f = EmptyString) by (apply suffix_without_dot; exact Hdot).
    rewrite Hs0 in *. rewrite append_nil_r in *.
    rewrite suffix_without_dot; [rewrite append_nil_r; symmetry; exact Hsplit|].
    unfold pre, PyStr.str_of_nat. rewrite !mem_char_app. rewrite <- Hsplit, Hdot.
    rewrite (digits_without "." _ eq_refl (string_of_uint_digits _)). reflexivity.
Qed.

Lemma source_name_of_plain (f : string) :
  plain_name f -> YOLOConverter.source_name f = f.
Proof.
  intros (Hm & _). unfold YOLOConverter.source_name. rewrite Hm. reflexivity.
Qed.

Lemma balanced_rows_origin (df out : DataFrame) (col : column) (target : Z)
  (keep : bool) (d : row) :
  DataBalancer.balance_by_column df col target keep = Some out ->
  In d out ->
  exists src, In src df /\ (d = src \/ exists k, d = duplicate_of src k).
Proof.
  intros Hout Hd. rewrite (balance_by_column_rows _ _ _ _ _ Hout) in Hd.
  apply in_flat_map in Hd. destruct Hd as (k & _ & Hd).
  destruct (balance_group_rows _ _ _ _ Hd) as [Hs|(src & n & Hs & ->)].
  - exists d. split; [apply filter_In in Hs; apply Hs|left; reflexivity].
  - exists src. split; [apply filter_In in Hs; apply Hs|]. right. exists n. reflexivity.
Qed.

(** X10: the duplicates made by the balancer are exported from the images
    of the records they copy: when the file names of a frame have no
    directory part, no marker, and an extension or no dot at all, the
    source image the export resolves for any record of the balanced frame
    is the file of a record of the frame before balancing. *)
Theorem balanced_records_resolve_to_original_images (df out : DataFrame)
  (col : column) (target : Z) (keep : bool) :
  (forall r, In r df -> plain_name (filename r)) ->
  DataBalancer.balance_by_column df col target keep = Some out ->
  forall d, In d out ->
    exists src, In src df
                /\ YOLOConverter.source_name (filename d) = filename src
                /\ (d = src \/ exists k, d = duplicate_of src k).
Proof.
  intros Hplain Hout d Hd.
  destruct (balanced_rows_origin df out col target keep d Hout Hd)
    as (src & Hs & Hor).
  exists src. split; [exact Hs|]. split; [|exact Hor].
  destruct Hor as [->|(k & ->)].
  - apply source_name_of_plain, Hplain. exact Hs.
  - cbn [duplicate_of set_filename filename].
    apply source_name_of_duplicate, Hplain. exact Hs.
Qed.

Lemma balanced_records_resolve_to_original_images_witness :
  exists out,
    (forall r, In r plain_frame -> plain_name (filename r))
    /\ DataBalancer.balance_by_column plain_frame ColSpecies 3 true = Some out
    /\ map filename out
       = ["c.jpg"; "c_dup0.jpg"; "c_dup1.jpg"; "a.jpg"; "b.jpg"; "a_dup0.jpg"]
    /\ forall d, In d out ->
         exists src, In src plain_frame
                     /\ YOLOConverter.source_name (filename d) = filename src
                     /\ (d = src \/ exists k, d = duplicate_of src k).
Proof.
  assert (Hplain : forall r, In r plain_frame -> plain_name (filename r)).
  { intros r Hr. cbn in Hr.
    repeat (destruct Hr as [<-|Hr];
            [split; [reflexivity|split; [reflexivity|left; discriminate]]|]).
    destruct Hr. }
  destruct (DataBalancer.balance_by_column plain_frame ColSpecies 3 true)
    as [out|] eqn:E; [|vm_compute in E; discriminate E].
  exists out. split; [exact Hplain|]. split; [reflexivity|]. split.
  - vm_compute in E. injection E as <-. reflexivity.
  - exact (balanced_records_resolve_to_original_images plain_frame out ColSpecies 3
             true Hplain E).
Defined.

(** ** A whole run *)

Lemma validated_rows_exist (fs : folder) (df out : DataFrame) (r : row) :
  DataValidator.validate_and_fix fs df = Some out ->
  In r out -> exists_in fs (filename r) = true.
Proof.
  intros Hout Hin.
  destruct (validate_and_fix_some fs df out Hout) as (fixed & _ & _ & _ & ->).
  apply filter_In in Hin. apply Hin.
Qed.

(** A prepared training record has its image on disk, a width and a height
    that are not zero, and the file name of a record of the table. *)
Lemma prepared_rows_files (cfg : PipelineConfig) (raw prepared : splits) :
  (forall f w h, train_images_dir cfg f = Image w h -> w <> 0 /\ h <> 0)%Z ->
  Pipeline.load_and_prepare_data cfg raw = Some prepared ->
  forall r, In r (df_train prepared) ->
    exists_in (train_images_dir cfg) (filename r) = true
    /\ width r <> 0%Z /\ height r <> 0%Z
    /\ exists r0, In r0 (df_train raw) /\ filename r = filename r0.
Proof.
  intros Hdisk. unfold Pipeline.load_and_prepare_data, DataLoader.load_and_clean.
  destruct (DataValidator.validate_and_fix (train_images_dir cfg) _) as [tr|] eqn:Etr;
    [|discriminate].
  destruct (DataValidator.validate_and_fix (test_images_dir cfg) _) as [te|];
    [|discriminate].
  intros [= <-] r Hin. cbn [df_train] in Hin.
  pose proof (validated_rows_exist _ _ _ _ Etr Hin) as Hex.
  destruct (validated_rows _ _ _ _ Etr Hin) as (r1 & Hr1 & Hfix).
  split; [exact Hex|].
  assert (Hname : exists r0, In r0 (df_train raw) /\ filename r = filename r0).
  { rewrite (fix_row_filename _ _ _ Hfix).
    unfold FeatureExtractor.add_features, DataLoader.clean_class_names in Hr1.
    rewrite map_map in Hr1. apply in_map_iff in Hr1.
    destruct Hr1 as (r0 & <- & Hr0). exists r0. split; [exact Hr0|reflexivity]. }
  destruct (fix_row_kept _ _ _ Hfix Hex) as [(w & h & Hf & Hw & Hh)|(_ & Hw & Hh)].
  - destruct (Hdisk _ _ _ Hf). subst. auto.
  - assert (E : r = r1).
    { destruct (fix_row_kept _ _ _ Hfix Hex) as [(w & h & Hf & _)|(E & _)]; [|exact E].
      unfold DataValidator.fix_row in Hfix.
      destruct (Z.eqb_spec (width r1) 0); [contradiction|].
      destruct (Z.eqb_spec (height r1) 0); [contradiction|].
      cbn in Hfix. congruence. }
    subst r1. auto.
Qed.

Lemma filtered_rows_files (p : pipeline) (cfg : PipelineConfig) (s : splits) (r : row) :
  In r (df_train (Pipeline.filter_data p cfg s)) ->
  exists r0, In r0 (df_train s)
             /\ filename r = filename r0 /\ width r = width r0 /\ height r = height r0.
Proof.
  destruct p; cbn [Pipeline.filter_data df_train]; intros Hin.
  - apply in_map_iff in Hin. destruct Hin as (r0 & <- & Hr0). exists r0. auto.
  - apply filter_In in Hin. exists r. split; [apply Hin|auto].
  - apply filter_In in Hin. destruct Hin as [Hin _].
    apply filter_In in Hin. exists r. split; [apply Hin|auto].
Qed.

Lemma processed_rows_origin (p : pipeline) (choice : option Z)
  (s processed : splits) (d : row) :
  Pipeline.balance_data p choice s = Some processed ->
  In d (df_train processed) ->
  exists src, In src (df_train s) /\ (d = src \/ exists k, d = duplicate_of src k).
Proof.
  unfold Pipeline.balance_data. destruct choice as [target|].
  - destruct (DataBalancer.balance_by_column (df_train s) (Pipeline.get_class_column p)
                target true) as [balanced|] eqn:Hb; [|discriminate].
    intros [= <-] Hd. exact (balanced_rows_origin _ _ _ _ _ d Hb Hd).
  - intros [= <-] Hd. exists d. split; [exact Hd|left; reflexivity].
Qed.

(** *** The label files of the duplicates *)

Lemma append_inv_tail (a b c : string) : (a ++ c = b ++ c)%string -> a = b.
Proof.
  revert b. induction a as [|x a IH]; intros b H.
  - destruct b as [|y b]; [reflexivity|]. exfalso.
    apply (f_equal String.length) in H. cbn in H. rewrite append_length in H. lia.
  - destruct b as [|y b].
    + exfalso. apply (f_equal String.length) in H. cbn in H.
      rewrite append_length in H. lia.
    + cbn in H. injection H as -> H. f_equal. apply IH. exact H.
Qed.

Lemma label_path_stem (f f' : string) :
  YOLOConverter.label_path f = YOLOConverter.label_path f' ->
  PyPath.stem f = PyPath.stem f'.
Proof. unfold YOLOConverter.label_path. apply append_inv_tail. Qed.

(** The name of a duplicate of a plain file name splits into the stem with
    the marker and the number, and the suffix of the original. *)
Lemma duplicate_name_parts (f : string) (k : nat) :
  plain_name f ->
  PyPath.suffix (DataBalancer.dup_filename f k) = PyPath.suffix f
  /\ PyPath.stem (DataBalancer.dup_filename f k)
     = (PyPath.stem f ++ PyStr.dup_marker ++ PyStr.str_of_nat k)%string.
Proof.
  intros (Hm & Hflat & Hshape).
  assert (Hnd : f <> ".").
  { intros ->. destruct Hshape as [H|H]; [apply H; reflexivity|discriminate H]. }
  pose proof (name_of_flat f Hflat Hnd) as Hname.
  pose proof (stem_suffix f) as Hsplit. rewrite Hname in Hsplit.
  assert (Hparts : mem_char "/" (PyPath.stem f) = false
                   /\ mem_char "/" (PyPath.suffix f) = false).
  { rewrite Hsplit, mem_char_app in Hflat. apply orb_false_iff in Hflat. exact Hflat. }
  destruct Hparts as [Hst Hsu].
  unfold DataBalancer.dup_filename.
  set (pre := (PyPath.stem f ++ PyStr.dup_marker ++ PyStr.str_of_nat k)%string).
  assert (Hassoc : (PyPath.stem f ++ PyStr.dup_marker ++ PyStr.str_of_nat k
                      ++ PyPath.suffix f)%string = (pre ++ PyPath.suffix f)%string).
  { unfold pre. rewrite !append_assoc. reflexivity. }
  rewrite Hassoc.
  assert (Hpre_flat : mem_char "/" pre = false).
  { unfold pre, PyStr.str_of_nat. rewrite !mem_char_app, Hst.
    rewrite (digits_without "/" _ eq_refl (string_of_uint_digits _)). reflexivity. }
  assert (Hpre_ne : pre <> EmptyString).
  { unfold pre. intros E. apply (f_equal String.length) in E.
    rewrite !append_length in E. cbn in E. lia. }
  assert (Hsuf : PyPath.suffix (pre ++ PyPath.suffix f) = PyPath.suffix f).
  { destruct Hshape as [Hs|Hdot].
    - destruct (suffix_facts f Hs) as [Hd Hl].
      apply suffix_of_flat_app; try assumption.
      rewrite mem_char_app, Hpre_flat, Hsu. reflexivity.
    - assert (Hs0 : PyPath.suffix f = EmptyString)
        by (apply suffix_without_dot; exact Hdot).
      assert (Hsd : mem_char "." (PyPath.stem f) = false).
      { rewrite Hsplit, mem_char_app in Hdot. apply orb_false_iff in Hdot. apply Hdot. }
      rewrite Hs0, append_nil_r. apply suffix_without_dot.
      unfold pre, PyStr.str_of_nat. rewrite !mem_char_app, Hsd.
      rewrite (digits_without "." _ eq_refl (string_of_uint_digits _)). reflexivity. }
  split; [exact Hsuf|].
  assert (Hflat' : mem_char "/" (pre ++ PyPath.suffix f) = false)
    by (rewrite mem_char_app, Hpre_flat, Hsu; reflexivity).
  assert (Hnd' : (pre ++ PyPath.suffix f)%string <> ".").
  { intros E. apply (f_equal String.length) in E. unfold pre in E.
    rewrite !append_length in E. cbn in E. lia. }
  pose proof (stem_suffix (pre ++ PyPath.suffix f)) as Hsplit'.
  rewrite (name_of_flat _ Hflat' Hnd'), Hsuf in Hsplit'.
  symmetry. exact (append_inv_tail _ _ _ Hsplit').
Qed.

(** The names of originals and duplicates keep label files apart when the
    originals do. *)
Lemma processed_names_distinct (f f' n n' : string) :
  plain_name f -> plain_name f' ->
  (YOLOConverter.label_path f = YOLOConverter.label_path f' -> f = f') ->
  n = f \/ (exists k, n = DataBalancer.dup_filename f k) ->
  n' = f' \/ (exists k, n' = DataBalancer.dup_filename f' k) ->
  YOLOConverter.label_path n = YOLOConverter.label_path n' ->
  n = n'.
Proof.
  intros Hp Hp' Horig Hn Hn' E.
  assert (Hmark : forall g h k,
             plain_name g -> plain_name h ->
             PyPath.stem (DataBalancer.dup_filename g k) <> PyPath.stem h).
  { intros g h k Hg Hh Es.
    destruct (duplicate_name_parts g k Hg) as [_ Hstem]. rewrite Hstem in Es.
    destruct Hh as (Hm & _).
    pose proof (stem_without_marker h Hm) as Hno. rewrite <- Es in Hno.
    assert (Hyes : PyStr.contains PyStr.dup_marker
                     (PyPath.stem g ++ PyStr.dup_marker ++ PyStr.str_of_nat k) = true)
      by (apply contains_iff; eexists; eexists; reflexivity).
    congruence. }
  apply label_path_stem in E.
  destruct Hn as [->|(k & ->)], Hn' as [->|(k' & ->)].
  - apply Horig. unfold YOLOConverter.label_path. rewrite E. reflexivity.
  - exfalso. exact (Hmark f' f k' Hp' Hp (eq_sym E)).
  - exfalso. exact (Hmark f f' k Hp Hp' E).
  - destruct (duplicate_name_parts f k Hp) as [_ Hs].
    destruct (duplicate_name_parts f' k' Hp') as [_ Hs'].
    rewrite Hs, Hs' in E.
    destruct Hp as (Hm & _), Hp' as (Hm' & _).
    pose proof (f_equal (PyStr.before_first PyStr.dup_marker) E) as Es.
    rewrite !before_first_marker in Es by (apply stem_without_marker; assumption).
    rewrite Es in E. apply append_inv_head, append_inv_head in E.
    apply str_of_nat_inj in E. subst k'.
    assert (Ef : f = f').
    { apply Horig. unfold YOLOConverter.label_path. rewrite Es. reflexivity. }
    rewrite Ef. reflexivity.
Qed.

(** X11: in a run whose image table has plain file names, no two of which
    differ in the extension alone, whose images on disk have sizes that
    are not zero and whose copies and label files do not fail, the export
    of the training split skips nothing: every training image, duplicates
    included, is exported and copied, and its label file holds the lines
    of its processed records, one per record and in their order. *)
Theorem run_exports_the_whole_training_split (p : pipeline) (cfg : PipelineConfig)
  (choice : option Z) (train_env test_env : export_env)
  (raw prepared processed : splits) :
  Pipeline.load_and_prepare_data cfg raw = Some prepared ->
  Pipeline.balance_data p choice (Pipeline.filter_data p cfg prepared) = Some processed ->
  source train_env = train_images_dir cfg ->
  (forall f, copy_fails train_env f = false /\ open_fails train_env f = false) ->
  (forall f w h, train_images_dir cfg f = Image w h -> w <> 0 /\ h <> 0)%Z ->
  (forall r, In r (df_train raw) -> plain_name (filename r)) ->
  distinct_label_files (df_train raw) ->
  exists report log,
    Pipeline.run p cfg choice train_env test_env raw = Some report
    /\ train_export report = (distinct_filenames (df_train processed), 0, log)
    /\ (forall d, In d (df_train processed) -> image_copied (filename d) log = true)
    /\ (forall d, In d (df_train processed) ->
          label_file_complete (mapping report) (Pipeline.get_class_column p)
            (df_train processed) log d).
Proof.
  intros Hprep Hbal Hsrc Hio Hdisk Hplain Hdist.
  assert (Hlab : forall r, In r (df_train processed) ->
                           col_value (Pipeline.get_class_column p) r <> LNone).
  { apply (balanced_rows_have_label p choice _ _ Hbal).
    apply filtered_rows_have_label.
    exact (prepared_rows_have_disease cfg raw prepared Hprep). }
  destruct (export_data_mapping p train_env test_env processed Hlab)
    as (report & Hrep & Hfacts).
  cbv zeta in Hfacts.
  destruct Hfacts as (_ & _ & _ & Hin & _ & _ & Hlk & Htrain & _).
  assert (Horigin : forall d, In d (df_train processed) ->
             exists src r0,
               In r0 (df_train raw) /\ filename src = filename r0
               /\ exists_in (train_images_dir cfg) (filename src) = true
               /\ width src <> 0%Z /\ height src <> 0%Z
               /\ (d = src \/ exists k, d = duplicate_of src k)).
  { intros d Hd.
    destruct (processed_rows_origin p choice _ _ d Hbal Hd) as (src & Hs & Hor).
    destruct (filtered_rows_files p cfg prepared src Hs) as (r1 & Hr1 & Hf & Hw & Hh).
    destruct (prepared_rows_files cfg raw prepared Hdisk Hprep r1 Hr1)
      as (Hex & Hw1 & Hh1 & r0 & Hr0 & Hf0).
    exists src, r0. rewrite Hf, Hw, Hh. auto 10. }
  assert (Hready : export_ready train_env (mapping report)
                     (Pipeline.get_class_column p) (df_train processed)).
  { intros d Hd.
    destruct (Horigin d Hd) as (src & r0 & Hr0 & Hf0 & Hex & Hw & Hh & Hor).
    assert (Hpl : plain_name (filename src)).
    { rewrite Hf0. apply Hplain. exact Hr0. }
    assert (Hsn : YOLOConverter.source_name (filename d) = filename src).
    { destruct Hor as [->|(k & ->)].
      - apply source_name_of_plain. exact Hpl.
      - apply source_name_of_duplicate. exact Hpl. }
    assert (Hdim : width d = width src /\ height d = height src).
    { destruct Hor as [->|(k & ->)]; split; reflexivity. }
    destruct Hdim as [Hwd Hhd].
    rewrite Hsn, Hsrc, Hwd, Hhd.
    split; [exact Hex|]. split; [apply Hio|]. split; [apply Hio|].
    split; [|split; assumption].
    assert (Hk : In (col_value (Pipeline.get_class_column p) d)
                    (map fst (mapping report))) by (apply Hin; exists d; auto).
    apply In_nth_error in Hk. destruct Hk as [i Hi]. apply Hlk in Hi. congruence. }
  assert (Hfiles : distinct_label_files (df_train processed)).
  { intros d d' Hd Hd' E.
    destruct (Horigin d Hd) as (src & r0 & Hr0 & Hf0 & _ & _ & _ & Hor).
    destruct (Horigin d' Hd') as (src' & r0' & Hr0' & Hf0' & _ & _ & _ & Hor').
    apply (processed_names_distinct (filename r0) (filename r0')).
    - apply Hplain. exact Hr0.
    - apply Hplain. exact Hr0'.
    - apply Hdist; assumption.
    - rewrite <- Hf0. destruct Hor as [->|(k & ->)];
        [left; reflexivity|right; exists k; reflexivity].
    - rewrite <- Hf0'. destruct Hor' as [->|(k & ->)];
        [left; reflexivity|right; exists k; reflexivity].
    - exact E. }
  destruct (export_counts_of_ready_frame (df_train processed) train_env
              (mapping report) (Pipeline.get_class_column p) Hready) as [Hcount _].
  exists report. eexists. split.
  - unfold Pipeline.run. rewrite Hprep, Hbal. exact Hrep.
  - rewrite Htrain. split; [exact Hcount|]. split.
    + intros d Hd. exact (images_of_ready_frame _ _ _ _ d Hready Hd).
    + intros d Hd. exact (label_files_of_ready_frame _ _ _ _ d Hready Hfiles Hd).
Qed.

Lemma run_exports_the_whole_training_split_witness :
  exists prepared processed,
    Pipeline.load_and_prepare_data sample_config sample_raw = Some prepared
    /\ Pipeline.balance_data Binary (Some 3%Z)
         (Pipeline.filter_data Binary sample_config prepared) = Some processed
    /\ source sample_env = train_images_dir sample_config
    /\ (forall f, copy_fails sample_env f = false /\ open_fails sample_env f = false)
    /\ (forall f w h, train_images_dir sample_config f = Image w h -> w <> 0 /\ h <> 0)%Z
    /\ (forall r, In r (df_train sample_raw) -> plain_name (filename r))
    /\ distinct_label_files (df_train sample_raw)
    /\ distinct_filenames (df_train processed) = 4
    /\ exists report log,
         Pipeline.run Binary sample_config (Some 3%Z) sample_env sample_env sample_raw
         = Some report
         /\ train_export report = (distinct_filenames (df_train processed), 0, log)
         /\ (forall d, In d (df_train processed) ->
                       image_copied (filename d) log = true)
         /\ (forall d, In d (df_train processed) ->
               label_file_complete (mapping report) (Pipeline.get_class_column Binary)
                 (df_train processed) log d).
Proof.
  destruct (Pipeline.load_and_prepare_data sample_config sample_raw)
    as [prepared|] eqn:Hprep; [|vm_compute in Hprep; discriminate Hprep].
  destruct (Pipeline.balance_data Binary (Some 3%Z)
              (Pipeline.filter_data Binary sample_config prepared))
    as [processed|] eqn:Hbal;
    [|vm_compute in Hprep; injection Hprep as <-; vm_compute in Hbal; discriminate Hbal].
  exists prepared, processed.
  assert (H3 : source sample_env = train_images_dir sample_config) by reflexivity.
  assert (H4 : forall f, copy_fails sample_env f = false /\ open_fails sample_env f = false)
    by (intros f; split; reflexivity).
  assert (H5 : (forall f w h, train_images_dir sample_config f = Image w h ->
                              w <> 0 /\ h <> 0)%Z).
  { intros f w h. cbn. unfold sample_folder.
    destruct (String.eqb f "a.jpg"); [intros [= <- <-]; lia|].
    destruct (String.eqb f "b.jpg"); [intros [= <- <-]; lia|].
    destruct (String.eqb f "c.jpg"); [intros [= <- <-]; lia|discriminate]. }
  assert (H6 : forall r, In r (df_train sample_raw) -> plain_name (filename r)).
  { intros r Hr. cbn in Hr.
    repeat (destruct Hr as [<-|Hr];
            [split; [reflexivity|split; [reflexivity|left; discriminate]]|]).
    destruct Hr. }
  assert (H7 : distinct_label_files (df_train sample_raw)).
  { intros r r' Hr Hr'. cbn in Hr, Hr'.
    repeat (destruct Hr as [<-|Hr]);
      repeat (destruct Hr' as [<-|Hr']);
      try contradiction; intros E; try reflexivity; vm_compute in E; discriminate E. }
  split; [reflexivity|]. split; [exact Hbal|].
  split; [exact H3|]. split; [exact H4|]. split; [exact H5|]. split; [exact H6|].
  split; [exact H7|]. split.
  - vm_compute in Hprep. injection Hprep as <-. vm_compute in Hbal.
    injection Hbal as <-. reflexivity.
  - exact (run_exports_the_whole_training_split Binary sample_config (Some 3%Z)
             sample_env sample_env sample_raw prepared processed
             Hprep Hbal H3 H4 H5 H6 H7).
Defined.

(** ** More on validation *)

Lemma fix_zero_dimensions_fixed_point (fs : folder) (l : DataFrame) :
  (forall r, In r l -> DataValidator.fix_row fs r = Some r) ->
  DataValidator.fix_zero_dimensions fs l = Some l.
Proof.
  induction l as [|r l IH]; intros H; cbn; [reflexivity|].
  rewrite (H r (or_introl eq_refl)), IH; [reflexivity|].
  intros r' Hr'. apply H. right. exact Hr'.
Qed.

Lemma fix_row_nonzero (fs : folder) (r : row) :
  width r <> 0%Z -> height r <> 0%Z -> DataValidator.fix_row fs r = Some r.
Proof.
  intros Hw Hh. unfold DataValidator.fix_row.
  destruct (Z.eqb_spec (width r) 0); [contradiction|].
  destruct (Z.eqb_spec (height r) 0); [contradiction|]. reflexivity.
Qed.

(** X12: validation is idempotent on what it keeps: when the images on
    disk have sizes that are not zero, every record of a validated frame
    has its image on disk, and validating a validated frame that holds a
    record returns it unchanged.  A validated frame that holds no record
    (every image was missing) is not validated again: the filter raises on
    a frame without rows. *)
Theorem validation_is_idempotent (fs : folder) (df out : DataFrame) :
  (forall f w h, fs f = Image w h -> w <> 0 /\ h <> 0)%Z ->
  DataValidator.validate_and_fix fs df = Some out ->
  (forall r, In r out -> exists_in fs (filename r) = true)
  /\ (out <> [] -> DataValidator.validate_and_fix fs out = Some out)
  /\ (out = [] -> DataValidator.validate_and_fix fs out = None).
Proof.
  intros Hdisk Hout.
  assert (Hex : forall r, In r out -> exists_in fs (filename r) = true)
    by (intros r Hr; exact (validated_rows_exist fs df out r Hout Hr)).
  split; [exact Hex|]. split.
  - intros Hne. unfold DataValidator.validate_and_fix.
    rewrite fix_zero_dimensions_fixed_point.
    + destruct out as [|r0 out']; [contradiction Hne; reflexivity|].
      unfold DataValidator.verify_files_exist.
      rewrite filter_all; [reflexivity|exact Hex].
    + intros r Hr. destruct (validated_rows fs df out r Hout Hr) as (r0 & _ & Hfix).
      destruct (fix_row_kept fs r0 r Hfix (Hex r Hr))
        as [(w & h & Hf & Hw & Hh)|(-> & Hw & Hh)].
      * destruct (Hdisk _ _ _ Hf). apply fix_row_nonzero; congruence.
      * apply fix_row_nonzero; assumption.
  - intros ->. reflexivity.
Qed.

Lemma validation_is_idempotent_witness :
  exists out,
    (forall f w h, sample_folder f = Image w h -> w <> 0 /\ h <> 0)%Z
    /\ DataValidator.validate_and_fix sample_folder (df_train sample_raw) = Some out
    /\ map filename out = ["a.jpg"; "a.jpg"; "b.jpg"; "c.jpg"]
    /\ (forall r, In r out -> exists_in sample_folder (filename r) = true)
    /\ (out <> [] -> DataValidator.validate_and_fix sample_folder out = Some out)
    /\ (out = [] -> DataValidator.validate_and_fix sample_folder out = None).
Proof.
  assert (H : (forall f w h, sample_folder f = Image w h -> w <> 0 /\ h <> 0)%Z).
  { intros f w h. unfold sample_folder.
    destruct (String.eqb f "a.jpg"); [intros [= <- <-]; lia|].
    destruct (String.eqb f "b.jpg"); [intros [= <- <-]; lia|].
    destruct (String.eqb f "c.jpg"); [intros [= <- <-]; lia|discriminate]. }
  destruct (DataValidator.validate_and_fix sample_folder (df_train sample_raw))
    as [out|] eqn:E; [|vm_compute in E; discriminate E].
  exists out. split; [exact H|]. split; [reflexivity|].
  split; [vm_compute in E; injection E as <-; reflexivity|].
  exact (validation_is_idempotent sample_folder (df_train sample_raw) out H E).
Defined.

(** X13: the dimension repair keeps the number and order of the records and
    changes nothing but widths and heights: a record whose width and height
    are not zero, or whose image is missing, is left as it is, and any
    other record gets both sizes of its image. *)
Theorem repair_touches_only_zero_sizes (fs : folder) (df out : DataFrame) :
  DataValidator.fix_zero_dimensions fs df = Some out ->
  Forall2
    (fun r r' =>
       (filename r', class_ r', xmin r', xmax r', ymin r', ymax r')
       = (filename r, class_ r, xmin r, xmax r, ymin r, ymax r)
       /\ (species r', disease r', binary_class r')
          = (species r, disease r, binary_class r)
       /\ ((width r <> 0 /\ height r <> 0)%Z \/ fs (filename r) = Missing -> r' = r)
       /\ ((width r = 0 \/ height r = 0)%Z ->
           forall w h, fs (filename r) = Image w h -> width r' = w /\ height r' = h))
    df out.
Proof.
  intros H. apply fix_zero_dimensions_rows in H.
  induction H as [|r r' df out Hfix _ IH]; constructor; [|exact IH].
  unfold DataValidator.fix_row in Hfix.
  assert (Hzero : forall w h,
             (width r = 0 \/ height r = 0)%Z ->
             fs (filename r) = Image w h -> r' = set_size w h r).
  { intros w h Hz Hf. rewrite Hf in Hfix.
    destruct (Z.eqb_spec (width r) 0); cbn [orb] in Hfix; [congruence|].
    destruct (Z.eqb_spec (height r) 0); [congruence|]. destruct Hz; contradiction. }
  assert (Hsame : (width r <> 0 /\ height r <> 0)%Z \/ fs (filename r) = Missing ->
                  r' = r).
  { intros [[Hw Hh]|Hm].
    - destruct (Z.eqb_spec (width r) 0); [contradiction|].
      destruct (Z.eqb_spec (height r) 0); [contradiction|]. cbn in Hfix. congruence.
    - rewrite Hm in Hfix. destruct (_ || _); congruence. }
  assert (Hcols : r' = r \/ exists w h, r' = set_size w h r).
  { destruct (Z.eqb (width r) 0 || Z.eqb (height r) 0).
    - destruct (fs (filename r)) as [|w h|]; try discriminate; injection Hfix as <-;
        [left; reflexivity|right; exists w, h; reflexivity].
    - injection Hfix as <-. left. reflexivity. }
  split; [destruct Hcols as [->|(w & h & ->)]; reflexivity|].
  split; [destruct Hcols as [->|(w & h & ->)]; reflexivity|].
  split; [exact Hsame|].
  intros Hz w h Hf. rewrite (Hzero w h Hz Hf). split; reflexivity.
Qed.

Lemma repair_touches_only_zero_sizes_witness :
  exists out,
    DataValidator.fix_zero_dimensions sample_folder (df_train sample_raw) = Some out
    /\ map (fun r => (width r, height r)) out
       = [(100, 200); (100, 200); (640, 480); (320, 240); (0, 0)]%Z
    /\ Forall2
         (fun r r' =>
            (filename r', class_ r', xmin r', xmax r', ymin r', ymax r')
            = (filename r, class_ r, xmin r, xmax r, ymin r, ymax r)
            /\ (species r', disease r', binary_class r')
               = (species r, disease r, binary_class r)
            /\ ((width r <> 0 /\ height r <> 0)%Z \/ sample_folder (filename r) = Missing
                -> r' = r)
            /\ ((width r = 0 \/ height r = 0)%Z ->
                forall w h, sample_folder (filename r) = Image w h ->
                            width r' = w /\ height r' = h))
         (df_train sample_raw) out.
Proof.
  destruct (DataValidator.fix_zero_dimensions sample_folder (df_train sample_raw))
    as [out|] eqn:E; [|vm_compute in E; discriminate E].
  exists out. split; [reflexivity|]. split.
  - vm_compute in E. injection E as <-. reflexivity.
  - exact (repair_touches_only_zero_sizes sample_folder (df_train sample_raw) out E).
Defined.



(** ** Cleaning class names *)

Lemma underscores_gone (s : string) :
  mem_char "_" (PyStr.underscores_to_spaces s) = false.
Proof.
  induction s as [|c s IH]; cbn; [reflexivity|]. rewrite IH.
  destruct (Ascii.eqb_spec c "_"); [reflexivity|].
  rewrite orb_false_r. apply Ascii.eqb_neq. assumption.
Qed.

Lemma lstrip_keeps_absent (c : ascii) (s : string) :
  mem_char c s = false -> mem_char c (PyStr.lstrip s) = false.
Proof.
  induction s as [|x s IH]; cbn; [reflexivity|]. intros H.
  destruct (PyStr.is_space x); [|exact H].
  apply IH. apply orb_false_iff in H. apply H.
Qed.

Lemma rstrip_keeps_absent (c : ascii) (s : string) :
  mem_char c s = false -> mem_char c (PyStr.rstrip s) = false.
Proof.
  induction s as [|x s IH]; cbn [PyStr.rstrip mem_char]; [reflexivity|]. intros H.
  apply orb_false_iff in H. destruct H as [Hx Hs]. specialize (IH Hs).
  destruct (PyStr.rstrip s) as [|y r].
  - destruct (PyStr.is_space x); cbn; [reflexivity|]. rewrite Hx. reflexivity.
  - cbn [mem_char] in *. rewrite Hx. exact IH.
Qed.

Lemma lstrip_head (s : string) (c : ascii) :
  PyStr.head (PyStr.lstrip s) = Some c -> PyStr.is_space c = false.
Proof.
  induction s as [|x s IH]; cbn; [discriminate|].
  destruct (PyStr.is_space x) eqn:E; [exact IH|]. cbn. intros [= <-]. exact E.
Qed.

Lemma lstrip_fixed (s : string) :
  (forall c, PyStr.head s = Some c -> PyStr.is_space c = false) ->
  PyStr.lstrip s = s.
Proof.
  destruct s as [|x s]; [reflexivity|]. intros H. cbn.
  rewrite (H x eq_refl). reflexivity.
Qed.

Lemma rstrip_last (s : string) (c : ascii) :
  last_char (PyStr.rstrip s) = Some c -> PyStr.is_space c = false.
Proof.
  induction s as [|x s IH]; cbn [PyStr.rstrip]; [discriminate|].
  destruct (PyStr.rstrip s) as [|y r].
  - destruct (PyStr.is_space x) eqn:E; [discriminate|]. cbn. intros [= <-]. exact E.
  - exact IH.
Qed.

Lemma rstrip_fixed (s : string) :
  (forall c, last_char s = Some c -> PyStr.is_space c = false) ->
  PyStr.rstrip s = s.
Proof.
  induction s as [|x s IH]; [reflexivity|]. intros H. cbn [PyStr.rstrip].
  destruct s as [|y s].
  - cbn. rewrite (H x eq_refl). reflexivity.
  - rewrite IH; [reflexivity|]. intros c Hc. apply H. exact Hc.
Qed.

Lemma rstrip_head (s : string) (c : ascii) :
  PyStr.head (PyStr.rstrip s) = Some c -> PyStr.head s = Some c.
Proof.
  destruct s as [|x s]; cbn [PyStr.rstrip]; [discriminate|].
  destruct (PyStr.rstrip s).
  - destruct (PyStr.is_space x); [discriminate|]. exact (fun H => H).
  - exact (fun H => H).
Qed.

(** A stripped text is left alone by another [strip]. *)
Lemma strip_fixed (s : string) : PyStr.strip (PyStr.strip s) = PyStr.strip s.
Proof.
  unfold PyStr.strip at 1.
  rewrite lstrip_fixed.
  - apply rstrip_fixed. intros c. unfold PyStr.strip. apply rstrip_last.
  - intros c Hc. unfold PyStr.strip in Hc. apply rstrip_head in Hc.
    exact (lstrip_head s c Hc).
Qed.

(** X15: [clean_class_names] keeps the number and order of the records and
    changes only the class column, and every cleaned class text is free of
    underscores and of leading and trailing whitespace.  It is not
    idempotent: underscores become spaces after the runs of white space
    have been collapsed, so a cleaned text can hold two spaces in a row,
    which a second cleaning collapses. *)
Theorem cleaned_class_names_are_trimmed (df : DataFrame) :
  Forall2
    (fun r r' =>
       r' = set_class (class_ r') r
       /\ mem_char "_" (class_ r') = false
       /\ PyStr.strip (class_ r') = class_ r'
       /\ (forall c, PyStr.head (class_ r') = Some c -> PyStr.is_space c = false)
       /\ (forall c, last_char (class_ r') = Some c -> PyStr.is_space c = false))
    df (DataLoader.clean_class_names df)
  /\ (exists s,
        DataLoader.clean_class_name s = "Tomato  Blight"
        /\ DataLoader.clean_class_name (DataLoader.clean_class_name s) = "Tomato Blight").
Proof.
  split; [|exists "Tomato_leaf Blight"; split; reflexivity].
  unfold DataLoader.clean_class_names.
  induction df as [|r df IH]; cbn [map]; constructor; [|exact IH].
  cbn [set_class class_]. unfold DataLoader.clean_class_name.
  set (t := PyStr.underscores_to_spaces (PyStr.collapse_ws (PyStr.remove_ci "leaf" (class_ r)))).
  split; [reflexivity|]. split.
  - unfold PyStr.strip. apply rstrip_keeps_absent, lstrip_keeps_absent, underscores_gone.
  - split; [apply strip_fixed|]. split.
    + intros c Hc. unfold PyStr.strip in Hc. apply rstrip_head in Hc.
      exact (lstrip_head t c Hc).
    + intros c. unfold PyStr.strip. apply rstrip_last.
Qed.

(** ** Letter case *)

Lemma in_all_ascii (c : ascii) : In c all_ascii.
Proof.
  unfold all_ascii. rewrite <- (ascii_nat_embedding c).
  apply in_map, in_seq. pose proof (nat_ascii_bounded c). lia.
Qed.

Lemma check_all_pairs (P : ascii -> ascii -> bool) :
  forallb (fun a => forallb (P a) all_ascii) all_ascii = true ->
  forall a b, P a b = true.
Proof.
  intros H a b. rewrite forallb_forall in H.
  specialize (H a (in_all_ascii a)). rewrite forallb_forall in H.
  exact (H b (in_all_ascii b)).
Qed.

(** What two characters that differ by case only have in common. *)
Lemma same_letter_facts (a b : ascii) :
  PyStr.lower a = PyStr.lower b ->
  PyStr.is_word a = PyStr.is_word b
  /\ PyStr.is_space a = PyStr.is_space b
  /\ cased a = cased b
  /\ title_char true a = title_char true b
  /\ title_char false a = title_char false b.
Proof.
  intros H.
  pose proof (check_all_pairs
                (fun x y =>
                   if Ascii.eqb (PyStr.lower x) (PyStr.lower y)
                   then Bool.eqb (PyStr.is_word x) (PyStr.is_word y)
                        && Bool.eqb (PyStr.is_space x) (PyStr.is_space y)
                        && Bool.eqb (cased x) (cased y)
                        && Ascii.eqb (title_char true x) (title_char true y)
                        && Ascii.eqb (title_char false x) (title_char false y)
                   else true)
                ltac:(vm_compute; reflexivity) a b) as Hc.
  cbv beta in Hc. rewrite H, Ascii.eqb_refl in Hc.
  repeat (apply andb_true_iff in Hc; destruct Hc as [Hc ?]).
  repeat split;
    first [apply Bool.eqb_prop; assumption | apply Ascii.eqb_eq; assumption].
Qed.

Lemma title_from_step (b : bool) (c : ascii) (s : string) :
  PyStr.title_from b (String c s)
  = String (title_char b c) (PyStr.title_from (cased c) s).
Proof.
  cbn [PyStr.title_from]. unfold title_char, cased.
  destruct (PyStr.is_lower c); [reflexivity|].
  destruct (PyStr.is_upper c); reflexivity.
Qed.

Lemma lower_str_cons_inv (c : ascii) (s t : string) :
  lower_str (String c s) = lower_str t ->
  exists d t', t = String d t' /\ PyStr.lower c = PyStr.lower d
               /\ lower_str s = lower_str t'.
Proof.
  destruct t as [|d t']; cbn; [discriminate|]. intros [= H1 H2]. eauto.
Qed.

Lemma lower_str_nil_inv (t : string) : lower_str "" = lower_str t -> t = "".
Proof. destruct t; [reflexivity|discriminate]. Qed.

Lemma title_from_same (s : string) :
  forall t b, lower_str s = lower_str t ->
              PyStr.title_from b s = PyStr.title_from b t.
Proof.
  induction s as [|c s IH]; intros t b H.
  - rewrite (lower_str_nil_inv t H). reflexivity.
  - destruct (lower_str_cons_inv c s t H) as (d & t' & -> & Hc & Hs).
    rewrite !title_from_step.
    destruct (same_letter_facts c d Hc) as (_ & _ & Hcased & Ht & Hf).
    rewrite Hcased, (IH t' (cased d) Hs). destruct b; [rewrite Ht|rewrite Hf]; reflexivity.
Qed.

Lemma starts_ci_same (pat : string) :
  forall s t, lower_str s = lower_str t -> PyStr.starts_ci pat s = PyStr.starts_ci pat t.
Proof.
  induction pat as [|p pat IH]; intros s t H; [reflexivity|].
  destruct s as [|c s].
  - rewrite (lower_str_nil_inv t H). reflexivity.
  - destruct (lower_str_cons_inv c s t H) as (d & t' & -> & Hc & Hs).
    cbn [PyStr.starts_ci]. rewrite Hc, (IH s t' Hs). reflexivity.
Qed.

Lemma nth_char_same (n : nat) :
  forall s t, lower_str s = lower_str t ->
              PyStr.is_word_opt (PyStr.nth_char n s) = PyStr.is_word_opt (PyStr.nth_char n t).
Proof.
  induction n as [|n IH]; intros s t H; destruct s as [|c s].
  - rewrite (lower_str_nil_inv t H). reflexivity.
  - destruct (lower_str_cons_inv c s t H) as (d & t' & -> & Hc & Hs).
    cbn. apply (same_letter_facts c d Hc).
  - rewrite (lower_str_nil_inv t H). reflexivity.
  - destruct (lower_str_cons_inv c s t H) as (d & t' & -> & Hc & Hs).
    cbn [PyStr.nth_char]. apply IH. exact Hs.
Qed.

Lemma word_match_same (pat : string) (p q : option ascii) (s t : string) :
  PyStr.is_word_opt p = PyStr.is_word_opt q ->
  lower_str s = lower_str t ->
  PyStr.word_match pat p s = PyStr.word_match pat q t.
Proof.
  intros Hp H. unfold PyStr.word_match, PyStr.boundary.
  rewrite (starts_ci_same pat s t H), Hp.
  assert (Hh : PyStr.is_word_opt (PyStr.head s) = PyStr.is_word_opt (PyStr.head t)).
  { pose proof (nth_char_same 0 s t H) as H0. destruct s, t; exact H0. }
  rewrite Hh, (nth_char_same (String.length pat) s t H).
  destruct (String.length pat) as [|n]; cbn [PyStr.char_before].
  - rewrite Hp. reflexivity.
  - rewrite (nth_char_same n s t H). reflexivity.
Qed.

Lemma re_search_from_same (pat : string) (s : string) :
  forall t p q,
    PyStr.is_word_opt p = PyStr.is_word_opt q ->
    lower_str s = lower_str t ->
    PyStr.re_search_from pat p s = PyStr.re_search_from pat q t.
Proof.
  induction s as [|c s IH]; intros t p q Hp H.
  - rewrite (lower_str_nil_inv t H). cbn [PyStr.re_search_from].
    rewrite (word_match_same pat p q "" "" Hp eq_refl). reflexivity.
  - destruct (lower_str_cons_inv c s t H) as (d & t' & -> & Hc & Hs).
    cbn [PyStr.re_search_from].
    rewrite (word_match_same pat p q (String c s) (String d t') Hp H).
    rewrite (IH t' (Some c) (Some d)); [reflexivity| |exact Hs].
    cbn. apply (same_letter_facts c d Hc).
Qed.

Lemma re_sub_from_same (pat : string) (s : string) :
  forall t p q k,
    PyStr.is_word_opt p = PyStr.is_word_opt q ->
    lower_str s = lower_str t ->
    lower_str (PyStr.re_sub_from pat p k s) = lower_str (PyStr.re_sub_from pat q k t).
Proof.
  induction s as [|c s IH]; intros t p q k Hp H.
  - rewrite (lower_str_nil_inv t H). reflexivity.
  - destruct (lower_str_cons_inv c s t H) as (d & t' & -> & Hc & Hs).
    assert (Hcd : PyStr.is_word_opt (Some c) = PyStr.is_word_opt (Some d))
      by (cbn; apply (same_letter_facts c d Hc)).
    cbn [PyStr.re_sub_from]. destruct k as [|k].
    + rewrite (word_match_same pat p q (String c s) (String d t') Hp H).
      destruct (PyStr.word_match pat q (String d t')).
      * apply IH; assumption.
      * cbn [lower_str]. rewrite Hc. f_equal. apply IH; assumption.
    + apply IH; assumption.
Qed.

Lemma re_sub_same (pat s t : string) :
  lower_str s = lower_str t ->
  lower_str (PyStr.re_sub pat s) = lower_str (PyStr.re_sub pat t).
Proof.
  intros H. unfold PyStr.re_sub. destruct pat; [exact H|].
  apply re_sub_from_same; [reflexivity|exact H].
Qed.

Lemma lstrip_same (s : string) :
  forall t, lower_str s = lower_str t ->
            lower_str (PyStr.lstrip s) = lower_str (PyStr.lstrip t).
Proof.
  induction s as [|c s IH]; intros t H.
  - rewrite (lower_str_nil_inv t H). reflexivity.
  - destruct (lower_str_cons_inv c s t H) as (d & t' & -> & Hc & Hs).
    cbn [PyStr.lstrip].
    destruct (same_letter_facts c d Hc) as (_ & Hsp & _). rewrite Hsp.
    destruct (PyStr.is_space d); [apply IH; exact Hs|exact H].
Qed.

Lemma rstrip_same (s : string) :
  forall t, lower_str s = lower_str t ->
            lower_str (PyStr.rstrip s) = lower_str (PyStr.rstrip t).
Proof.
  induction s as [|c s IH]; intros t H.
  - rewrite (lower_str_nil_inv t H). reflexivity.
  - destruct (lower_str_cons_inv c s t H) as (d & t' & -> & Hc & Hs).
    cbn [PyStr.rstrip]. specialize (IH t' Hs).
    destruct (same_letter_facts c d Hc) as (_ & Hsp & _).
    destruct (PyStr.rstrip s) as [|x r], (PyStr.rstrip t') as [|y r'];
      try discriminate IH.
    + rewrite Hsp. destruct (PyStr.is_space d); [reflexivity|].
      cbn. rewrite Hc. reflexivity.
    + cbn [lower_str] in *. rewrite Hc, IH. reflexivity.
Qed.

Lemma remove_species_same (sp : list string) :
  forall s t, lower_str s = lower_str t ->
              lower_str (FeatureExtractor.remove_species sp s)
              = lower_str (FeatureExtractor.remove_species sp t).
Proof.
  induction sp as [|p sp IH]; intros s t H; cbn [FeatureExtractor.remove_species];
    [exact H|].
  apply IH. unfold PyStr.strip. apply rstrip_same, lstrip_same, re_sub_same. exact H.
Qed.

(** X16: feature extraction does not depend on letter case: two class
    texts that differ only by the case of their letters get the same
    species and the same disease. *)
Theorem features_ignore_letter_case (sp : list string) (text text' : string) :
  lower_str text = lower_str text' ->
  FeatureExtractor.extract_species sp text = FeatureExtractor.extract_species sp text'
  /\ FeatureExtractor.extract_disease sp text = FeatureExtractor.extract_disease sp text'.
Proof.
  intros H. split.
  - unfold FeatureExtractor.extract_species.
    induction sp as [|p sp IH]; cbn [FeatureExtractor.first_match]; [reflexivity|].
    assert (Hp : PyStr.re_search p text = PyStr.re_search p text')
      by (apply re_search_from_same; [reflexivity|exact H]).
    rewrite Hp, IH. reflexivity.
  - unfold FeatureExtractor.extract_disease.
    pose proof (remove_species_same sp text text' H) as Hr.
    destruct (FeatureExtractor.remove_species sp text) as [|c r] eqn:E1.
    + rewrite (lower_str_nil_inv _ Hr). reflexivity.
    + destruct (lower_str_cons_inv c r _ Hr) as (d & r' & -> & Hc & Hs).
      unfold PyStr.title. apply title_from_same. cbn [lower_str].
      rewrite Hc, Hs. reflexivity.
Qed.

Lemma features_ignore_letter_case_witness :
  lower_str "TOMATO Early BLIGHT" = lower_str "tomato early blight"
  /\ FeatureExtractor.extract_species sample_species "TOMATO Early BLIGHT" = Some "Tomato"
  /\ FeatureExtractor.extract_species sample_species "TOMATO Early BLIGHT"
     = FeatureExtractor.extract_species sample_species "tomato early blight"
  /\ FeatureExtractor.extract_disease sample_species "TOMATO Early BLIGHT"
     = FeatureExtractor.extract_disease sample_species "tomato early blight".
Proof.
  assert (H : lower_str "TOMATO Early BLIGHT" = lower_str "tomato early blight")
    by reflexivity.
  split; [exact H|]. split; [reflexivity|].
  exact (features_ignore_letter_case sample_species _ _ H).
Defined.


(** ** The sentinel and the binary label *)

Lemma check_all_chars (P : ascii -> bool) :
  forallb P all_ascii = true -> forall a, P a = true.
Proof.
  intros H a. rewrite forallb_forall in H. exact (H a (in_all_ascii a)).
Qed.

Lemma title_starts_upper (c : ascii) :
  PyStr.is_lower (title_char false c) = false.
Proof.
  apply negb_true_iff.
  exact (check_all_chars (fun x => negb (PyStr.is_lower (title_char false x)))
           ltac:(vm_compute; reflexivity) c).
Qed.

(** The disease is never empty, and it is the sentinel exactly when the
    species names use up the class text. *)
Lemma extract_disease_sentinel (sp : list string) (text : string) :
  FeatureExtractor.extract_disease sp text <> EmptyString
  /\ (FeatureExtractor.extract_disease sp text = "healthy"
      <-> FeatureExtractor.remove_species sp text = EmptyString).
Proof.
  unfold FeatureExtractor.extract_disease.
  destruct (FeatureExtractor.remove_species sp text) as [|c r].
  - split; [discriminate|]. split; reflexivity.
  - unfold PyStr.title. rewrite title_from_step. split; [discriminate|].
    split; [|discriminate]. intros [= Hc _].
    pose proof (title_starts_upper c) as Hu. rewrite Hc in Hu. discriminate Hu.
Qed.

Ltac next_char d := destruct d as [|[[] [] [] [] [] [] [] []] d]; try reflexivity.

(** The comparison [disease != 'healthy'] behind the binary label. *)
Lemma binary_label_spec (r : row) :
  Pipeline.binary_label r
  = match disease r with
    | Some d => if String.eqb d "healthy" then 0%Z else 1%Z
    | None => 1%Z
    end.
Proof.
  unfold Pipeline.binary_label. destruct (disease r) as [d|]; [|reflexivity].
  do 7 (next_char d). destruct d; reflexivity.
Qed.


(** X17: in the binary pipeline a record is labelled 0 exactly when the
    species names use up its whole class text, and 1 otherwise; the
    labelling drops no record of either split, and no record has an empty
    disease. *)
Theorem binary_label_is_the_empty_remainder (sp : list string)
  (cfg : PipelineConfig) (tr te : DataFrame) :
  let labelled :=
    Pipeline.filter_data Binary cfg
      (mkSplits (FeatureExtractor.add_features sp tr)
                (FeatureExtractor.add_features sp te)) in
  let same := fun r r' =>
    filename r' = filename r
    /\ disease r' = Some (FeatureExtractor.extract_disease sp (class_ r))
    /\ disease r' <> Some EmptyString
    /\ (binary_class r' = Some 0%Z
        <-> FeatureExtractor.remove_species sp (class_ r) = EmptyString)
    /\ (binary_class r' = Some 1%Z
        <-> FeatureExtractor.remove_species sp (class_ r) <> EmptyString) in
  Forall2 same tr (df_train labelled) /\ Forall2 same te (df_test labelled).
Proof.
  cbv zeta. cbn [Pipeline.filter_data df_train df_test].
  assert (H : forall df,
             Forall2
               (fun r r' =>
                  filename r' = filename r
                  /\ disease r' = Some (FeatureExtractor.extract_disease sp (class_ r))
                  /\ disease r' <> Some EmptyString
                  /\ (binary_class r' = Some 0%Z
                      <-> FeatureExtractor.remove_species sp (class_ r) = EmptyString)
                  /\ (binary_class r' = Some 1%Z
                      <-> FeatureExtractor.remove_species sp (class_ r) <> EmptyString))
               df
               (map (fun r => set_binary (Pipeline.binary_label r) r)
                    (FeatureExtractor.add_features sp df))).
  { unfold FeatureExtractor.add_features. intros df. rewrite map_map.
    induction df as [|r df IH]; cbn [map]; constructor; [|exact IH].
    rewrite binary_label_spec. cbn [set_binary set_features filename disease binary_class].
    destruct (extract_disease_sentinel sp (class_ r)) as [Hne Hs].
    split; [reflexivity|]. split; [reflexivity|]. split; [congruence|].
    destruct (String.eqb_spec (FeatureExtractor.extract_disease sp (class_ r)) "healthy")
      as [E|E].
    - split; split; try reflexivity; try discriminate.
      + intros _. apply Hs. exact E.
      + intros Hn. contradiction (Hn (proj1 Hs E)).
    - split; split; try reflexivity; try discriminate.
      + intros Hr. contradiction (E (proj2 Hs Hr)).
      + intros _ Hr. contradiction (E (proj2 Hs Hr)). }
  split; apply H.
Qed.

(** ** An empty entry in the species list *)

Lemma re_search_from_empty (s : string) :
  forall prev,
    PyStr.re_search_from "" prev s = PyStr.is_word_opt prev || has_word s.
Proof.
  induction s as [|c s IH]; intros prev; cbn [PyStr.re_search_from has_word].
  - unfold PyStr.word_match, PyStr.boundary. cbn.
    destruct (PyStr.is_word_opt prev); reflexivity.
  - rewrite IH. unfold PyStr.word_match, PyStr.boundary. cbn.
    destruct (PyStr.is_word_opt prev), (PyStr.is_word c), (has_word s); reflexivity.
Qed.

Lemma first_match_found (found : string -> string -> bool) (sp : list string)
  (text p : string) :
  In p sp -> found p text = true ->
  FeatureExtractor.first_match found sp text <> None.
Proof.
  induction sp as [|q sp IH]; intros Hin Hf; [destruct Hin|].
  cbn. destruct (found q text) eqn:E; [discriminate|].
  destruct Hin as [->|Hin]; [congruence|]. apply IH; assumption.
Qed.

(** X18: when [PLANT_SPECIES] is not set the species list is the single
    empty name, and an empty name in the list (an unset variable, a stray
    comma) matches every class text that holds a word character: such a
    text always gets a species, the empty one when the list is only that. *)
Theorem empty_species_entry_matches_every_text :
  Config.parse_plant_species "" = [""]
  /\ (forall text,
        FeatureExtractor.extract_species (Config.parse_plant_species "") text
        = if has_word text then Some "" else None)
  /\ (forall sp text,
        In "" sp -> has_word text = true ->
        FeatureExtractor.extract_species sp text <> None).
Proof.
  split; [reflexivity|]. split.
  - intros text. change (Config.parse_plant_species "") with [""].
    unfold FeatureExtractor.extract_species. cbn [FeatureExtractor.first_match].
    unfold PyStr.re_search. rewrite re_search_from_empty. reflexivity.
  - intros sp text Hin Hw. unfold FeatureExtractor.extract_species.
    apply (first_match_found PyStr.re_search sp text "" Hin).
    unfold PyStr.re_search. rewrite re_search_from_empty. exact Hw.
Qed.

(** ** The filters of the species and disease pipelines *)

(** X19: after feature extraction the species filter keeps exactly the
    records whose class text matches an entry of the species list, and the
    species of a kept record is the first entry of the list that matches
    its text. *)
Theorem species_filter_keeps_matched_records (sp : list string)
  (cfg : PipelineConfig) (tr te : DataFrame) :
  let featured := mkSplits (FeatureExtractor.add_features sp tr)
                           (FeatureExtractor.add_features sp te) in
  let filtered := Pipeline.filter_data Species cfg featured in
  let kept := fun before after =>
    (forall r, In r after <->
               In r before /\ exists p, In p sp /\ PyStr.re_search p (class_ r) = true)
    /\ (forall r, In r after ->
          exists pre p post,
            sp = pre ++ p :: post /\ species r = Some p
            /\ PyStr.re_search p (class_ r) = true
            /\ forall q, In q pre -> PyStr.re_search q (class_ r) = false) in
  kept (df_train featured) (df_train filtered)
  /\ kept (df_test featured) (df_test filtered).
Proof.
  cbv zeta. cbn [Pipeline.filter_data df_train df_test].
  assert (Hrow : forall df r,
             In r (FeatureExtractor.add_features sp df) ->
             species r = FeatureExtractor.extract_species sp (class_ r)).
  { intros df r Hr. unfold FeatureExtractor.add_features in Hr.
    apply in_map_iff in Hr. destruct Hr as (r0 & <- & _). reflexivity. }
  assert (H : forall df,
             (forall r, In r (filter Pipeline.has_species (FeatureExtractor.add_features sp df))
                        <-> In r (FeatureExtractor.add_features sp df)
                            /\ exists p, In p sp /\ PyStr.re_search p (class_ r) = true)
             /\ (forall r, In r (filter Pipeline.has_species (FeatureExtractor.add_features sp df)) ->
                   exists pre p post,
                     sp = pre ++ p :: post /\ species r = Some p
                     /\ PyStr.re_search p (class_ r) = true
                     /\ forall q, In q pre -> PyStr.re_search q (class_ r) = false)).
  { intros df. split.
    - intros r. rewrite filter_In. split.
      + intros [Hin Hs]. split; [exact Hin|].
        unfold Pipeline.has_species in Hs. rewrite (Hrow df r Hin) in Hs.
        unfold FeatureExtractor.extract_species in Hs.
        destruct (FeatureExtractor.first_match PyStr.re_search sp (class_ r)) as [p|] eqn:E;
          [|discriminate].
        destruct (first_match_some _ _ _ _ E) as (pre & post & -> & Hp & _).
        exists p. split; [apply in_or_app; right; left; reflexivity|exact Hp].
      + intros [Hin (p & Hp & Hm)]. split; [exact Hin|].
        unfold Pipeline.has_species. rewrite (Hrow df r Hin).
        pose proof (first_match_found PyStr.re_search sp (class_ r) p Hp Hm) as Hne.
        unfold FeatureExtractor.extract_species.
        destruct (FeatureExtractor.first_match PyStr.re_search sp (class_ r));
          [reflexivity|contradiction].
    - intros r Hr. apply filter_In in Hr. destruct Hr as [Hin Hs].
      unfold Pipeline.has_species in Hs. pose proof (Hrow df r Hin) as Hsp.
      unfold FeatureExtractor.extract_species in Hsp.
      destruct (FeatureExtractor.first_match PyStr.re_search sp (class_ r)) as [p|] eqn:E.
      + destruct (first_match_some _ _ _ _ E) as (pre & post & Hl & Hp & Hq).
        exists pre, p, post. auto.
      + rewrite Hsp in Hs. discriminate Hs. }
  split; apply H.
Qed.

Lemma not_healthy_spec (r : row) :
  Pipeline.not_healthy r
  = negb (label_eqb (col_value ColDisease r) (LStr "healthy")).
Proof.
  unfold Pipeline.not_healthy. cbn [col_value]. destruct (disease r) as [d|];
    [|reflexivity].
  cbn [opt_str label_eqb].
  do 7 (next_char d). destruct d; reflexivity.
Qed.

Lemma rows_with_filter_by_key (key : row -> label) (g : label -> bool)
  (v : label) (df : DataFrame) :
  rows_with key v (filter (fun r => g (key r)) df)
  = if g v then rows_with key v df else [].
Proof.
  unfold rows_with. induction df as [|r df IH]; cbn [filter].
  - destruct (g v); reflexivity.
  - destruct (label_eqb (key r) v) eqn:E.
    + apply label_eqb_eq in E. rewrite E.
      destruct (g v) eqn:G.
      * cbn [filter]. rewrite E at 1. rewrite label_eqb_refl.
        rewrite IH. reflexivity.
      * exact IH.
    + destruct (g (key r)); [cbn [filter]; rewrite E|]; exact IH.
Qed.

Lemma filter_twice {A : Type} (f g : A -> bool) (l : list A) :
  filter f (filter g l) = filter (fun x => g x && f x) l.
Proof.
  induction l as [|x l IH]; [reflexivity|]. cbn [filter].
  destruct (g x); cbn [filter andb]; [destruct (f x)|]; rewrite IH; reflexivity.
Qed.

Lemma isin_in (l : list label) (v : label) :
  Pipeline.isin l v = true <-> In v l.
Proof.
  unfold Pipeline.isin. rewrite existsb_exists. split.
  - intros (x & Hx & E). apply label_eqb_eq in E. subst. exact Hx.
  - intros H. exists v. split; [exact H|apply label_eqb_refl].
Qed.

Lemma all_excluded_in (cfg : PipelineConfig) (df : DataFrame) (v : label) :
  In v (Pipeline.all_excluded cfg df)
  <-> In v (Pipeline.rare_diseases (rare_disease_threshold cfg) df)
      \/ exists d, In d (excluded_diseases cfg) /\ v = LStr d.
Proof.
  unfold Pipeline.all_excluded. rewrite unique_in, in_app_iff, in_map_iff.
  split; (intros [H|(d & H1 & H2)]; [left; exact H|right; exists d; auto]).
Qed.

Lemma missing_is_never_excluded (cfg : PipelineConfig) (df : DataFrame) :
  ~ In LNone (Pipeline.all_excluded cfg df).
Proof.
  rewrite all_excluded_in. intros [H|(d & _ & H)]; [|discriminate H].
  unfold Pipeline.rare_diseases in H. apply filter_In in H. destruct H as [H _].
  apply (proj1 (unique_in _ _)) in H. apply filter_In in H. destruct H as [_ H].
  discriminate H.
Qed.

(** The disease filter as one selection by the disease value. *)
Lemma disease_filter_by_key (excl : list label) (df : DataFrame) :
  filter (fun r => negb (Pipeline.isin excl (col_value ColDisease r)))
         (filter Pipeline.not_healthy df)
  = filter (fun r => (fun v => negb (label_eqb v (LStr "healthy")
                                     || Pipeline.isin excl v))
                       (col_value ColDisease r)) df.
Proof.
  rewrite filter_twice. apply filter_ext. intros r. rewrite not_healthy_spec.
  cbv beta. rewrite negb_orb. reflexivity.
Qed.

(** X20: the disease filter removes whole classes and decides once for both
    splits: a disease is removed when it is "healthy" or on the exclusion
    list built from the training split, and then none of its records stays
    in either split; every other disease keeps all its records in both.
    Records without a disease value are never removed. *)
Theorem disease_filter_removes_whole_classes (cfg : PipelineConfig) (s : splits) :
  let out := Pipeline.filter_data Disease cfg s in
  let excl := Pipeline.all_excluded cfg (filter Pipeline.not_healthy (df_train s)) in
  let removed := fun v => label_eqb v (LStr "healthy") || Pipeline.isin excl v in
  (forall v,
     Pipeline.count_label v ColDisease (df_train out)
     = (if removed v then 0 else Pipeline.count_label v ColDisease (df_train s))
     /\ Pipeline.count_label v ColDisease (df_test out)
        = (if removed v then 0 else Pipeline.count_label v ColDisease (df_test s)))
  /\ removed LNone = false.
Proof.
  cbv zeta. cbn [Pipeline.filter_data df_train df_test].
  set (excl := Pipeline.all_excluded cfg (filter Pipeline.not_healthy (df_train s))).
  assert (H : forall df v,
             Pipeline.count_label v ColDisease
               (filter (fun r => negb (Pipeline.isin excl (col_value ColDisease r)))
                       (filter Pipeline.not_healthy df))
             = if label_eqb v (LStr "healthy") || Pipeline.isin excl v
               then 0 else Pipeline.count_label v ColDisease df).
  { intros df v. unfold Pipeline.count_label. rewrite disease_filter_by_key.
    rewrite (rows_with_filter_by_key (col_value ColDisease)
               (fun v => negb (label_eqb v (LStr "healthy") || Pipeline.isin excl v))
               v df).
    cbv beta.
    destruct (label_eqb v (LStr "healthy") || Pipeline.isin excl v); reflexivity. }
  split.
  - intros v. split; apply H.
  - cbn [label_eqb orb]. destruct (Pipeline.isin excl LNone) eqn:E; [|reflexivity].
    apply isin_in in E. contradiction (missing_is_never_excluded _ _ E).
Qed.

(** X21: a disease that stays in the training split after the disease
    filter is not on the manual exclusion list, and its records make up at
    least the rarity threshold of the training records that have a disease
    other than "healthy" (the share compared as an exact fraction). *)
Theorem kept_diseases_reach_the_threshold (cfg : PipelineConfig) (s : splits)
  (r : row) (d : string) :
  In r (df_train (Pipeline.filter_data Disease cfg s)) ->
  disease r = Some d ->
  let candidates := filter Pipeline.not_healthy (df_train s) in
  let labelled :=
    filter (fun k => negb (is_none k)) (map (col_value ColDisease) candidates) in
  ~ In d (excluded_diseases cfg)
  /\ (rare_disease_threshold cfg * inject_Z (Z.of_nat (List.length labelled))
      <= inject_Z (Z.of_nat (Pipeline.count_label (LStr d) ColDisease candidates)))%Q.
Proof.
  intros Hin Hd. cbv zeta. cbn [Pipeline.filter_data df_train] in Hin.
  apply filter_In in Hin. destruct Hin as [Hcand Hkeep].
  assert (Hv : col_value ColDisease r = LStr d) by (cbn [col_value]; rewrite Hd; reflexivity).
  rewrite Hv in Hkeep. apply negb_true_iff in Hkeep.
  assert (Hnot : ~ In (LStr d)
                   (Pipeline.all_excluded cfg (filter Pipeline.not_healthy (df_train s)))).
  { intros H. apply isin_in in H. congruence. }
  rewrite all_excluded_in in Hnot.
  split.
  - intros Hm. apply Hnot. right. exists d. auto.
  - set (candidates := filter Pipeline.not_healthy (df_train s)) in *.
    assert (Hlab : In (LStr d)
                     (filter (fun k => negb (is_none k))
                             (map (col_value ColDisease) candidates))).
    { apply filter_In. split; [|reflexivity]. rewrite <- Hv. apply in_map. exact Hcand. }
    assert (Hrare : Pipeline.is_rare (rare_disease_threshold cfg) candidates (LStr d) = false).
    { destruct (Pipeline.is_rare (rare_disease_threshold cfg) candidates (LStr d)) eqn:E;
        [|reflexivity].
      exfalso. apply Hnot. left. unfold Pipeline.rare_diseases.
      apply filter_In. split; [|exact E]. apply unique_in. exact Hlab. }
    unfold Pipeline.is_rare in Hrare.
    set (n := List.length (filter (fun k => negb (is_none k))
                                  (map (col_value ColDisease) candidates))) in *.
    set (c := Pipeline.count_label (LStr d) ColDisease candidates) in *.
    assert (Hn : (0 < inject_Z (Z.of_nat n))%Q).
    { change 0%Q with (inject_Z 0). rewrite <- Zlt_Qlt.
      assert (n <> 0)%nat; [|lia].
      unfold n. intros E. apply length_zero_iff_nil in E. rewrite E in Hlab.
      destruct Hlab. }
    apply Qnot_lt_le. intros Hlt.
    assert (Hlt' : (inject_Z (Z.of_nat c) / inject_Z (Z.of_nat n)
                    < rare_disease_threshold cfg)%Q).
    { apply Qlt_shift_div_r; [exact Hn|exact Hlt]. }
    pose proof (proj1 (Qlt_alt _ _) Hlt') as Hc. rewrite Hc in Hrare.
    discriminate Hrare.
Qed.

Lemma kept_diseases_reach_the_threshold_witness :
  In (disease_row "a.jpg" "Rust")
     (df_train (Pipeline.filter_data Disease sample_config
                  (mkSplits sample_disease_train [])))
  /\ ~ In "Rust" (excluded_diseases sample_config)
  /\ (rare_disease_threshold sample_config * inject_Z 4 <= inject_Z 2)%Q.
Proof.
  assert (H : In (disease_row "a.jpg" "Rust")
                (df_train (Pipeline.filter_data Disease sample_config
                             (mkSplits sample_disease_train []))))
    by (left; reflexivity).
  split; [exact H|].
  exact (kept_diseases_reach_the_threshold sample_config
           (mkSplits sample_disease_train []) _ "Rust" H eq_refl).
Defined.

(** ** Pipeline types and output directories *)

(** X22: every pipeline names a type that the configuration and the
    dispatcher both know: its output paths exist, the dispatcher builds
    that very pipeline, and both reject exactly the same names.  The
    output directories of two different pipelines never contain one
    another, and the two image and two label directories and the
    configuration file of a pipeline all lie below its own directory. *)
Theorem pipelines_write_to_separate_directories :
  (forall p, Dispatch.run_single_pipeline (Dispatch.get_pipeline_type p) = Some p)
  /\ (forall t, Dispatch.run_single_pipeline t = None
                <-> Dispatch.get_output_paths t = None)
  /\ (forall t p, Dispatch.run_single_pipeline t = Some p
                  -> t = Dispatch.get_pipeline_type p)
  /\ (forall p, exists o,
        Dispatch.get_output_paths (Dispatch.get_pipeline_type p) = Some o
        /\ path_prefix (base_dir o) (images_train o) = true
        /\ path_prefix (base_dir o) (images_val o) = true
        /\ path_prefix (base_dir o) (labels_train o) = true
        /\ path_prefix (base_dir o) (labels_val o) = true
        /\ path_prefix (base_dir o) (yaml_file o) = true)
  /\ (forall p q o o',
        Dispatch.get_output_paths (Dispatch.get_pipeline_type p) = Some o ->
        Dispatch.get_output_paths (Dispatch.get_pipeline_type q) = Some o' ->
        p <> q -> path_prefix (base_dir o) (base_dir o') = false).
Proof.
  split; [intros []; reflexivity|].
  split.
  { intros t. unfold Dispatch.run_single_pipeline, Dispatch.get_output_paths.
    destruct (String.eqb t "binary"); [split; discriminate|].
    destruct (String.eqb t "species"); [split; discriminate|].
    destruct (String.eqb t "disease"); [split; discriminate|].
    split; reflexivity. }
  split.
  { intros t p. unfold Dispatch.run_single_pipeline.
    destruct (String.eqb_spec t "binary") as [->|_];
      [intros H; injection H as <-; reflexivity|].
    destruct (String.eqb_spec t "species") as [->|_];
      [intros H; injection H as <-; reflexivity|].
    destruct (String.eqb_spec t "disease") as [->|_];
      [intros H; injection H as <-; reflexivity|].
    discriminate. }
  split.
  { intros []; eexists; (split; [reflexivity|]); repeat split; reflexivity. }
  intros p q o o' Ho Ho' Hpq.
  destruct p, q; try (contradiction Hpq; reflexivity);
    cbv in Ho, Ho'; injection Ho as <-; injection Ho' as <-; reflexivity.
Qed.


(** ** Label files and the dataset configuration *)

Lemma names_of_lookup (df : DataFrame) (col : column) (m : class_mapping) :
  YOLOConverter.create_class_mapping df col = Some m ->
  forall i c, In (i, c) (YOLOConverter.names_of m) <-> lookup c m = Some i.
Proof.
  intros Hm.
  destruct (create_class_mapping_spec df col m Hm) as (_ & _ & _ & _ & _ & _ & Hlk).
  cbv zeta in Hlk.
  assert (Em : m = combine (map fst m) (seq 0 (List.length (map fst m)))).
  { revert Hm. rewrite create_class_mapping_unfold.
    destruct (column_cells _ _); [|discriminate].
    destruct (sortable _); [|discriminate]. intros [= <-].
    rewrite combine_seq_fst. reflexivity. }
  set (keys := map fst m) in *.
  assert (En : YOLOConverter.names_of m = combine (seq 0 (List.length keys)) keys).
  { unfold YOLOConverter.names_of. rewrite Em.
    rewrite (names_of_enumeration keys 0 []); [reflexivity|intros e []]. }
  intros i c. rewrite En, Hlk.
  assert (Hgen : forall (l : list label) a,
             In (i, c) (combine (seq a (List.length l)) l)
             <-> exists j, i = a + j /\ nth_error l j = Some c).
  { induction l as [|x l IH]; intros a; cbn [combine seq List.length].
    - split; [intros []|intros (j & _ & H); destruct j; discriminate].
    - cbn [In]. rewrite IH. split.
      + intros [[= <- <-]|(j & -> & Hj)].
        * exists 0. split; [lia|reflexivity].
        * exists (S j). split; [lia|exact Hj].
      + intros (j & -> & Hj). destruct j as [|j].
        * left. cbn in Hj. injection Hj as ->. f_equal. lia.
        * right. exists j. split; [lia|exact Hj]. }
  rewrite Hgen. split.
  - intros (j & -> & Hj). exact Hj.
  - intros H. exists i. auto.
Qed.

Lemma write_rows_lines (m : class_mapping) (col : column) (p : string) :
  forall rows path l,
    In (WriteLine path l) (fst (YOLOConverter.write_rows m col p rows)) ->
    path = p /\ exists r, In r rows /\ YOLOConverter.label_of_row m col r = inr l.
Proof.
  induction rows as [|r rows IH]; intros path l H; cbn [YOLOConverter.write_rows] in H.
  - destruct H.
  - destruct (YOLOConverter.label_of_row m col r) as [e|l0] eqn:E; [destruct H|].
    destruct (YOLOConverter.write_rows m col p rows) as [evs res].
    cbn [fst In] in H, IH. destruct H as [H|H].
    + injection H as <- <-. split; [reflexivity|]. exists r. split; [left; reflexivity|exact E].
    + destruct (IH path l H) as (-> & r' & Hr' & El). split; [reflexivity|].
      exists r'. split; [right; exact Hr'|exact El].
Qed.

Lemma export_group_lines (env : export_env) (m : class_mapping) (col : column)
  (f : string) (group : DataFrame) (path : string) (l : label_line) :
  In (WriteLine path l) (fst (YOLOConverter.export_group env m col f group)) ->
  path = YOLOConverter.label_path f
  /\ exists r, In r group /\ YOLOConverter.label_of_row m col r = inr l.
Proof.
  unfold YOLOConverter.export_group. cbv zeta.
  destruct (negb (exists_in (source env) (YOLOConverter.source_name f))); [intros []|].
  destruct (copy_fails env f); [intros []|].
  destruct (open_fails env (YOLOConverter.label_path f)).
  - cbn. intros [H|[]]. discriminate H.
  - pose proof (write_rows_lines m col (YOLOConverter.label_path f) group path l) as Hw.
    destruct (YOLOConverter.write_rows m col (YOLOConverter.label_path f) group)
      as [evs res].
    cbn [fst In] in *. intros [H|[H|H]]; [discriminate H|discriminate H|].
    exact (Hw H).
Qed.

(** X23: the label files agree with [dataset.yaml].  With the mapping built
    from the training frame, every line written while exporting any frame
    carries the values of a record of that frame, in the label file named
    after the record's image; its class index is below [nc], and the
    [names] table of the configuration gives the record's label at that
    index. *)
Theorem label_lines_name_yaml_classes (train df : DataFrame) (col : column)
  (env : export_env) (m : class_mapping) (dir tr va : string)
  (path : string) (l : label_line) :
  YOLOConverter.create_class_mapping train col = Some m ->
  In (WriteLine path l) (snd (YOLOConverter.export_to_yolo df env m col)) ->
  let y := YOLOConverter.create_yaml_config dir m tr va in
  cls_idx l < yaml_nc y
  /\ exists r,
       In r df
       /\ path = YOLOConverter.label_path (filename r)
       /\ In (cls_idx l, col_value col r) (yaml_names y)
       /\ YOLOConverter.convert_bbox_to_yolo r
          = inr (x_c l, y_c l, box_w l, box_h l).
Proof.
  intros Hm Hin. cbv zeta. cbn [yaml_nc yaml_names YOLOConverter.create_yaml_config].
  pose proof (export_to_yolo_closed df env m col) as Hc. cbv zeta in Hc.
  rewrite Hc in Hin. cbn [snd] in Hin.
  apply in_flat_map in Hin. destruct Hin as (g & Hg & Hev).
  unfold groupby in Hg. apply in_map_iff in Hg. destruct Hg as (k & <- & Hk).
  unfold group_run in Hev. cbn [fst snd] in Hev.
  apply export_group_lines in Hev. destruct Hev as (-> & r & Hr & El).
  unfold rows_with in Hr. apply filter_In in Hr. destruct Hr as [Hr Hkey].
  apply label_eqb_eq in Hkey. subst k. cbn [col_value YOLOConverter.group_name].
  unfold YOLOConverter.label_of_row in El.
  destruct (lookup (col_value col r) m) as [idx|] eqn:Elk; [|discriminate El].
  destruct (YOLOConverter.convert_bbox_to_yolo r) as [e|[[[xc yc] w] h]] eqn:Eb;
    [discriminate El|].
  injection El as <-. cbn [cls_idx x_c y_c box_w box_h].
  destruct (create_class_mapping_spec train col m Hm) as (_ & _ & _ & _ & _ & _ & Hlk).
  cbv zeta in Hlk.
  split.
  - apply Hlk in Elk. assert (Hlt : idx < List.length (map fst m)).
    { apply nth_error_Some. rewrite Elk. discriminate. }
    rewrite length_map in Hlt. exact Hlt.
  - exists r. split; [exact Hr|]. split; [reflexivity|]. split; [|exact Eb].
    apply (names_of_lookup train col m Hm). exact Elk.
Qed.

Lemma label_lines_name_yaml_classes_witness :
  let m := [(LStr "Potato", 0); (LStr "Tomato", 1)] in
  let l := mkLine 0 (3 # 640) (7 # 480) (1 # 320) (1 # 240) in
  YOLOConverter.create_class_mapping plain_frame ColSpecies = Some m
  /\ In (WriteLine "c.txt" l)
        (snd (YOLOConverter.export_to_yolo plain_frame sample_env m ColSpecies))
  /\ let y := YOLOConverter.create_yaml_config "/out" m "images/train" "images/val" in
     cls_idx l < yaml_nc y
     /\ exists r,
          In r plain_frame
          /\ "c.txt" = YOLOConverter.label_path (filename r)
          /\ In (cls_idx l, col_value ColSpecies r) (yaml_names y)
          /\ YOLOConverter.convert_bbox_to_yolo r
             = inr (x_c l, y_c l, box_w l, box_h l).
Proof.
  intros m l.
  assert (Hm : YOLOConverter.create_class_mapping plain_frame ColSpecies = Some m)
    by reflexivity.
  assert (Hin : In (WriteLine "c.txt" l)
                   (snd (YOLOConverter.export_to_yolo plain_frame sample_env m ColSpecies)))
    by (vm_compute; do 8 right; left; reflexivity).
  split; [exact Hm|]. split; [exact Hin|].
  exact (label_lines_name_yaml_classes plain_frame plain_frame ColSpecies sample_env m
           "/out" "images/train" "images/val" "c.txt" l Hm Hin).
Defined.


(** ** Reading the species list *)

Lemma split_comma_entries (s : string) :
  forall cur,
    mem_char "," cur = false ->
    Config.split_comma cur s <> []
    /\ Forall (fun n => mem_char "," n = false) (Config.split_comma cur s).
Proof.
  induction s as [|c s IH]; intros cur Hcur; cbn [Config.split_comma].
  - split; [discriminate|]. constructor; [exact Hcur|constructor].
  - destruct (Ascii.eqb c ",") eqn:E.
    + split; [discriminate|]. constructor; [exact Hcur|].
      apply IH. reflexivity.
    + apply IH. rewrite mem_char_app, Hcur. cbn. rewrite E. reflexivity.
Qed.

Lemma split_comma_app (n : string) :
  forall cur s,
    mem_char "," n = false ->
    Config.split_comma cur (n ++ s) = Config.split_comma (cur ++ n) s.
Proof.
  induction n as [|c n IH]; intros cur s Hn; cbn [append].
  - rewrite append_nil_r. reflexivity.
  - cbn [mem_char] in Hn. apply orb_false_iff in Hn. destruct Hn as [Hc Hn].
    cbn [Config.split_comma]. rewrite Hc. rewrite IH by exact Hn.
    rewrite append_assoc. reflexivity.
Qed.

Lemma split_comma_concat (names : list string) :
  forall n cur,
    Forall (fun x => mem_char "," x = false) (n :: names) ->
    Config.split_comma cur (String.concat "," (n :: names)) = (cur ++ n)%string :: names.
Proof.
  induction names as [|n' names IH]; intros n cur H.
  - cbn [String.concat]. inversion H as [|? ? Hn _]; subst.
    rewrite <- (append_nil_r n) at 1. rewrite split_comma_app by exact Hn.
    reflexivity.
  - inversion H as [|? ? Hn Hrest]; subst.
    change (String.concat "," (n :: n' :: names))
      with (n ++ "," ++ String.concat "," (n' :: names))%string.
    rewrite split_comma_app by exact Hn.
    cbn [append Config.split_comma]. cbn [Ascii.eqb Bool.eqb andb].
    rewrite (IH n' EmptyString Hrest). reflexivity.
Qed.

(** X24: the species list read from [PLANT_SPECIES] is never empty and its
    entries are trimmed and hold no comma; and a non-empty list of trimmed,
    comma-free names written with commas between them is read back as
    that very list. *)
Theorem species_list_round_trip :
  (forall value,
     Config.parse_plant_species value <> []
     /\ Forall (fun n => PyStr.strip n = n /\ mem_char "," n = false)
               (Config.parse_plant_species value))
  /\ (forall names,
        names <> [] ->
        Forall (fun n => PyStr.strip n = n /\ mem_char "," n = false) names ->
        Config.parse_plant_species (String.concat "," names) = names).
Proof.
  split.
  - intros value. unfold Config.parse_plant_species.
    destruct (split_comma_entries value EmptyString eq_refl) as [Hne Hall].
    split.
    + destruct (Config.split_comma EmptyString value); [contradiction Hne; reflexivity|discriminate].
    + clear Hne. induction Hall as [|n l Hn _ IH]; cbn [map]; [constructor|].
      constructor; [|exact IH].
      split; [apply strip_fixed|].
      unfold PyStr.strip. apply rstrip_keeps_absent, lstrip_keeps_absent, Hn.
  - intros names Hne Hall. destruct names as [|n names]; [contradiction Hne; reflexivity|].
    unfold Config.parse_plant_species. rewrite split_comma_concat.
    + cbn [append]. clear Hne. induction Hall as [|x l [Hx _] _ IH]; [reflexivity|].
      cbn [map]. rewrite Hx, IH. reflexivity.
    + clear Hne. induction Hall as [|x l [_ Hx] _ IH]; constructor; assumption.
Qed.

Lemma species_list_round_trip_witness :
  sample_species <> []
  /\ Forall (fun n => PyStr.strip n = n /\ mem_char "," n = false) sample_species
  /\ Config.parse_plant_species "Apple,Potato,Tomato,Grape" = sample_species.
Proof.
  assert (Hne : sample_species <> []) by discriminate.
  assert (Hall : Forall (fun n => PyStr.strip n = n /\ mem_char "," n = false)
                        sample_species)
    by (repeat constructor).
  split; [exact Hne|]. split; [exact Hall|].
  exact (proj2 species_list_round_trip sample_species Hne Hall).
Defined.


(** ** The balancing dialogue *)

Lemma max_possible_nonneg (p : pipeline) (df : DataFrame) (m : Z) :
  Dialogue.max_possible p df = Some m -> (0 <= m)%Z.
Proof.
  unfold Dialogue.max_possible, Dialogue.min_count. cbv zeta.
  destruct (map snd (DataBalancer.get_class_distribution df (Pipeline.get_class_column p)))
    as [|c cs].
  - destruct p; discriminate.
  - destruct p; cbn [option_map]; intros [= <-]; lia.
Qed.

Lemma ask_target_sound (limit : option Z) :
  (forall m, limit = Some m -> (0 <= m)%Z) ->
  forall n inputs t,
    List.length inputs <= n ->
    Dialogue.ask_target limit inputs = Target t ->
    (0 < t)%Z /\ exists line, In line inputs /\ PyInt.int_of_str line = Some t.
Proof.
  intros Hlim. induction n as [|n IH]; intros inputs t Hn H.
  - destruct inputs; [discriminate H|cbn in Hn; lia].
  - destruct inputs as [|line rest]; [discriminate H|].
    cbn [List.length] in Hn. cbn [Dialogue.ask_target] in H.
    destruct (PyInt.int_of_str line) as [v|] eqn:Ev.
    + destruct (Dialogue.exceeds v limit) eqn:Ex.
      * destruct rest as [|confirm rest']; [discriminate H|].
        destruct (String.eqb (lower_str (PyStr.strip confirm)) "y").
        -- injection H as <-. split.
           ++ unfold Dialogue.exceeds in Ex. destruct limit as [m|]; [|discriminate Ex].
              specialize (Hlim m eq_refl). apply Z.ltb_lt in Ex. lia.
           ++ exists line. split; [left; reflexivity|exact Ev].
        -- cbn [List.length] in Hn.
           destruct (IH rest' t ltac:(lia) H) as (Hp & l & Hl & El).
           split; [exact Hp|]. exists l. split; [right; right; exact Hl|exact El].
      * destruct (0 <? v)%Z eqn:Epos.
        -- injection H as <-. split; [apply Z.ltb_lt; exact Epos|].
           exists line. split; [left; reflexivity|exact Ev].
        -- destruct (IH rest t ltac:(lia) H) as (Hp & l & Hl & El).
           split; [exact Hp|]. exists l. split; [right; exact Hl|exact El].
    + destruct (IH rest t ltac:(lia) H) as (Hp & l & Hl & El).
      split; [exact Hp|]. exists l. split; [right; exact Hl|exact El].
Qed.

(** X25: whatever the operator types, the dialogue of [balance_data] hands
    the balancer only a positive target, one that was typed on some line,
    and only after a line that reads "1"; without the dialogue, or when a
    line reading "2" comes before any line reading "1", the natural
    distribution is kept. *)
Theorem dialogue_accepts_only_positive_targets (p : pipeline) (df : DataFrame) :
  (forall interactive inputs t,
     Dialogue.balance_choice p interactive df inputs = Target t ->
     interactive = true
     /\ (0 < t)%Z
     /\ (exists line, In line inputs /\ PyInt.int_of_str line = Some t)
     /\ (exists line, In line inputs /\ PyStr.strip line = "1"))
  /\ (forall inputs, Dialogue.balance_choice p false df inputs = Natural)
  /\ (forall before line rest,
        PyStr.strip line = "2" ->
        Forall (fun l => PyStr.strip l <> "1") before ->
        Dialogue.balance_choice p true df (before ++ line :: rest) = Natural).
Proof.
  split; [|split].
  - intros interactive inputs t H. unfold Dialogue.balance_choice in H.
    destruct interactive; [|discriminate H]. split; [reflexivity|].
    induction inputs as [|line rest IH]; [discriminate H|].
    cbn [Dialogue.ask_choice] in H. cbv zeta in H.
    destruct (String.eqb_spec (PyStr.strip line) "1") as [E1|_].
    + destruct (ask_target_sound (Dialogue.max_possible p df)
                  (max_possible_nonneg p df) (List.length rest) rest t (le_n _) H)
        as (Hp & l & Hl & El).
      split; [exact Hp|]. split.
      * exists l. split; [right; exact Hl|exact El].
      * exists line. split; [left; reflexivity|exact E1].
    + destruct (String.eqb (PyStr.strip line) "2"); [discriminate H|].
      destruct (IH H) as (Hp & (l & Hl & El) & (c & Hc & Ec)).
      split; [exact Hp|]. split.
      * exists l. split; [right; exact Hl|exact El].
      * exists c. split; [right; exact Hc|exact Ec].
  - reflexivity.
  - intros before line rest H2 Hb. unfold Dialogue.balance_choice.
    induction Hb as [|l before Hl _ IH]; cbn [app Dialogue.ask_choice]; cbv zeta.
    + rewrite H2. reflexivity.
    + destruct (String.eqb_spec (PyStr.strip l) "1") as [E|_]; [contradiction|].
      destruct (String.eqb (PyStr.strip l) "2"); [reflexivity|exact IH].
Qed.

Lemma dialogue_accepts_only_positive_targets_witness :
  let inputs := ["x"; " 1 "; "abc"; "0"; "5"; "n"; "2"] in
  Dialogue.balance_choice Species true plain_frame inputs = Target 2
  /\ (0 < 2)%Z
  /\ (exists line, In line inputs /\ PyInt.int_of_str line = Some 2%Z)
  /\ (exists line, In line inputs /\ PyStr.strip line = "1").
Proof.
  intros inputs.
  assert (H : Dialogue.balance_choice Species true plain_frame inputs = Target 2)
    by reflexivity.
  split; [exact H|].
  exact (proj2 (proj1 (dialogue_accepts_only_positive_targets Species plain_frame)
                  true inputs 2%Z H)).
Defined.
